(** * grpc-bidir: the request tunnel between controller and agents

    A shallow embedding of the agent's HTTP executor and cancel registry,
    of the agent's credential refresher, of the hello frames of both agent
    programs and of the controller's inbound HTTP handler, followed by the
    properties of the specification that concern them.

    Conventions of the embedding:
    - Go maps are [gmap]s; a [range] over a map visits the entries in an
      unspecified order, so a loop that builds a list from a map is written
      over an explicit enumeration of the map ([makeHeaders_range]) and run
      on [map_to_list]; what is proved about its result is proved for every
      enumeration;
    - Go integers are [Z]; byte slices are lists of bytes;
    - a goroutine is run to completion against the answers of its
      environment (the backend, the frames arriving on a channel), which are
      arguments of the function;
    - a nil pointer is [None]; a run-time panic is an explicit outcome;
    - locks are not modelled, and neither is the goroutine of the handler
      that watches for the client going away: no property below is about
      them. *)

From Stdlib Require Import ZArith Ascii.
From Stdlib.Strings Require Byte.
From stdpp Require Import gmap strings list fin_maps.

Abbreviation bytes := (list Byte.byte).

#[global] Instance byte_eq_decision : EqDecision Byte.byte := Byte.byte_eq_dec.

(** ** net/textproto and net/http headers *)

Module textproto.

Definition isLower (c : ascii) : bool :=
  let n := nat_of_ascii c in (97 <=? n)%nat && (n <=? 122)%nat.
Definition isUpper (c : ascii) : bool :=
  let n := nat_of_ascii c in (65 <=? n)%nat && (n <=? 90)%nat.
Definition isDigit (c : ascii) : bool :=
  let n := nat_of_ascii c in (48 <=? n)%nat && (n <=? 57)%nat.

Definition toLower : nat := 32.

Definition tokenPunct : list ascii := String.list_ascii_of_string "!#$%&'*+-.^_`|~".

(** The bytes allowed in a header field name (RFC 7230 token). *)
Definition validHeaderFieldByte (c : ascii) : bool :=
  isLower c || isUpper c || isDigit c || bool_decide (c ∈ tokenPunct).

(** First letter upper case and upper case after each dash. *)
Fixpoint canonicalize (upper : bool) (a : string) : string :=
  match a with
  | EmptyString => EmptyString
  | String c a' =>
      let c' :=
        if upper && isLower c then ascii_of_nat (nat_of_ascii c - toLower)
        else if negb upper && isUpper c then ascii_of_nat (nat_of_ascii c + toLower)
        else c in
      String c' (canonicalize (bool_decide (c' = "-"%char)) a')
  end.

(** A key holding a byte that is not valid in a field name is returned
    unchanged. *)
Definition CanonicalMIMEHeaderKey (s : string) : string :=
  if forallb validHeaderFieldByte (String.list_ascii_of_string s)
  then canonicalize true s else s.

End textproto.

Module http.

Definition StatusOK : Z := 200.
Definition StatusBadGateway : Z := 502.

(** [http.Header] is [map[string][]string]. *)
Abbreviation Header := (gmap string (list string)).

Definition Header_Add (key value : string) (h : Header) : Header :=
  let k := textproto.CanonicalMIMEHeaderKey key in
  <[k := default [] (h !! k) ++ [value]]> h.

Definition Header_Set (key value : string) (h : Header) : Header :=
  <[textproto.CanonicalMIMEHeaderKey key := [value]]> h.

Definition Header_Del (key : string) (h : Header) : Header :=
  delete (textproto.CanonicalMIMEHeaderKey key) h.

End http.

(** ** Package tunnel: constants and frames *)

Module tunnel.

Definition DefaultPort : Z := 9001.

(** The version of the protocol the agent and controllers speak. *)
Definition CurrentProtocolVersion : Z := 10.

Record HttpHeader := mkHttpHeader { Name : string; Values : list string }.

Record HttpRequest := mkHttpRequest {
  req_Id : string;
  req_Target : string;
  req_Protocol : string;
  req_Method : string;
  req_URI : string;
  req_Headers : list HttpHeader;
  req_Body : bytes
}.

Record HttpResponse := mkHttpResponse {
  resp_Id : string;
  resp_Target : string;
  resp_Status : Z;
  resp_ContentLength : Z;
  resp_Headers : list HttpHeader
}.

Record HttpChunkedResponse := mkHttpChunkedResponse {
  chunk_Id : string;
  chunk_Target : string;
  chunk_Body : bytes
}.

Record AgentHello := mkAgentHello {
  Protocols : list string;
  CommandNames : list string;
  KubernetesNamespaces : list string;
  ProtocolVersion : Z
}.

Record PingRequest := mkPingRequest { Ts : Z }.

(** The arms of the agent-to-controller union.  [AS_Unknown] stands for
    an arm this build does not know. *)
Inductive ASEvent :=
| AS_AgentHello (h : AgentHello)
| AS_PingRequest (p : PingRequest)
| AS_HttpResponse (r : HttpResponse)
| AS_HttpChunkedResponse (c : HttpChunkedResponse)
| AS_Unknown.

(** A wrapper whose [Event] is nil has no arm populated. *)
Record ASEventWrapper := mkASEventWrapper { Event : option ASEvent }.

Definition isHeaderFrame (f : ASEventWrapper) : bool :=
  match Event f with Some (AS_HttpResponse _) => true | _ => false end.

Definition isChunkFrame (f : ASEventWrapper) : bool :=
  match Event f with Some (AS_HttpChunkedResponse _) => true | _ => false end.

(** A terminating chunk is a chunk frame with an empty body. *)
Definition isTerminatingChunk (f : ASEventWrapper) : bool :=
  match Event f with
  | Some (AS_HttpChunkedResponse c) => bool_decide (chunk_Body c = [])
  | _ => false
  end.

End tunnel.

(** ** crypto/x509 and crypto/tls, as far as the agent looks into them *)

Module x509.
Record Certificate := mkCertificate { Raw : bytes }.
(** [Certificate.Equal] compares the DER encodings. *)
Definition Equal (c1 c2 : Certificate) : bool := bool_decide (Raw c1 = Raw c2).
End x509.

Module tls.
Definition VersionTLS12 : Z := 771.
(** [Certificate] is the chain, leaf first. *)
Record Certificate := mkCertificate { Certificate_chain : list bytes; PrivateKey : bytes }.
Record Config := mkConfig {
  MinVersion : Z;
  InsecureSkipVerify : bool;
  RootCAs : list x509.Certificate;
  Certificates : list Certificate
}.
End tls.

(** ** The agent (package main of the agent program) *)

Module Agent.
Import tunnel.

(** The agent's [makeHeaders] turns a header map into a list of
    [HttpHeader], one per entry; [entries] is the order in which the
    [range] visits the map. *)
Definition makeHeaders_range (entries : list (string * list string)) : list HttpHeader :=
  foldl (λ ret '(name, values), ret ++ [mkHttpHeader name values]) [] entries.

Definition makeHeaders (headers : http.Header) : list HttpHeader :=
  makeHeaders_range (map_to_list headers).

(** A [context.CancelFunc] is identified with the context it cancels. *)
Definition CancelFunc := nat.

(** What the goroutines of one agent share: the cancel registry, the
    frames put on the dataflow channel so far (oldest first), the cancel
    functions that were called, the log, and the next fresh context. *)
Record agentState := mkAgentState {
  cancelRegistry : gmap string CancelFunc;
  dataflow : list ASEventWrapper;
  cancelCalls : list CancelFunc;
  logLines : list string;
  nextContext : nat
}.

Definition M (A : Type) : Type := agentState → A * agentState.

#[global] Instance M_ret : MRet M := λ A a st, (a, st).
#[global] Instance M_bind : MBind M := λ A B f m st, let '(a, st') := m st in f a st'.

Definition modify (f : agentState → agentState) : M unit := λ st, (tt, f st).

Definition set_registry (m : gmap string CancelFunc) (st : agentState) : agentState :=
  mkAgentState m (dataflow st) (cancelCalls st) (logLines st) (nextContext st).

Definition logPrintf (line : string) : M unit :=
  modify (λ st, mkAgentState (cancelRegistry st) (dataflow st) (cancelCalls st)
                             (logLines st ++ [line]) (nextContext st)).

(** [dataflow <- resp] *)
Definition send (resp : ASEventWrapper) : M unit :=
  modify (λ st, mkAgentState (cancelRegistry st) (dataflow st ++ [resp]) (cancelCalls st)
                             (logLines st) (nextContext st)).

(** [context.WithCancel(context.Background())] *)
Definition WithCancel : M (nat * CancelFunc) :=
  λ st, ((nextContext st, nextContext st),
         mkAgentState (cancelRegistry st) (dataflow st) (cancelCalls st)
                      (logLines st) (S (nextContext st))).

(** Calling a cancel function. *)
Definition callCancel (cancel : CancelFunc) : M unit :=
  modify (λ st, mkAgentState (cancelRegistry st) (dataflow st) (cancelCalls st ++ [cancel])
                             (logLines st) (nextContext st)).

Definition registerCancelFunction (id : string) (cancel : CancelFunc) : M unit :=
  modify (λ st, set_registry (<[id := cancel]> (cancelRegistry st)) st).

Definition unregisterCancelFunction (id : string) : M unit :=
  modify (λ st, set_registry (delete id (cancelRegistry st)) st).

Definition callCancelFunction (id : string) : M unit :=
  λ st,
    match cancelRegistry st !! id with
    | Some cancel => (callCancel cancel ;; logPrintf ("Cancelling request " +:+ id)) st
    | None => (tt, st)
    end.

(** *** The HTTP executor *)

Record serverContext := mkServerContext {
  username : string;
  serverURL : string;
  serverCA : option x509.Certificate;
  clientCert : option tls.Certificate;
  token : string;
  insecure : bool
}.

Record Transport := mkTransport {
  MaxIdleConns : Z;
  IdleConnTimeout : Z;        (* seconds *)
  DisableCompression : bool;
  TLSClientConfig : tls.Config
}.

Record Client := mkClient { client_Transport : Transport }.

(** The outbound request handed to [client.Do]. *)
Record Request := mkRequest {
  r_Context : nat;
  r_Method : string;
  r_URL : string;
  r_Header : http.Header;
  r_Body : bytes
}.

(** The errors [get.Body.Read] can return, as the executor tells them
    apart: [io.EOF], [context.Canceled], anything else. *)
Inductive readError := EOF | Canceled | OtherError (msg : string).

(** One answer of [get.Body.Read]: the bytes read and the error. *)
Record readResult := mkReadResult { rd_data : bytes; rd_err : option readError }.

(** The response of the backend; [Body] lists the answers the body
    reader gives to the successive calls of [Read]. *)
Record Response := mkResponse {
  StatusCode : Z;
  ContentLength : Z;
  Header : http.Header;
  Body : list readResult
}.

(** The world outside the agent: whether [http.NewRequestWithContext]
    accepts a method and a URL, and what [client.Do] answers ([None] is an
    error). *)
Record backend := mkBackend {
  NewRequestWithContext_ok : string → string → bool;
  Do : Client → Request → option Response
}.

(** How a goroutine ends: it returns, or it waits for ever on its
    environment. *)
Inductive outcome := Returned | Blocked.

Definition int32 (z : Z) : Z := ((z + 2 ^ 31) `mod` 2 ^ 32 - 2 ^ 31)%Z.

(** [defer d] around a body: [d] runs when the body returns. *)
Definition defer (d : M unit) (body : M outcome) : M outcome :=
  o ← body;
  match o with
  | Returned => d ;; mret Returned
  | Blocked => mret Blocked
  end.

(** [make([]byte, 10240)] *)
Definition readBufferSize : nat := Z.to_nat 10240.

(** The loop that sends the data packets. *)
Fixpoint readLoop (req : HttpRequest) (body : list readResult) : M outcome :=
  match body with
  | [] => mret Blocked
  | rd :: body' =>
      let buf := take readBufferSize (rd_data rd) in
      let n := length buf in
      (if bool_decide (0 < n) then
         send (mkASEventWrapper (Some (AS_HttpChunkedResponse
                (mkHttpChunkedResponse (req_Id req) (req_Target req) buf))))
       else mret tt) ;;
      match rd_err rd with
      | Some EOF =>
          send (mkASEventWrapper (Some (AS_HttpChunkedResponse
                 (mkHttpChunkedResponse (req_Id req) (req_Target req) [])))) ;;
          mret Returned
      | Some Canceled =>
          logPrintf ("Context cancelled, request ID " +:+ req_Id req) ;;
          mret Returned
      | Some (OtherError e) =>
          logPrintf ("Got error on HTTP read: " +:+ e) ;;
          send (mkASEventWrapper (Some (AS_HttpChunkedResponse
                 (mkHttpChunkedResponse (req_Id req) (req_Target req) [])))) ;;
          mret Returned
      | None => readLoop req body'
      end
  end.

(** The client the executor builds from the credentials. *)
Definition executeRequest_client (c : serverContext) : Client :=
  let tlsConfig := tls.mkConfig tls.VersionTLS12 (insecure c) [] [] in
  let tlsConfig :=
    match serverCA c with
    | Some ca => tls.mkConfig (tls.MinVersion tlsConfig) (tls.InsecureSkipVerify tlsConfig)
                              [ca] (tls.Certificates tlsConfig)
    | None => tlsConfig
    end in
  let tlsConfig :=
    match clientCert c with
    | Some cert => tls.mkConfig (tls.MinVersion tlsConfig) (tls.InsecureSkipVerify tlsConfig)
                                (tls.RootCAs tlsConfig) [cert]
    | None => tlsConfig
    end in
  let tr := mkTransport 10 30 true tlsConfig in
  mkClient tr.

(** The outbound request once its headers are filled in. *)
Definition executeRequest_httpRequest (c : serverContext) (req : HttpRequest) (ctx : nat) : Request :=
  let httpRequest := mkRequest ctx (req_Method req) (serverURL c +:+ req_URI req) ∅ (req_Body req) in
  let hdr :=
    foldl (λ h header, foldl (λ h value, http.Header_Add (Name header) value h) h (Values header))
          (r_Header httpRequest) (req_Headers req) in
  let hdr :=
    if bool_decide (0 < String.length (token c))
    then http.Header_Set "Authorization" ("Bearer " +:+ token c) hdr else hdr in
  mkRequest ctx (r_Method httpRequest) (r_URL httpRequest) hdr (r_Body httpRequest).

(** The executor after the cancel function is registered. *)
Definition executeRequest_body (be : backend) (client : Client) (c : serverContext)
    (req : HttpRequest) (ctx : nat) : M outcome :=
  if negb (NewRequestWithContext_ok be (req_Method req) (serverURL c +:+ req_URI req)) then
    logPrintf "Failed to build request" ;;
    send (mkASEventWrapper (Some (AS_HttpResponse
           (mkHttpResponse (req_Id req) (req_Target req) http.StatusBadGateway 0 [])))) ;;
    mret Returned
  else
    let httpRequest := executeRequest_httpRequest c req ctx in
    logPrintf "Sending HTTP request" ;;
    match Do be client httpRequest with
    | None =>
        logPrintf "Failed to execute request" ;;
        send (mkASEventWrapper (Some (AS_HttpResponse
               (mkHttpResponse (req_Id req) (req_Target req) http.StatusBadGateway 0 [])))) ;;
        mret Returned
    | Some get =>
        (* First, send the headers. *)
        send (mkASEventWrapper (Some (AS_HttpResponse
               (mkHttpResponse (req_Id req) (req_Target req) (int32 (StatusCode get))
                               (ContentLength get) (makeHeaders (Header get)))))) ;;
        (* Now, send one or more data packet. *)
        readLoop req (Body get)
    end.

Definition executeRequest (be : backend) (c : serverContext) (req : HttpRequest) : M outcome :=
  logPrintf "Running request" ;;
  let client := executeRequest_client c in
  '(ctx, cancel) ← WithCancel;
  registerCancelFunction (req_Id req) cancel ;;
  defer (unregisterCancelFunction (req_Id req))
        (executeRequest_body be client c req ctx).

(** *** The hello frame of [runTunnel] *)

(** The [AgentHello] of the package tunnel this program imports
    (github.com/opsmx/grpc-bidir/tunnel) is not among the sources.  The
    literal in [runTunnel] names two fields, [Protocols] and
    [KubernetesNamespaces], and no protocol version: nothing else in this
    program mentions one.  [hello_ProtocolVersion] is the protocol version
    the hello carries: none when the type declares no such field, and the
    zero value the literal leaves it at when it does. *)
Record runTunnel_AgentHello := mkRunTunnel_AgentHello {
  hello_Protocols : list string;
  hello_KubernetesNamespaces : list string;
  hello_ProtocolVersion : option Z
}.

(** [namespaces] is [config.Namespaces]; [declaresVersion] says whether
    the [AgentHello] of this program's package tunnel has a protocol version
    field. *)
Definition runTunnel_hello (declaresVersion : bool) (namespaces : list string)
    : runTunnel_AgentHello :=
  mkRunTunnel_AgentHello ["kubernetes"] namespaces
    (if declaresVersion then Some 0%Z else None).

End Agent.

(** ** The agent of app/agent/agent.go *)

(** [bytes.Compare]: lexicographic, 0 when equal. *)
Fixpoint bytes_Compare (a b : bytes) : Z :=
  match a, b with
  | [], [] => 0
  | [], _ :: _ => -1
  | _ :: _, [] => 1
  | x :: a', y :: b' =>
      match N.compare (Byte.to_N x) (Byte.to_N y) with
      | Eq => bytes_Compare a' b'
      | Lt => -1
      | Gt => 1
      end
  end.

Module KubernetesAgent.
Import tunnel.

(** [namespaces] is [config.Namespaces]. *)
Definition runKubernetesTunnel_hello (namespaces : list string) : ASEventWrapper :=
  mkASEventWrapper (Some (AS_AgentHello
    (mkAgentHello ["kubernetes"; "remote-command"] ["bash"] namespaces
                  CurrentProtocolVersion))).

Record serverContextFields := mkServerContextFields {
  username : string;
  serverURL : string;
  serverCA : option x509.Certificate;
  clientCert : option tls.Certificate;
  token : string;
  insecure : bool
}.

(** [None] is the panic of [Certificate[0]] on an empty chain. *)
Definition isSameAs (scf scf2 : serverContextFields) : option bool :=
  if bool_decide (username scf ≠ username scf2) || bool_decide (serverURL scf ≠ serverURL scf2)
     || bool_decide (token scf ≠ token scf2) || bool_decide (insecure scf ≠ insecure scf2)
  then Some false
  else if (bool_decide (serverCA scf = None) && bool_decide (serverCA scf2 ≠ None))
          || (bool_decide (serverCA scf ≠ None) && bool_decide (serverCA scf2 = None))
  then Some false
  else if match serverCA scf, serverCA scf2 with
          | Some ca, Some ca2 => negb (x509.Equal ca ca2)
          | _, _ => false
          end
  then Some false
  else if (bool_decide (clientCert scf = None) && bool_decide (clientCert scf2 ≠ None))
          || (bool_decide (clientCert scf ≠ None) && bool_decide (clientCert scf2 = None))
  then Some false
  else
    match clientCert scf, clientCert scf2 with
    | Some cert, Some cert2 =>
        match tls.Certificate_chain cert !! 0%nat, tls.Certificate_chain cert2 !! 0%nat with
        | Some leaf, Some leaf2 =>
            if bool_decide (bytes_Compare leaf leaf2 ≠ 0%Z) then Some false else Some true
        | _, _ => None
        end
    | _, _ => Some true
    end.

(** The snapshot behind its lock, with the log of the refresher. *)
Record serverContext := mkServerContext { f : serverContextFields; logLines : list string }.

(** One turn of the loop of [updateServerContextTicker]; [saf] is what
    [loadSecurity] returned this time. *)
Definition updateServerContext_turn (sa : serverContext) (saf : serverContextFields)
    : option serverContext :=
  same ← isSameAs (f sa) saf;
  if negb same
  then Some (mkServerContext saf
               (logLines sa ++ ["Updating security context for API calls to Kubernetes"]))
  else Some sa.

(** The loop never ends; this is its run over the first loads. *)
Fixpoint updateServerContextTicker (sa : serverContext) (loads : list serverContextFields)
    : option serverContext :=
  match loads with
  | [] => Some sa
  | saf :: loads' =>
      sa' ← updateServerContext_turn sa saf;
      updateServerContextTicker sa' loads'
  end.

End KubernetesAgent.

(** ** The controller (package main of the controller program) *)

(** [strings.Split(s, ".")] *)
Fixpoint Split_dot (s : string) : list string :=
  match s with
  | EmptyString => [EmptyString]
  | String c s' =>
      if bool_decide (c = "."%char) then EmptyString :: Split_dot s'
      else match Split_dot s' with
           | x :: xs => String c x :: xs
           | [] => [String c EmptyString]
           end
  end.

Module Controller.
Import tunnel.

Definition firstLabel (name : string) : string :=
  default EmptyString (Split_dot name !! 0%nat).

(** The controller's [makeHeaders]; [entries] is the order in which the
    [range] visits the map. *)
Definition makeHeaders_range (entries : list (string * list string)) : list HttpHeader :=
  foldl (λ ret '(name, values),
           if bool_decide (name ≠ "Accept-Encoding")
           then ret ++ [mkHttpHeader name values] else ret)
        [] entries.

Definition makeHeaders (headers : http.Header) : list HttpHeader :=
  makeHeaders_range (map_to_list headers).

(** *** [http.ResponseWriter] *)

(** The header map the handler edits, what went out with the status
    line, and the body written so far. *)
Record ResponseWriter := mkResponseWriter {
  w_Header : http.Header;
  wroteHeader : bool;
  w_status : Z;
  w_sentHeader : http.Header;
  w_body : bytes;
  w_flushes : nat
}.

(** A second call is ignored; a code outside 100..999 panics ([None]).
    The header map is sent as it is at this moment. *)
Definition WriteHeader (code : Z) (w : ResponseWriter) : option ResponseWriter :=
  if wroteHeader w then Some w
  else if bool_decide (code < 100 ∨ 999 < code)%Z then None
  else Some (mkResponseWriter (w_Header w) true code (w_Header w) (w_body w) (w_flushes w)).

(** The first [Write] sends status 200 when none was written. *)
Definition Write (b : bytes) (w : ResponseWriter) : ResponseWriter :=
  let w := if wroteHeader w then w
           else mkResponseWriter (w_Header w) true http.StatusOK (w_Header w) (w_body w) (w_flushes w) in
  mkResponseWriter (w_Header w) (wroteHeader w) (w_status w) (w_sentHeader w)
                   (w_body w ++ b) (w_flushes w).

Definition Flush (w : ResponseWriter) : ResponseWriter :=
  let w := if wroteHeader w then w
           else mkResponseWriter (w_Header w) true http.StatusOK (w_Header w) (w_body w) (w_flushes w) in
  mkResponseWriter (w_Header w) (wroteHeader w) (w_status w) (w_sentHeader w)
                   (w_body w) (S (w_flushes w)).

Definition set_Header (h : http.Header) (w : ResponseWriter) : ResponseWriter :=
  mkResponseWriter h (wroteHeader w) (w_status w) (w_sentHeader w) (w_body w) (w_flushes w).

(** *** The inbound request and the controller's shared state *)

(** [r.TLS] is nil on a connection without TLS; [PeerCertificates]
    holds the common names of the peer's certificates. *)
Record ConnectionState := mkConnectionState { PeerCertificates : list string }.

Record Request := mkRequest {
  r_TLS : option ConnectionState;
  r_Method : string;
  r_RequestURI : string;
  r_Header : http.Header;
  r_Body : bytes
}.

(** A session of the registry is known by its session identity. *)
Record agentState := mkAgentState { identity : string; sessionIdentity : string }.

Record controllerState := mkControllerState {
  agents_m : gmap string (list agentState);
  apiRequestCounter : gmap string nat
}.

(** What the handler gets from outside: the draw of [rnd.Intn], the id
    minted by [ulidContext.Ulid], the frames that arrive on [message.out]
    and whether the channel is closed after them. *)
Record handlerEnv := mkHandlerEnv {
  rnd_Intn : nat → nat;
  Ulid : string;
  out_frames : list ASEventWrapper;
  out_closed : bool
}.

Inductive outcome := Returned | Blocked | Panicked.

(** The variables of the response loop. *)
Record loopState := mkLoopState {
  l_w : ResponseWriter;
  l_rHeader : http.Header;
  seenHeader : bool;
  isChunked : bool;
  cleanClose : bool;
  l_log : list string
}.

(** The [HttpResponse] arm up to [w.WriteHeader]. *)
Definition onHttpResponse (resp : HttpResponse) (l : loopState) : option loopState :=
  let seenHeader := true in
  let isChunked := bool_decide (resp_ContentLength resp < 0)%Z in
  let rHeader :=
    foldl (λ h name, http.Header_Del name h) (l_rHeader l) (map_to_list (w_Header (l_w l))).*1 in
  let wHeader :=
    foldl (λ h header, foldl (λ h value, http.Header_Add (Name header) value h) h (Values header))
          (w_Header (l_w l)) (resp_Headers resp) in
  w ← WriteHeader (resp_Status resp) (set_Header wHeader (l_w l));
  Some (mkLoopState w rHeader seenHeader isChunked (cleanClose l) (l_log l)).

(** The loop over [message.out]. *)
Fixpoint responseLoop (agentname : string) (frames : list ASEventWrapper) (closed : bool)
    (l : loopState) : outcome * loopState :=
  match frames with
  | [] =>
      if closed then
        if negb (seenHeader l) then
          match WriteHeader http.StatusBadGateway (l_w l) with
          | Some w =>
              (Returned, mkLoopState w (l_rHeader l) (seenHeader l) (isChunked l) true
                           (l_log l ++ ["Request timed out sending to agent"]))
          | None => (Panicked, l)
          end
        else (Returned, mkLoopState (l_w l) (l_rHeader l) (seenHeader l) (isChunked l) true (l_log l))
      else (Blocked, l)
  | in_ :: frames' =>
      match Event in_ with
      | Some (AS_HttpResponse resp) =>
          match onHttpResponse resp l with
          | Some l' =>
              if bool_decide (resp_ContentLength resp = 0)%Z then
                (Returned, mkLoopState (l_w l') (l_rHeader l') (seenHeader l') (isChunked l')
                             true (l_log l'))
              else responseLoop agentname frames' closed l'
          | None => (Panicked, l)
          end
      | Some (AS_HttpChunkedResponse resp) =>
          if negb (seenHeader l) then
            match WriteHeader http.StatusBadGateway (l_w l) with
            | Some w =>
                (Returned, mkLoopState w (l_rHeader l) (seenHeader l) (isChunked l) (cleanClose l)
                             (l_log l ++ ["Error: got ChunkedResponse before HttpResponse"]))
            | None => (Panicked, l)
            end
          else if bool_decide (length (chunk_Body resp) = 0%nat) then
            (Returned, mkLoopState (l_w l) (l_rHeader l) (seenHeader l) (isChunked l) true (l_log l))
          else
            let w := Write (chunk_Body resp) (l_w l) in
            let w := if isChunked l then Flush w else w in
            responseLoop agentname frames' closed
              (mkLoopState w (l_rHeader l) (seenHeader l) (isChunked l) (cleanClose l) (l_log l))
      | None => responseLoop agentname frames' closed l
      | Some _ =>
          responseLoop agentname frames' closed
            (mkLoopState (l_w l) (l_rHeader l) (seenHeader l) (isChunked l) (cleanClose l)
               (l_log l ++ ["Received unknown message: " +:+ agentname]))
      end
  end.

(** What a run of the handler leaves behind. *)
Record handlerResult := mkHandlerResult {
  h_outcome : outcome;
  h_state : controllerState;
  h_w : ResponseWriter;
  h_rHeader : http.Header;
  h_sent : option (agentState * HttpRequest);
  h_cleanClose : bool;
  h_log : list string
}.

Definition kubernetesAPIHandler (env : handlerEnv) (st : controllerState)
    (w : ResponseWriter) (r : Request) : handlerResult :=
  match r_TLS r ≫= (λ cs, PeerCertificates cs !! 0%nat) with
  | None => mkHandlerResult Panicked st w (r_Header r) None false []
  | Some commonName =>
      let agentname := firstLabel commonName in
      let st := mkControllerState (agents_m st)
                  (<[agentname := S (default 0%nat (apiRequestCounter st !! agentname))]>
                     (apiRequestCounter st)) in
      let agentList := default [] (agents_m st !! agentname) in
      if bool_decide (agents_m st !! agentname = None) || bool_decide (length agentList = 0%nat) then
        match WriteHeader http.StatusBadGateway w with
        | Some w' =>
            mkHandlerResult Returned st w' (r_Header r) None false
                            ["No agents connected for: " +:+ agentname]
        | None => mkHandlerResult Panicked st w (r_Header r) None false []
        end
      else
        match agentList !! rnd_Intn env (length agentList) with
        | None => mkHandlerResult Panicked st w (r_Header r) None false []
        | Some agent =>
            let body := r_Body r in
            let req := mkHttpRequest (Ulid env) agentname EmptyString (r_Method r)
                         (r_RequestURI r) (makeHeaders (r_Header r)) body in
            let '(o, l) :=
              responseLoop agentname (out_frames env) (out_closed env)
                (mkLoopState w (r_Header r) false false false []) in
            mkHandlerResult o st (l_w l) (l_rHeader l) (Some (agent, req)) (cleanClose l) (l_log l)
        end
  end.

End Controller.

(** ** The controller: the identity of an agent's stream *)

Module ControllerStream.

(** [p.AuthInfo]: TLS credentials with the verified chains (each
    certificate known by its common name), or credentials of another kind. *)
Inductive AuthInfo :=
| TLSInfo (VerifiedChains : list (list string))
| OtherAuthInfo.

Record Peer := mkPeer { peer_AuthInfo : AuthInfo }.

(** [status.Error(codes.Unauthenticated, msg)] *)
Inductive statusError := Unauthenticated (msg : string).

(** [ctx_peer] is what [peer.FromContext(ctx)] finds. *)
Definition getAgentNameFromContext (ctx_peer : option Peer) : statusError + string :=
  match ctx_peer with
  | None => inl (Unauthenticated "no peer found")
  | Some p =>
      match peer_AuthInfo p with
      | OtherAuthInfo => inl (Unauthenticated "unexpected peer transport credentials")
      | TLSInfo VerifiedChains =>
          if bool_decide (length VerifiedChains = 0%nat)
             || bool_decide (length (default [] (VerifiedChains !! 0%nat)) = 0%nat)
          then inl (Unauthenticated "could not verify peer certificate")
          else
            match VerifiedChains !! 0%nat ≫= (λ chain, chain !! 0%nat) with
            | Some commonName =>
                let shortName := Split_dot commonName in
                match shortName !! 0%nat with
                | Some name => inr name
                | None => inl (Unauthenticated "index out of range")
                end
            | None => inl (Unauthenticated "index out of range")
            end
      end
  end.

End ControllerStream.

(** ** The controller: its configuration *)

Module ControllerConfigFile.

Record agentConfig := mkAgentConfig { agent_Name : string }.

Record serviceAuthConfig := mkServiceAuthConfig { CurrentKeyName : string }.

Section config.
(** [ca.Config] is declared in another package. *)
Context {caConfig : Type}.

Record ControllerConfig := mkControllerConfig {
  Agents : gmap string agentConfig;
  ServiceAuth : serviceAuthConfig;
  Webhook : string;
  ServerNames : list string;
  CAConfig : caConfig;
  PrometheusListenPort : Z;
  ServiceHostname : option string;
  ServiceListenPort : Z;
  ControlHostname : option string;
  ControlListenPort : Z;
  AgentHostname : option string;
  AgentListenPort : Z;
  AgentAdvertisePort : Z;
  RemoteCommandHostname : option string;
  RemoteCommandListenPort : Z
}.

Definition set_ServerNames (names : list string) (c : ControllerConfig) : ControllerConfig :=
  mkControllerConfig (Agents c) (ServiceAuth c) (Webhook c) names (CAConfig c)
    (PrometheusListenPort c) (ServiceHostname c) (ServiceListenPort c) (ControlHostname c)
    (ControlListenPort c) (AgentHostname c) (AgentListenPort c) (AgentAdvertisePort c)
    (RemoteCommandHostname c) (RemoteCommandListenPort c).

Definition hasServerName (c : ControllerConfig) (target : string) : bool :=
  existsb (λ a, bool_decide (a = target)) (ServerNames c).

(** The configuration and the lines logged. *)
Definition addIfMissing (target : option string) (reason : string)
    (cl : ControllerConfig * list string) : ControllerConfig * list string :=
  let '(c, log) := cl in
  match target with
  | Some t =>
      if negb (hasServerName c t)
      then (set_ServerNames (ServerNames c ++ [t]) c,
            log ++ ["Adding " +:+ t +:+ " to ServerNames (for " +:+ reason
                    +:+ " configuration setting)"])
      else (c, log)
  | None => (c, log)
  end.

Definition addAllHostnames (c : ControllerConfig) : ControllerConfig * list string :=
  let cl := (c, []) in
  let cl := addIfMissing (AgentHostname cl.1) "agentHostname" cl in
  let cl := addIfMissing (ControlHostname cl.1) "commandHostname" cl in
  let cl := addIfMissing (ServiceHostname cl.1) "ServiceBaseHostname" cl in
  addIfMissing (RemoteCommandHostname cl.1) "cmdToolHostname" cl.

(** An error of [LoadConfig]: from reading, from the YAML decoder, or
    its own. *)
Inductive loadError :=
| ReadError (msg : string)
| YamlError (msg : string)
| Errorf (msg : string).

(** [f] is what [ioutil.ReadAll] gets from the reader; [Unmarshal] is the
    YAML decoder filling a zero [ControllerConfig]. *)
Definition LoadConfig (f : string + bytes) (Unmarshal : bytes → string + ControllerConfig)
    : loadError + ControllerConfig * list string :=
  match f with
  | inl err => inl (ReadError err)
  | inr buf =>
      match Unmarshal buf with
      | inl err => inl (YamlError err)
      | inr config =>
          let AgentListenPort' :=
            if bool_decide (AgentListenPort config = 0)%Z then 9001%Z
            else AgentListenPort config in
          let AgentAdvertisePort' :=
            if bool_decide (AgentAdvertisePort config = 0)%Z then AgentListenPort'
            else AgentAdvertisePort config in
          if bool_decide (AgentHostname config = None)
          then inl (Errorf "agentHostname not set")
          else
          let ServiceListenPort' :=
            if bool_decide (ServiceListenPort config = 0)%Z then 9002%Z
            else ServiceListenPort config in
          if bool_decide (ServiceHostname config = None)
          then inl (Errorf "serviceHostname not set")
          else
          let ControlListenPort' :=
            if bool_decide (ControlListenPort config = 0)%Z then 9003%Z
            else ControlListenPort config in
          if bool_decide (ControlHostname config = None)
          then inl (Errorf "controlHostname not set")
          else
          let RemoteCommandListenPort' :=
            if bool_decide (RemoteCommandListenPort config = 0)%Z then 9004%Z
            else RemoteCommandListenPort config in
          if bool_decide (RemoteCommandHostname config = None)
          then inl (Errorf "remoteCommandHostname not set")
          else
          let PrometheusListenPort' :=
            if bool_decide (PrometheusListenPort config = 0)%Z then 9102%Z
            else PrometheusListenPort config in
          inr (addAllHostnames
                 (mkControllerConfig (Agents config) (ServiceAuth config) (Webhook config)
                    (ServerNames config) (CAConfig config) PrometheusListenPort'
                    (ServiceHostname config) ServiceListenPort' (ControlHostname config)
                    ControlListenPort' (AgentHostname config) AgentListenPort'
                    AgentAdvertisePort' (RemoteCommandHostname config)
                    RemoteCommandListenPort'))
      end
  end.

End config.

Arguments ControllerConfig : clear implicits.

End ControllerConfigFile.

(** A string without a dot. *)
Definition noDot (s : string) : Prop := "."%char ∉ String.list_ascii_of_string s.

(** [strings.Join(l, ".")] *)
Fixpoint Join_dot (l : list string) : string :=
  match l with
  | [] => EmptyString
  | [x] => x
  | x :: xs => x +:+ "." +:+ Join_dot xs
  end.

(** ** The executor, step by step *)

(** The executor again, with the same operations in the same order, each
    operation on the shared state noted with the state it leaves: the run of
    [Agent.executeRequest] together with the states the other goroutines
    can see while it runs. *)
Module AgentTrace.
Import tunnel Agent.

(** A computation with the states it went through, oldest first. *)
Definition T (A : Type) : Type := agentState → (A * agentState) * list agentState.

#[global] Instance T_ret : MRet T := λ A a st, ((a, st), []).
#[global] Instance T_bind : MBind T :=
  λ A B f m st,
    let '((a, st1), tr1) := m st in
    let '((b, st2), tr2) := f a st1 in
    ((b, st2), tr1 ++ tr2).

(** One operation on the shared state, and the state it leaves. *)
Definition observe {A : Type} (m : M A) : T A :=
  λ st, let r := m st in (r, [r.2]).

Definition defer_traced (d : M unit) (body : T outcome) : T outcome :=
  o ← body;
  match o with
  | Returned => observe d ;; mret Returned
  | Blocked => mret Blocked
  end.

Fixpoint readLoop_traced (req : HttpRequest) (body : list readResult) : T outcome :=
  match body with
  | [] => mret Blocked
  | rd :: body' =>
      let buf := take readBufferSize (rd_data rd) in
      let n := length buf in
      (if bool_decide (0 < n) then
         observe (send (mkASEventWrapper (Some (AS_HttpChunkedResponse
                    (mkHttpChunkedResponse (req_Id req) (req_Target req) buf)))))
       else mret tt) ;;
      match rd_err rd with
      | Some EOF =>
          observe (send (mkASEventWrapper (Some (AS_HttpChunkedResponse
                     (mkHttpChunkedResponse (req_Id req) (req_Target req) []))))) ;;
          mret Returned
      | Some Canceled =>
          observe (logPrintf ("Context cancelled, request ID " +:+ req_Id req)) ;;
          mret Returned
      | Some (OtherError e) =>
          observe (logPrintf ("Got error on HTTP read: " +:+ e)) ;;
          observe (send (mkASEventWrapper (Some (AS_HttpChunkedResponse
                     (mkHttpChunkedResponse (req_Id req) (req_Target req) []))))) ;;
          mret Returned
      | None => readLoop_traced req body'
      end
  end.

Definition executeRequest_body_traced (be : backend) (client : Client) (c : serverContext)
    (req : HttpRequest) (ctx : nat) : T outcome :=
  if negb (NewRequestWithContext_ok be (req_Method req) (serverURL c +:+ req_URI req)) then
    observe (logPrintf "Failed to build request") ;;
    observe (send (mkASEventWrapper (Some (AS_HttpResponse
               (mkHttpResponse (req_Id req) (req_Target req) http.StatusBadGateway 0 []))))) ;;
    mret Returned
  else
    let httpRequest := executeRequest_httpRequest c req ctx in
    observe (logPrintf "Sending HTTP request") ;;
    match Do be client httpRequest with
    | None =>
        observe (logPrintf "Failed to execute request") ;;
        observe (send (mkASEventWrapper (Some (AS_HttpResponse
                   (mkHttpResponse (req_Id req) (req_Target req) http.StatusBadGateway 0 []))))) ;;
        mret Returned
    | Some get =>
        observe (send (mkASEventWrapper (Some (AS_HttpResponse
                   (mkHttpResponse (req_Id req) (req_Target req) (int32 (StatusCode get))
                                   (ContentLength get) (makeHeaders (Header get))))))) ;;
        readLoop_traced req (Body get)
    end.

Definition executeRequest_traced (be : backend) (c : serverContext) (req : HttpRequest)
    : T outcome :=
  observe (logPrintf "Running request") ;;
  let client := executeRequest_client c in
  '(ctx, cancel) ← observe WithCancel;
  observe (registerCancelFunction (req_Id req) cancel) ;;
  defer_traced (unregisterCancelFunction (req_Id req))
               (executeRequest_body_traced be client c req ctx).

End AgentTrace.

(** ** Vocabulary of the properties *)

Module ExecutorSpec.
Import tunnel Agent.

(** The frames put on the dataflow channel between two states. *)
Definition framesSince (st st' : agentState) : list ASEventWrapper :=
  drop (length (dataflow st)) (dataflow st').

(** The synthetic answer to a failed outbound call. *)
Definition badGatewayFrame (req : HttpRequest) : ASEventWrapper :=
  mkASEventWrapper (Some (AS_HttpResponse
    (mkHttpResponse (req_Id req) (req_Target req) 502 0 []))).

(** The chunk with an empty body that ends a response. *)
Definition terminatingChunk (req : HttpRequest) : ASEventWrapper :=
  mkASEventWrapper (Some (AS_HttpChunkedResponse
    (mkHttpChunkedResponse (req_Id req) (req_Target req) []))).

(** The data chunk a read gives rise to, if it brought bytes. *)
Definition dataChunk (req : HttpRequest) (rd : readResult) : list ASEventWrapper :=
  match take readBufferSize (rd_data rd) with
  | [] => []
  | buf => [mkASEventWrapper (Some (AS_HttpChunkedResponse
              (mkHttpChunkedResponse (req_Id req) (req_Target req) buf)))]
  end.

Definition dataChunks (req : HttpRequest) (rds : list readResult) : list ASEventWrapper :=
  rds ≫= dataChunk req.

(** What the loop sends when a read ends it with error [e]. *)
Definition closing (req : HttpRequest) (e : readError) : list ASEventWrapper :=
  match e with
  | Canceled => []
  | _ => [terminatingChunk req]
  end.

Definition terminatingChunks (fs : list ASEventWrapper) : nat :=
  length (filter (λ f, isTerminatingChunk f = true) fs).

(** The answer to an upstream error as the specification words it: the
    502 header frame, then one terminating empty chunk, then return. *)
Definition upstreamError_as_specified (be : backend) (c : serverContext) (req : HttpRequest)
    (st : agentState) : Prop :=
  ∃ st', executeRequest be c req st = (Returned, st')
         ∧ framesSince st st' = [badGatewayFrame req; terminatingChunk req].

(** The end of the read loop as the specification words it: whatever
    ended the loop, exactly one terminating empty chunk was sent, and the
    executor returned. *)
Definition loopEnd_as_specified (be : backend) (c : serverContext) (req : HttpRequest)
    (st : agentState) : Prop :=
  ∃ st', executeRequest be c req st = (Returned, st')
         ∧ terminatingChunks (framesSince st st') = 1%nat
         ∧ last (framesSince st st') = Some (terminatingChunk req).

(** The states a run goes through differ only in the channel and the log. *)
Definition sameButChannel (st st' : agentState) : Prop :=
  cancelRegistry st' = cancelRegistry st ∧ cancelCalls st' = cancelCalls st
  ∧ nextContext st' = nextContext st.

(** The header frame of a response of the backend. *)
Definition headerFrame (req : HttpRequest) (get : Response) : ASEventWrapper :=
  mkASEventWrapper (Some (AS_HttpResponse
    (mkHttpResponse (req_Id req) (req_Target req) (int32 (StatusCode get))
                    (ContentLength get) (makeHeaders (Header get))))).

(** The state in which the body of the executor starts: a fresh context
    was made and its cancel function registered under the id. *)
Definition registered (req : HttpRequest) (st : agentState) : agentState :=
  mkAgentState (<[req_Id req := nextContext st]> (cancelRegistry st)) (dataflow st)
               (cancelCalls st) (logLines st ++ ["Running request"]) (S (nextContext st)).

End ExecutorSpec.

Module RefresherSpec.
Import KubernetesAgent.

(** The DER bytes of the CA certificate, if there is one. *)
Definition caBytes (scf : serverContextFields) : option bytes :=
  x509.Raw <$> serverCA scf.

(** The leaf of the client certificate, if there is one. *)
Definition clientLeaf (scf : serverContextFields) : option bytes :=
  clientCert scf ≫= (λ cert, tls.Certificate_chain cert !! 0%nat).

(** A client certificate, when present, has a leaf ([tls.X509KeyPair]
    returns no certificate with an empty chain). *)
Definition hasLeaf (scf : serverContextFields) : Prop :=
  ∀ cert, clientCert scf = Some cert → tls.Certificate_chain cert ≠ [].

(** The differences the specification lists. *)
Definition differsAsSpecified (scf scf2 : serverContextFields) : Prop :=
  username scf ≠ username scf2 ∨ serverURL scf ≠ serverURL scf2 ∨ token scf ≠ token scf2
  ∨ caBytes scf ≠ caBytes scf2 ∨ clientLeaf scf ≠ clientLeaf scf2.

(** The differences the code looks at: those and the [insecure] flag. *)
Definition differs (scf scf2 : serverContextFields) : Prop :=
  differsAsSpecified scf scf2 ∨ insecure scf ≠ insecure scf2.

(** A turn of the refresher as the specification words it. *)
Definition refresher_as_specified (sa : serverContext) (saf : serverContextFields) : Prop :=
  ∃ sa', updateServerContext_turn sa saf = Some sa'
         ∧ (differsAsSpecified (f sa) saf → f sa' = saf)
         ∧ (¬ differsAsSpecified (f sa) saf → f sa' = f sa).

End RefresherSpec.

Module HelloSpec.
Import tunnel.

(** The protocol version a frame advertises, when it is a hello. *)
Definition helloVersion (fr : ASEventWrapper) : option Z :=
  match Event fr with
  | Some (AS_AgentHello h) => Some (ProtocolVersion h)
  | _ => None
  end.

(** The hellos as the specification words them: every agent's hello
    carries the protocol version 10. *)
Definition hello_as_specified (declaresVersion : bool) : Prop :=
  ∀ namespaces,
    helloVersion (KubernetesAgent.runKubernetesTunnel_hello namespaces) = Some 10%Z
    ∧ Agent.hello_ProtocolVersion (Agent.runTunnel_hello declaresVersion namespaces)
      = Some 10%Z.

End HelloSpec.

Module HandlerSpec.
Import tunnel Controller.

(** A list of [HttpHeader] read back as a multimap. *)
Definition headerMap (hs : list HttpHeader) : http.Header :=
  list_to_map ((λ h, (Name h, Values h)) <$> hs).

(** The first certificate's common name, when the request has one. *)
Definition commonName (r : Request) : option string :=
  r_TLS r ≫= (λ cs, PeerCertificates cs !! 0%nat).

(** A frame the response loop passes over while no header was seen
    would be a frame that is not a header frame. *)
Definition noHeaderFrame (fs : list ASEventWrapper) : Prop :=
  Forall (λ fr, isHeaderFrame fr = false) fs.

End HandlerSpec.

(** ** The frames of a run of the executor *)

Module ExecutorFrames.
Import tunnel Agent ExecutorSpec.

(** The id and the target a frame bears. *)
Definition frameId (fr : ASEventWrapper) : option string :=
  match Event fr with
  | Some (AS_HttpResponse r) => Some (resp_Id r)
  | Some (AS_HttpChunkedResponse c) => Some (chunk_Id c)
  | _ => None
  end.

Definition frameTarget (fr : ASEventWrapper) : option string :=
  match Event fr with
  | Some (AS_HttpResponse r) => Some (resp_Target r)
  | Some (AS_HttpChunkedResponse c) => Some (chunk_Target c)
  | _ => None
  end.

(** The body bytes a frame carries. *)
Definition frameBody (fr : ASEventWrapper) : bytes :=
  match Event fr with
  | Some (AS_HttpChunkedResponse c) => chunk_Body c
  | _ => []
  end.

(** The body bytes of a sequence of frames, in order. *)
Definition chunkBodies (fs : list ASEventWrapper) : bytes :=
  concat (frameBody <$> fs).

(** What the read loop sends, read after read. *)
Fixpoint loopFrames (req : HttpRequest) (body : list readResult) : list ASEventWrapper :=
  match body with
  | [] => []
  | rd :: body' =>
      dataChunk req rd ++
      match rd_err rd with
      | Some e => closing req e
      | None => loopFrames req body'
      end
  end.

(** The frames of a run, whatever its outcome. *)
Definition emitted (be : backend) (c : serverContext) (req : HttpRequest) (ctx : nat)
    : list ASEventWrapper :=
  if negb (NewRequestWithContext_ok be (req_Method req) (serverURL c +:+ req_URI req))
  then [badGatewayFrame req]
  else match Do be (executeRequest_client c) (executeRequest_httpRequest c req ctx) with
       | None => [badGatewayFrame req]
       | Some get => headerFrame req get :: loopFrames req (Body get)
       end.

(** The headers of the request copied into an empty header map. *)
Definition copiedHeaders (req : HttpRequest) : http.Header :=
  foldl (λ h header, foldl (λ h value, http.Header_Add (Name header) value h) h (Values header))
        ∅ (req_Headers req).

(** The values a list of headers gives to a canonical name, in order. *)
Definition valuesFor (k : string) (hs : list HttpHeader) : list string :=
  hs ≫= (λ header,
           if bool_decide (textproto.CanonicalMIMEHeaderKey (Name header) = k)
           then Values header else []).

End ExecutorFrames.

(** ** More vocabulary for the refresher *)

Module RefresherMore.
Import KubernetesAgent RefresherSpec.

(** The two snapshots agree on everything [isSameAs] looks at before it
    reaches the client certificates' leaves. *)
Definition agreeBeforeLeaf (scf scf2 : serverContextFields) : Prop :=
  username scf = username scf2 ∧ serverURL scf = serverURL scf2 ∧ token scf = token scf2
  ∧ insecure scf = insecure scf2 ∧ caBytes scf = caBytes scf2.

(** Both have a client certificate and one of the chains is empty. *)
Definition leafMissing (scf scf2 : serverContextFields) : Prop :=
  ∃ cert cert2, clientCert scf = Some cert ∧ clientCert scf2 = Some cert2
                ∧ (tls.Certificate_chain cert = [] ∨ tls.Certificate_chain cert2 = []).

End RefresherMore.

(** ** More vocabulary for the handler *)

Module HandlerRuns.
Import tunnel Controller ExecutorFrames.

(** A frame of the header arm. *)
Definition headerOf (resp : HttpResponse) : ASEventWrapper :=
  mkASEventWrapper (Some (AS_HttpResponse resp)).

(** A frame the response loop passes over: no arm, or an arm that is
    neither a header nor a chunk. *)
Definition isSkipped (fr : ASEventWrapper) : bool :=
  negb (isHeaderFrame fr) && negb (isChunkFrame fr).

(** A chunk frame that carries bytes. *)
Definition isDataChunk (fr : ASEventWrapper) : Prop :=
  isChunkFrame fr = true ∧ frameBody fr ≠ [].

(** Writing the bodies of frames one after the other, flushing after
    each when the response is chunked. *)
Definition writeAll (chunked : bool) (fs : list ASEventWrapper) (w : ResponseWriter)
    : ResponseWriter :=
  foldl (λ w fr, let w := Write (frameBody fr) w in if chunked then Flush w else w) w fs.

(** Two states of the loop that differ in the log at most. *)
Definition sameButLog (l1 l2 : loopState) : Prop :=
  l_w l1 = l_w l2 ∧ l_rHeader l1 = l_rHeader l2 ∧ seenHeader l1 = seenHeader l2
  ∧ isChunked l1 = isChunked l2 ∧ cleanClose l1 = cleanClose l2.

(** The state in which the handler enters its loop. *)
Definition loopStart (w : ResponseWriter) (r : Request) : loopState :=
  mkLoopState w (r_Header r) false false false [].

(** The request the handler forwards. *)
Definition forwarded (env : handlerEnv) (r : Request) (agentname : string) : HttpRequest :=
  mkHttpRequest (Ulid env) agentname EmptyString (r_Method r) (r_RequestURI r)
                (makeHeaders (r_Header r)) (r_Body r).

(** The request counter after one more request for [agentname]. *)
Definition counted (st : controllerState) (agentname : string) : controllerState :=
  mkControllerState (agents_m st)
    (<[agentname := S (default 0%nat (apiRequestCounter st !! agentname))]>
       (apiRequestCounter st)).

End HandlerRuns.

(** ** Vocabulary for the configuration *)

Module ConfigSpec.
Import ControllerConfigFile.

Section config.
Context {caConfig : Type}.

(** The four hostnames of a configuration, in the order in which
    [addAllHostnames] takes them. *)
Definition hostnames (c : ControllerConfig caConfig) : list (option string) :=
  [AgentHostname c; ControlHostname c; ServiceHostname c; RemoteCommandHostname c].

(** [c'] is [c] with server names added at the end: the added names are
    distinct, new, and among the targets [done]; every target of [done] is a
    server name of [c']. *)
Definition extends (c c' : ControllerConfig caConfig) (done : list (option string)) : Prop :=
  (∃ added, ServerNames c' = ServerNames c ++ added
            ∧ NoDup added
            ∧ Forall (λ t, (t ∉ ServerNames c) ∧ Some t ∈ done) added)
  ∧ (∀ t, Some t ∈ done → t ∈ ServerNames c')
  ∧ c' = set_ServerNames (ServerNames c') c.

(** A port after [LoadConfig]: the default when it was 0. *)
Definition defaulted (port default : Z) : Z :=
  if bool_decide (port = 0)%Z then default else port.

End config.

End ConfigSpec.

(** ** Concrete runs *)

Module Examples.
Import tunnel.

Definition ok_bytes : bytes := [Byte.x6f; Byte.x6b; Byte.x0a].

Definition healthz : HttpRequest :=
  mkHttpRequest "01F8MECHZX3TBDSZ7XRADM79XE" "A1" "kubernetes" "GET" "/healthz"
                [mkHttpHeader "Accept" ["*/*"]] [].

Definition credentials : Agent.serverContext :=
  Agent.mkServerContext "ServiceAccount" "https://10.0.0.1:6443" None None "s3cr3t" true.

Definition idle : Agent.agentState := Agent.mkAgentState ∅ [] [] [] 0.

(** A backend that refuses every connection. *)
Definition backend_down : Agent.backend :=
  Agent.mkBackend (λ _ _, true) (λ _ _, None).

(** A backend for which no request can be built. *)
Definition backend_unbuildable : Agent.backend :=
  Agent.mkBackend (λ _ _, false) (λ _ _, None).

(** A backend that answers 200 with the given reads of the body. *)
Definition backend_answers (body : list Agent.readResult) : Agent.backend :=
  Agent.mkBackend (λ _ _, true)
    (λ _ _, Some (Agent.mkResponse 200 (-1) {["Content-Type" := ["text/plain"]]} body)).

(** The body arrives in one read, then EOF. *)
Definition body_complete : list Agent.readResult :=
  [Agent.mkReadResult ok_bytes None; Agent.mkReadResult [] (Some Agent.EOF)].

(** The client went away after the first read. *)
Definition body_cancelled : list Agent.readResult :=
  [Agent.mkReadResult ok_bytes None; Agent.mkReadResult [] (Some Agent.Canceled)].

(** Two snapshots that differ in the [insecure] flag only. *)
Definition snapshot_verifying : KubernetesAgent.serverContextFields :=
  KubernetesAgent.mkServerContextFields "admin" "https://10.0.0.1:6443"
    (Some (x509.mkCertificate [Byte.x30; Byte.x82]))
    (Some (tls.mkCertificate [[Byte.x30; Byte.x81]] [Byte.x01])) "" false.

Definition snapshot_insecure : KubernetesAgent.serverContextFields :=
  KubernetesAgent.mkServerContextFields "admin" "https://10.0.0.1:6443"
    (Some (x509.mkCertificate [Byte.x30; Byte.x82]))
    (Some (tls.mkCertificate [[Byte.x30; Byte.x81]] [Byte.x01])) "" true.

(** The token was rotated. *)
Definition snapshot_rotated : KubernetesAgent.serverContextFields :=
  KubernetesAgent.mkServerContextFields "admin" "https://10.0.0.1:6443"
    (Some (x509.mkCertificate [Byte.x30; Byte.x82]))
    (Some (tls.mkCertificate [[Byte.x30; Byte.x81]] [Byte.x01])) "t0k3n" false.

(** A controller with one session for [A1] and none for [A2]. *)
Definition controller_A1 : Controller.controllerState :=
  Controller.mkControllerState
    {["A1" := [Controller.mkAgentState "A1" "01F8MECHZX3TBDSZ7XRADM79XF"]]}
    {["A2" := 4%nat]}.

Definition request_from (cn : string) : Controller.Request :=
  Controller.mkRequest (Some (Controller.mkConnectionState [cn])) "GET" "/healthz"
    {["Content-Type" := ["application/json"]; "Accept-Encoding" := ["gzip"]]} [].

(** A response writer on which nothing was set or written. *)
Definition writer_fresh : Controller.ResponseWriter :=
  Controller.mkResponseWriter ∅ false 0 ∅ [] 0.

(** A response writer on which a default header was set before the
    handler runs. *)
Definition writer_with_default : Controller.ResponseWriter :=
  Controller.mkResponseWriter {["Content-Type" := ["text/plain"]]} false 0 ∅ [] 0.

Definition upstream_header : ASEventWrapper :=
  mkASEventWrapper (Some (AS_HttpResponse
    (mkHttpResponse "01F8MECHZX3TBDSZ7XRADM79XE" "A1" 200 3 [mkHttpHeader "X-Upstream" ["1"]]))).

Definition upstream_chunk (b : bytes) : ASEventWrapper :=
  mkASEventWrapper (Some (AS_HttpChunkedResponse
    (mkHttpChunkedResponse "01F8MECHZX3TBDSZ7XRADM79XE" "A1" b))).

(** The agent answers with a header frame, the body and the end. *)
Definition env_answered : Controller.handlerEnv :=
  Controller.mkHandlerEnv (λ _, 0%nat) "01F8MECHZX3TBDSZ7XRADM79XE"
    [upstream_header; upstream_chunk ok_bytes; upstream_chunk []] false.

(** The agent sends a chunk without a header frame before it. *)
Definition env_chunk_first : Controller.handlerEnv :=
  Controller.mkHandlerEnv (λ _, 0%nat) "01F8MECHZX3TBDSZ7XRADM79XE"
    [mkASEventWrapper None; upstream_chunk ok_bytes; upstream_header] false.

End Examples.

(** ** More concrete runs *)

Module MoreExamples.
Import tunnel Examples.

Definition answer_200 (body : list Agent.readResult) : Agent.Response :=
  Agent.mkResponse 200 (-1) {["Content-Type" := ["text/plain"]]} body.

(** The frames of the executor against a backend, from an idle agent. *)
Definition executor_frames (be : Agent.backend) : list ASEventWrapper :=
  ExecutorSpec.framesSince idle (Agent.executeRequest be credentials healthz idle).2.

(** The handler's environment when these frames arrive. *)
Definition env_of (frames : list ASEventWrapper) (closed : bool) : Controller.handlerEnv :=
  Controller.mkHandlerEnv (λ _, 0%nat) "01F8MECHZX3TBDSZ7XRADM79XE" frames closed.

Definition no_content : HttpResponse :=
  mkHttpResponse "01F8MECHZX3TBDSZ7XRADM79XE" "A1" 204 0 [].

Definition upstream_response : HttpResponse :=
  mkHttpResponse "01F8MECHZX3TBDSZ7XRADM79XE" "A1" 200 3 [mkHttpHeader "X-Upstream" ["1"]].

Definition A1_sessions : list Controller.agentState :=
  [Controller.mkAgentState "A1" "01F8MECHZX3TBDSZ7XRADM79XF"].

Definition A1_request : Controller.Request := request_from "A1.agents.example".

(** A loop state after the status line went out. *)
Definition loop_answered : Controller.loopState :=
  Controller.mkLoopState (Controller.mkResponseWriter ∅ true 200 ∅ [] 0) ∅ true false false [].

Definition registry_one : Agent.agentState :=
  Agent.mkAgentState {["01F8MECHZX3TBDSZ7XRADM79XE" := 7%nat]} [] [] [] 8.

Definition two_headers : http.Header :=
  {["Content-Type" := ["text/plain"]; "Accept-Encoding" := ["gzip"]]}.

End MoreExamples.

(** * Properties *)

(** ** Header names and identities *)

Example canonical_lower : textproto.CanonicalMIMEHeaderKey "accept-encoding" = "Accept-Encoding".
Proof. reflexivity. Qed.

Example canonical_mixed : textproto.CanonicalMIMEHeaderKey "x-UPSTREAM-id" = "X-Upstream-Id".
Proof. reflexivity. Qed.

Example canonical_space : textproto.CanonicalMIMEHeaderKey "not a token" = "not a token".
Proof. reflexivity. Qed.

Example Split_dot_trailing : Split_dot "a.b." = ["a"; "b"; ""].
Proof. reflexivity. Qed.

Example firstLabel_cn : Controller.firstLabel "A1.agents.example" = "A1".
Proof. reflexivity. Qed.

Example firstLabel_no_dot : Controller.firstLabel "localhost" = "localhost".
Proof. reflexivity. Qed.

Lemma Split_dot_nonempty s : Split_dot s ≠ [].
Proof.
  destruct s as [|c s]; cbn; [done|].
  case_bool_decide; [done|]. by destruct (Split_dot s).
Qed.

(** ** The cancel registry *)

Section cancel_registry.
Import tunnel Agent.

Lemma send_registry resp st : cancelRegistry (send resp st).2 = cancelRegistry st.
Proof. reflexivity. Qed.

Lemma logPrintf_registry line st : cancelRegistry (logPrintf line st).2 = cancelRegistry st.
Proof. reflexivity. Qed.

Lemma register_lookup id cancel st :
  cancelRegistry (registerCancelFunction id cancel st).2 !! id = Some cancel.
Proof. cbn. by rewrite lookup_insert_eq. Qed.

Lemma register_lookup_ne id id' cancel st :
  id ≠ id' →
  cancelRegistry (registerCancelFunction id cancel st).2 !! id' = cancelRegistry st !! id'.
Proof. intros. cbn. by rewrite lookup_insert_ne. Qed.

Lemma unregister_lookup id st :
  cancelRegistry (unregisterCancelFunction id st).2 !! id = None.
Proof. cbn. by rewrite lookup_delete_eq. Qed.

Lemma unregister_lookup_ne id id' st :
  id ≠ id' →
  cancelRegistry (unregisterCancelFunction id st).2 !! id' = cancelRegistry st !! id'.
Proof. intros. cbn. by rewrite lookup_delete_ne. Qed.

Lemma callCancelFunction_registry id st :
  cancelRegistry (callCancelFunction id st).2 = cancelRegistry st.
Proof. unfold callCancelFunction. by destruct (cancelRegistry st !! id). Qed.

(** C10: cancelling an id that is not in the cancel registry changes
    nothing: the state after the call is the state before it, so no cancel
    function was called and the registry is as it was. *)
Theorem callCancelFunction_absent (id : string) (st : agentState) :
  cancelRegistry st !! id = None →
  callCancelFunction id st = (tt, st).
Proof. intros H. unfold callCancelFunction. by rewrite H. Qed.

(** For a registered id, exactly its cancel function is called, and
    the entry stays. *)
Lemma callCancelFunction_present id cancel st :
  cancelRegistry st !! id = Some cancel →
  let st' := (callCancelFunction id st).2 in
  cancelCalls st' = cancelCalls st ++ [cancel] ∧ cancelRegistry st' = cancelRegistry st.
Proof. intros H. unfold callCancelFunction. by rewrite H. Qed.

End cancel_registry.

Lemma callCancelFunction_absent_witness :
  let st := Agent.mkAgentState {["01F8" := 7%nat]} [] [] [] 8 in
  Agent.cancelRegistry st !! "01F9" = None ∧
  Agent.callCancelFunction "01F9" st = (tt, st).
Proof.
  split; [reflexivity | apply (callCancelFunction_absent "01F9"); reflexivity].
Defined.


(** ** The HTTP executor *)

Section executor.
Import tunnel Agent ExecutorSpec AgentTrace.

Lemma framesSince_app st st' fs :
  dataflow st' = dataflow st ++ fs → framesSince st st' = fs.
Proof. intros H. unfold framesSince. by rewrite H, drop_app_length. Qed.

Lemma dataChunk_not_terminating req rd :
  filter (λ f, isTerminatingChunk f = true) (dataChunk req rd) = [].
Proof.
  unfold dataChunk. destruct (take readBufferSize (rd_data rd)) as [|b buf]; [done|].
  rewrite filter_cons_False; [done|]. cbn. done.
Qed.

Lemma dataChunks_not_terminating req rds :
  terminatingChunks (dataChunks req rds) = 0%nat.
Proof.
  unfold terminatingChunks, dataChunks.
  induction rds as [|rd rds IH]; [done|].
  rewrite bind_cons, filter_app, length_app, dataChunk_not_terminating. exact IH.
Qed.

(** One turn of the loop puts the data chunk of its read on the channel
    and changes nothing else. *)
Lemma readLoop_chunk req rd st :
  ∃ st1,
    (if bool_decide (0 < length (take readBufferSize (rd_data rd))) then
       send (mkASEventWrapper (Some (AS_HttpChunkedResponse
              (mkHttpChunkedResponse (req_Id req) (req_Target req)
                 (take readBufferSize (rd_data rd))))))
     else mret tt) st = (tt, st1)
    ∧ dataflow st1 = dataflow st ++ dataChunk req rd
    ∧ sameButChannel st st1.
Proof.
  unfold dataChunk. destruct (take readBufferSize (rd_data rd)) as [|b buf] eqn:E.
  - rewrite bool_decide_eq_false_2 by (cbn; lia). exists st.
    split; [done|]. split; [by rewrite app_nil_r | done].
  - rewrite bool_decide_eq_true_2 by (cbn; lia). eexists. split; [reflexivity|]. done.
Qed.

Lemma readLoop_ends req pre : ∀ rd post e st,
  Forall (λ r, rd_err r = None) pre → rd_err rd = Some e →
  ∃ st', readLoop req (pre ++ rd :: post) st = (Returned, st')
         ∧ dataflow st' = dataflow st ++ dataChunks req (pre ++ [rd]) ++ closing req e
         ∧ sameButChannel st st'.
Proof.
  induction pre as [|r pre IH]; intros rd post e st Hpre He.
  - cbn [app readLoop]. unfold mbind, M_bind.
    destruct (readLoop_chunk req rd st) as (st1 & -> & Hc & Hs).
    rewrite He. unfold dataChunks. rewrite bind_cons; cbn [mbind list_bind]; rewrite app_nil_r.
    destruct Hs as (?&?&?).
    destruct e; cbn; eexists; (split; [reflexivity|]); cbn;
      rewrite Hc, <- ?app_assoc, ?app_nil_r; done.
  - inversion Hpre as [|?? Hr Hpre']; subst.
    cbn [app readLoop]. unfold mbind, M_bind.
    destruct (readLoop_chunk req r st) as (st1 & -> & Hc & Hs).
    rewrite Hr.
    destruct (IH rd post e st1 Hpre' He) as (st' & Hrun & Hdf & Hs').
    exists st'. split; [exact Hrun|]. split.
    + rewrite Hdf, Hc. unfold dataChunks. cbn [app]. rewrite bind_cons, <- !app_assoc. done.
    + destruct Hs as (?&?&?), Hs' as (?&?&?). unfold sameButChannel. split_and!; congruence.
Qed.

(** Without an error the reader is asked again, for ever. *)
Lemma readLoop_blocks req body : ∀ st,
  Forall (λ r, rd_err r = None) body → (readLoop req body st).1 = Blocked.
Proof.
  induction body as [|r body IH]; intros st Hb; [done|].
  inversion Hb as [|?? Hr Hb']; subst.
  cbn [readLoop]. unfold mbind, M_bind.
  destruct (readLoop_chunk req r st) as (st1 & -> & _). rewrite Hr. by apply IH.
Qed.

(** The loop never touches the cancel registry. *)
Lemma readLoop_registry req body : ∀ st,
  cancelRegistry (readLoop req body st).2 = cancelRegistry st.
Proof.
  induction body as [|r body IH]; intros st; [done|].
  cbn [readLoop]. unfold mbind, M_bind.
  destruct (readLoop_chunk req r st) as (st1 & -> & _ & Hs & _).
  destruct (rd_err r) as [[| |msg]|]; cbn; rewrite ?IH; done.
Qed.

Lemma executeRequest_body_registry be client c req ctx st :
  cancelRegistry (executeRequest_body be client c req ctx st).2 = cancelRegistry st.
Proof.
  unfold executeRequest_body.
  destruct (NewRequestWithContext_ok be _ _); cbn; [|done].
  unfold mbind, M_bind; cbn.
  destruct (Do be client _) as [get|]; cbn; [|done].
  by rewrite readLoop_registry.
Qed.

(** The executor is its body between registration and the deferred
    removal. *)
Lemma executeRequest_unfold be c req st :
  executeRequest be c req st =
  let r := executeRequest_body be (executeRequest_client c) c req (nextContext st)
             (registered req st) in
  match r.1 with
  | Returned => (Returned, (unregisterCancelFunction (req_Id req) r.2).2)
  | Blocked => (Blocked, r.2)
  end.
Proof.
  unfold executeRequest, defer, mbind, M_bind. cbn.
  fold (registered req st).
  destruct (executeRequest_body _ _ _ _ _ _) as [[] st2]; reflexivity.
Qed.

Lemma executeRequest_returns be c req st st2 :
  executeRequest_body be (executeRequest_client c) c req (nextContext st) (registered req st)
    = (Returned, st2) →
  executeRequest be c req st = (Returned, (unregisterCancelFunction (req_Id req) st2).2)
  ∧ framesSince st (unregisterCancelFunction (req_Id req) st2).2
    = drop (length (dataflow st)) (dataflow st2).
Proof. intros H. rewrite executeRequest_unfold, H. done. Qed.

(** C1 (amended): when the outbound request cannot be built, or its
    execution against the backend returns an error, the executor puts
    exactly one frame on the channel, the header frame with status 502 and
    contentLength 0 bearing the request's id and target, and returns; no
    terminating chunk follows. *)
Theorem executeRequest_upstream_error (be : backend) (c : serverContext) (req : HttpRequest)
    (st : agentState) :
  NewRequestWithContext_ok be (req_Method req) (serverURL c +:+ req_URI req) = false
  ∨ Do be (executeRequest_client c) (executeRequest_httpRequest c req (nextContext st)) = None →
  ∃ st', executeRequest be c req st = (Returned, st')
         ∧ framesSince st st' = [badGatewayFrame req]
         ∧ terminatingChunks (framesSince st st') = 0%nat.
Proof.
  intros H.
  assert (∃ st2, executeRequest_body be (executeRequest_client c) c req (nextContext st)
                   (registered req st) = (Returned, st2)
                 ∧ dataflow st2 = dataflow st ++ [badGatewayFrame req]) as (st2 & Hb & Hd).
  { unfold executeRequest_body.
    destruct (NewRequestWithContext_ok be _ _) eqn:Hok; cbn.
    - destruct H as [H|H]; [done|]. unfold mbind, M_bind; cbn. rewrite H. cbn.
      eexists; split; reflexivity.
    - eexists; split; reflexivity. }
  destruct (executeRequest_returns _ _ _ _ _ Hb) as [Hrun Hfs].
  eexists. split; [exact Hrun|]. rewrite Hfs, Hd, drop_app_length. done.
Qed.

(** C2 (amended): when the backend answered and a read ends the loop, the
    executor returns, having sent the header frame, one data chunk per read
    that brought bytes and then, if the read ended with EOF or with an error
    other than context cancellation, exactly one terminating chunk with empty
    body bearing the request's id and target, as the last frame; when the
    read ended with context cancellation, no terminating chunk is sent. *)
Theorem executeRequest_loop_end (be : backend) (c : serverContext) (req : HttpRequest)
    (st : agentState) (get : Response) (pre : list readResult) (rd : readResult)
    (post : list readResult) (e : readError) :
  NewRequestWithContext_ok be (req_Method req) (serverURL c +:+ req_URI req) = true →
  Do be (executeRequest_client c) (executeRequest_httpRequest c req (nextContext st)) = Some get →
  Body get = pre ++ rd :: post →
  Forall (λ r, rd_err r = None) pre →
  rd_err rd = Some e →
  ∃ st', executeRequest be c req st = (Returned, st')
         ∧ framesSince st st'
           = headerFrame req get :: dataChunks req (pre ++ [rd]) ++ closing req e
         ∧ terminatingChunks (framesSince st st') = (if e is Canceled then 0%nat else 1%nat)
         ∧ (e ≠ Canceled → last (framesSince st st') = Some (terminatingChunk req)).
Proof.
  intros Hok Hdo Hbody Hpre He.
  assert (∃ st2, executeRequest_body be (executeRequest_client c) c req (nextContext st)
                   (registered req st) = (Returned, st2)
                 ∧ dataflow st2 = dataflow st ++ headerFrame req get
                                    :: dataChunks req (pre ++ [rd]) ++ closing req e)
    as (st2 & Hb & Hd).
  { unfold executeRequest_body. rewrite Hok. cbn. unfold mbind, M_bind; cbn.
    rewrite Hdo. cbn. rewrite Hbody.
    edestruct (readLoop_ends req pre rd post e) as (st2 & Hrun & Hdf & _); [done..|].
    rewrite Hrun. exists st2. split; [done|]. rewrite Hdf. cbn. by rewrite <- app_assoc. }
  destruct (executeRequest_returns _ _ _ _ _ Hb) as [Hrun Hfs].
  eexists. split; [exact Hrun|]. rewrite Hfs, Hd, drop_app_length.
  split; [done|]. split.
  - unfold terminatingChunks. rewrite filter_cons_False by (cbn; done).
    rewrite filter_app, length_app.
    fold (terminatingChunks (dataChunks req (pre ++ [rd]))).
    rewrite dataChunks_not_terminating. by destruct e.
  - intros Hne. rewrite app_comm_cons. destruct e; [|done|]; cbn [closing]; by rewrite last_snoc.
Qed.

(** The traced loop is the loop, and it leaves the registry alone. *)
Lemma readLoop_traced_spec req body : ∀ st,
  (readLoop_traced req body st).1 = readLoop req body st
  ∧ Forall (λ s, cancelRegistry s = cancelRegistry st) (readLoop_traced req body st).2.
Proof.
  induction body as [|rd body IH]; intros st; [by split|].
  cbn [readLoop_traced readLoop]. unfold mbind, T_bind, M_bind, observe.
  destruct (bool_decide (0 < length (take readBufferSize (rd_data rd)))); cbn;
    destruct (rd_err rd) as [[| |msg]|]; cbn;
    try (split; [reflexivity | repeat constructor]).
  - match goal with |- context [readLoop_traced req body ?s1] =>
      destruct (IH s1) as [E F]; destruct (readLoop_traced req body s1) as [[o s2] tr2] end.
    cbn in *. rewrite <- E. split; [done|]. constructor; [done|]. exact F.
  - destruct (IH st) as [E F]. destruct (readLoop_traced req body st) as [[o s2] tr2].
    cbn in *. rewrite <- E. split; [done|]. exact F.
Qed.

Lemma executeRequest_body_traced_spec be client c req ctx st :
  (executeRequest_body_traced be client c req ctx st).1 = executeRequest_body be client c req ctx st
  ∧ Forall (λ s, cancelRegistry s = cancelRegistry st)
           (executeRequest_body_traced be client c req ctx st).2.
Proof.
  unfold executeRequest_body_traced, executeRequest_body.
  destruct (negb _); unfold mbind, T_bind, M_bind, observe; cbn.
  { split; [reflexivity | repeat constructor]. }
  destruct (Do be client _) as [get|]; cbn.
  2: { split; [reflexivity | repeat constructor]. }
  match goal with |- context [readLoop_traced req (Body get) ?s1] =>
    destruct (readLoop_traced_spec req (Body get) s1) as [E F];
    destruct (readLoop_traced req (Body get) s1) as [[o s2] tr2] end.
  cbn in *. rewrite <- E. split; [done|]. repeat (constructor; [done|]). exact F.
Qed.

Lemma executeRequest_returns_when be c req st :
  NewRequestWithContext_ok be (req_Method req) (serverURL c +:+ req_URI req) = false
  ∨ (∀ get, Do be (executeRequest_client c)
              (executeRequest_httpRequest c req (nextContext st)) = Some get →
            Exists (λ rd, rd_err rd ≠ None) (Body get)) →
  (executeRequest be c req st).1 = Returned.
Proof.
  intros H. rewrite executeRequest_unfold. cbn zeta.
  assert ((executeRequest_body be (executeRequest_client c) c req (nextContext st)
             (registered req st)).1 = Returned) as Hret.
  { unfold executeRequest_body.
    destruct (NewRequestWithContext_ok be _ _) eqn:Hok; cbn; [|done].
    destruct H as [H|H]; [done|]. unfold mbind, M_bind; cbn.
    destruct (Do be _ _) as [get|] eqn:Hdo; cbn; [|done].
    specialize (H get eq_refl).
    apply Exists_exists in H as (rd & Hin & Herr).
    assert (∃ pre rd' post, Body get = pre ++ rd' :: post
              ∧ Forall (λ r, rd_err r = None) pre ∧ rd_err rd' ≠ None)
      as (pre & rd' & post & -> & Hpre & Herr').
    { clear -Hin Herr. induction (Body get) as [|r l IH]; [by apply elem_of_nil in Hin|].
      destruct (rd_err r) as [e|] eqn:Er.
      - exists [], r, l. split_and!; [done|constructor|congruence].
      - apply elem_of_cons in Hin as [->|Hin]; [congruence|].
        destruct (IH Hin) as (pre & rd' & post & -> & Hpre & Herr').
        exists (r :: pre), rd', post. split_and!; [done|by constructor|done]. }
    destruct (rd_err rd') as [e|] eqn:He; [|done].
    edestruct (readLoop_ends req pre rd' post e) as (st2 & -> & _); done. }
  destruct (executeRequest_body _ _ _ _ _ _) as [o st2]. cbn in Hret. by subst o.
Qed.

(** C9: the run of the executor, step by step, is the run of
    [executeRequest]; after its first two steps (the log line and the fresh
    context, which leave the registry alone) comes the registration, and from
    that step on every state the run goes through maps the request's id to
    the cancel function of the fresh context, the other entries being as they
    were.  If the run returns, on whatever path, one more step follows, the
    deferred removal: in the final state the id is not in the registry and
    the other entries are as they were.  If the run does not return, no
    removal takes place and the id is still mapped.  The executor returns
    on a build error, on an execute error and whenever a read ends the loop,
    by EOF, by context cancellation or by another error. *)
Theorem executeRequest_cancel_registry (be : backend) (c : serverContext) (req : HttpRequest)
    (st : agentState) :
  let run := executeRequest_traced be c req st in
  let ctx := nextContext st in
  run.1 = executeRequest be c req st
  ∧ (∃ s_log s_ctx held released,
       run.2 = s_log :: s_ctx :: held ++ released
       ∧ cancelRegistry s_log = cancelRegistry st
       ∧ cancelRegistry s_ctx = cancelRegistry st
       ∧ held ≠ []
       ∧ Forall (λ s, cancelRegistry s !! req_Id req = Some ctx
                      ∧ cancelRegistry s = <[req_Id req := ctx]> (cancelRegistry st)) held
       ∧ (run.1.1 = Blocked →
          released = [] ∧ cancelRegistry run.1.2 !! req_Id req = Some ctx)
       ∧ (run.1.1 = Returned →
          released = [run.1.2]
          ∧ cancelRegistry run.1.2 !! req_Id req = None
          ∧ cancelRegistry run.1.2 = delete (req_Id req) (cancelRegistry st)))
  ∧ (NewRequestWithContext_ok be (req_Method req) (serverURL c +:+ req_URI req) = false
     ∨ (∀ get, Do be (executeRequest_client c)
                 (executeRequest_httpRequest c req ctx) = Some get →
               Exists (λ rd, rd_err rd ≠ None) (Body get)) →
     (executeRequest be c req st).1 = Returned).
Proof.
  cbn zeta. split_and!; [| |apply executeRequest_returns_when].
  - unfold executeRequest_traced, executeRequest, defer_traced, defer.
    unfold mbind, T_bind, M_bind, observe. cbn.
    match goal with |- context [executeRequest_body_traced be ?cl c req ?ctx ?s1] =>
      destruct (executeRequest_body_traced_spec be cl c req ctx s1) as [E _];
      destruct (executeRequest_body_traced be cl c req ctx s1) as [[o s2] tr2] end.
    cbn in *. rewrite <- E. by destruct o.
  - unfold executeRequest_traced, defer_traced.
    unfold mbind, T_bind, observe. cbn.
    match goal with |- context [executeRequest_body_traced be ?cl c req ?ctx ?s1] =>
      destruct (executeRequest_body_traced_spec be cl c req ctx s1) as [E F];
      pose proof (executeRequest_body_registry be cl c req ctx s1) as R;
      destruct (executeRequest_body_traced be cl c req ctx s1) as [[o s2] tr2] end.
    cbn in *. rewrite <- E in R. cbn in R.
    eexists _, _, (_ :: tr2), (match o with Returned => [_] | Blocked => [] end).
    split_and!.
    + destruct o; cbn; [reflexivity|]. by rewrite app_nil_r.
    + done.
    + done.
    + done.
    + constructor.
      * cbn. by rewrite lookup_insert_eq.
      * eapply Forall_impl; [exact F|]. intros s ->. cbn. by rewrite lookup_insert_eq.
    + destruct o; [done|]. intros _. split; [done|]. cbn. rewrite R. by rewrite lookup_insert_eq.
    + destruct o; [|done]. intros _. cbn. rewrite R.
      split_and!; [done | by rewrite lookup_delete_eq | by rewrite delete_insert_eq].
Qed.

End executor.

Lemma executeRequest_upstream_error_witness :
  Agent.Do Examples.backend_down (Agent.executeRequest_client Examples.credentials)
    (Agent.executeRequest_httpRequest Examples.credentials Examples.healthz 0) = None
  ∧ ∃ st', Agent.executeRequest Examples.backend_down Examples.credentials Examples.healthz
             Examples.idle = (Agent.Returned, st')
           ∧ ExecutorSpec.framesSince Examples.idle st'
             = [ExecutorSpec.badGatewayFrame Examples.healthz]
           ∧ ExecutorSpec.terminatingChunks (ExecutorSpec.framesSince Examples.idle st') = 0%nat.
Proof.
  split; [reflexivity|].
  apply (executeRequest_upstream_error Examples.backend_down Examples.credentials
           Examples.healthz Examples.idle).
  right. reflexivity.
Defined.

(** C1 as worded fails when the backend refuses the connection: the
    executor sends the 502 header frame alone and no terminating chunk. *)
Lemma upstreamError_as_specified_fails :
  ¬ ExecutorSpec.upstreamError_as_specified Examples.backend_down Examples.credentials
      Examples.healthz Examples.idle.
Proof.
  intros (st' & Hrun & Hfs).
  vm_compute in Hrun. injection Hrun as <-.
  vm_compute in Hfs. discriminate Hfs.
Qed.

(** The same when the request cannot even be built. *)
Lemma unbuildable_request_sends_no_terminator :
  ¬ ExecutorSpec.upstreamError_as_specified Examples.backend_unbuildable Examples.credentials
      Examples.healthz Examples.idle.
Proof.
  intros (st' & Hrun & Hfs).
  vm_compute in Hrun. injection Hrun as <-.
  vm_compute in Hfs. discriminate Hfs.
Qed.

Lemma executeRequest_loop_end_witness :
  let be := Examples.backend_answers Examples.body_complete in
  let get := Agent.mkResponse 200 (-1) {["Content-Type" := ["text/plain"]]} Examples.body_complete in
  ∃ st', Agent.executeRequest be Examples.credentials Examples.healthz Examples.idle
           = (Agent.Returned, st')
         ∧ ExecutorSpec.framesSince Examples.idle st'
           = ExecutorSpec.headerFrame Examples.healthz get
             :: ExecutorSpec.dataChunks Examples.healthz
                  ([Agent.mkReadResult Examples.ok_bytes None]
                   ++ [Agent.mkReadResult [] (Some Agent.EOF)])
             ++ ExecutorSpec.closing Examples.healthz Agent.EOF
         ∧ ExecutorSpec.terminatingChunks (ExecutorSpec.framesSince Examples.idle st') = 1%nat
         ∧ (Agent.EOF ≠ Agent.Canceled →
            last (ExecutorSpec.framesSince Examples.idle st')
            = Some (ExecutorSpec.terminatingChunk Examples.healthz)).
Proof.
  cbn zeta.
  apply (executeRequest_loop_end (Examples.backend_answers Examples.body_complete)
           Examples.credentials Examples.healthz Examples.idle
           (Agent.mkResponse 200 (-1) {["Content-Type" := ["text/plain"]]} Examples.body_complete)
           [Agent.mkReadResult Examples.ok_bytes None]
           (Agent.mkReadResult [] (Some Agent.EOF)) [] Agent.EOF).
  - reflexivity.
  - reflexivity.
  - reflexivity.
  - repeat constructor.
  - reflexivity.
Defined.

(** C2 as worded fails when the read loop ends by context cancellation:
    the executor returns after the header frame and the data chunk, and
    sends no terminating chunk. *)
Lemma loopEnd_as_specified_fails :
  ¬ ExecutorSpec.loopEnd_as_specified (Examples.backend_answers Examples.body_cancelled)
      Examples.credentials Examples.healthz Examples.idle.
Proof.
  intros (st' & Hrun & Hcount & _).
  vm_compute in Hrun. injection Hrun as <-.
  vm_compute in Hcount. discriminate Hcount.
Qed.

Lemma executeRequest_cancel_registry_witness :
  ∃ st', Agent.executeRequest (Examples.backend_answers Examples.body_cancelled)
           Examples.credentials Examples.healthz Examples.idle = (Agent.Returned, st')
         ∧ Agent.cancelRegistry st' !! tunnel.req_Id Examples.healthz = None.
Proof.
  pose proof (executeRequest_cancel_registry (Examples.backend_answers Examples.body_cancelled)
                Examples.credentials Examples.healthz Examples.idle)
    as (Her & (s_log & s_ctx & held & released & _ & _ & _ & _ & _ & _ & Hret) & _).
  cbn zeta in Her, Hret.
  assert ((AgentTrace.executeRequest_traced (Examples.backend_answers Examples.body_cancelled)
             Examples.credentials Examples.healthz Examples.idle).1.1 = Agent.Returned) as E
    by (vm_compute; reflexivity).
  destruct (Hret E) as (_ & Hnone & _).
  rewrite <- Her.
  destruct (AgentTrace.executeRequest_traced _ _ _ _) as [[o st'] tr]. cbn in *. subst o.
  exists st'. split; [reflexivity | exact Hnone].
Defined.


(** ** The hello frames *)

(** C4 (amended): the hello of [runKubernetesTunnel], the agent of
    app/agent/agent.go, carries the protocol version constant, which is 10,
    whatever the namespaces.  The hello of [runTunnel], the earlier agent
    program, names protocols and namespaces only: whether or not its
    [AgentHello] declares a protocol version, it does not carry the
    constant. *)
Theorem hello_protocolVersion (namespaces : list string) :
  HelloSpec.helloVersion (KubernetesAgent.runKubernetesTunnel_hello namespaces)
    = Some tunnel.CurrentProtocolVersion
  ∧ tunnel.CurrentProtocolVersion = 10%Z
  ∧ ∀ declaresVersion,
      Agent.hello_Protocols (Agent.runTunnel_hello declaresVersion namespaces) = ["kubernetes"]
      ∧ Agent.hello_KubernetesNamespaces (Agent.runTunnel_hello declaresVersion namespaces)
        = namespaces
      ∧ Agent.hello_ProtocolVersion (Agent.runTunnel_hello declaresVersion namespaces)
        ≠ Some tunnel.CurrentProtocolVersion.
Proof.
  split_and!; [reflexivity..|]. intros [|]; split_and!; (reflexivity || discriminate).
Qed.

(** C4 as worded fails on the hello of [runTunnel]: with no namespaces
    configured, and whether or not its [AgentHello] declares a protocol
    version, it does not carry 10. *)
Lemma hello_as_specified_fails :
  ¬ HelloSpec.hello_as_specified true ∧ ¬ HelloSpec.hello_as_specified false.
Proof. split; intros H; destruct (H []) as [_ H2]; discriminate H2. Qed.

(** ** The credential refresher *)

Section refresher.
Import KubernetesAgent RefresherSpec.

(** Closes a goal of [isSameAs_spec] in which the snapshots differ. *)
Ltac differ_by tac :=
  exists false; split; [reflexivity|]; split; [discriminate|];
  intros Hn; exfalso; apply Hn; unfold differs, differsAsSpecified, caBytes, clientLeaf; tac.

Lemma byte_to_N_inj x y : Byte.to_N x = Byte.to_N y → x = y.
Proof.
  intros H. pose proof (Byte.of_to_N x) as Hx. rewrite H, Byte.of_to_N in Hx. congruence.
Qed.

Lemma bytes_Compare_eq a : ∀ b, bytes_Compare a b = 0%Z ↔ a = b.
Proof.
  induction a as [|x a IH]; intros [|y b]; cbn; try done.
  destruct (N.compare_spec (Byte.to_N x) (Byte.to_N y)) as [E|E|E].
  - apply byte_to_N_inj in E as ->. rewrite IH. split; congruence.
  - split; [done|]. intros [= -> _]. lia.
  - split; [done|]. intros [= -> _]. lia.
Qed.

(** [isSameAs] answers unless a client certificate lacks its leaf, and
    its answer is whether the two snapshots agree on all six points. *)
Lemma isSameAs_spec scf scf2 :
  hasLeaf scf → hasLeaf scf2 →
  ∃ same, isSameAs scf scf2 = Some same ∧ (same = true ↔ ¬ differs scf scf2).
Proof.
  intros Hl Hl2. unfold isSameAs.
  case_bool_decide as Hu; cbn [orb]; [differ_by ltac:(left; left; exact Hu)|].
  case_bool_decide as Hs; cbn [orb]; [differ_by ltac:(left; right; left; exact Hs)|].
  case_bool_decide as Ht; cbn [orb]; [differ_by ltac:(left; right; right; left; exact Ht)|].
  case_bool_decide as Hi; cbn [orb]; [differ_by ltac:(right; exact Hi)|].
  assert (∃ same, match clientCert scf, clientCert scf2 with
                   | Some cert, Some cert2 =>
                       match tls.Certificate_chain cert !! 0%nat,
                             tls.Certificate_chain cert2 !! 0%nat with
                       | Some leaf, Some leaf2 =>
                           if bool_decide (bytes_Compare leaf leaf2 ≠ 0%Z)
                           then Some false else Some true
                       | _, _ => None
                       end
                   | Some _, None | None, Some _ => Some false
                   | None, None => Some true
                   end = Some same
                 ∧ (same = true ↔ clientLeaf scf = clientLeaf scf2)) as (same & Hsame & Hleaf).
  { unfold clientLeaf.
    destruct (clientCert scf) as [cert|] eqn:Ec, (clientCert scf2) as [cert2|] eqn:Ec2; cbn.
    - specialize (Hl cert Ec). specialize (Hl2 cert2 Ec2).
      destruct (tls.Certificate_chain cert) as [|leaf ?]; [done|].
      destruct (tls.Certificate_chain cert2) as [|leaf2 ?]; [done|]. cbn.
      case_bool_decide as Hc; rewrite bytes_Compare_eq in Hc.
      + exists false. split; [done|]. split; [done|]. congruence.
      + exists true. split; [done|]. split; [congruence|done].
    - specialize (Hl cert Ec).
      destruct (tls.Certificate_chain cert) as [|leaf ?]; [done|].
      exists false. done.
    - specialize (Hl2 cert2 Ec2).
      destruct (tls.Certificate_chain cert2) as [|leaf2 ?]; [done|].
      exists false. done.
    - exists true. done. }
  assert (caBytes scf = caBytes scf2 →
          same = true ↔ ¬ differs scf scf2) as Hfinal.
  { intros Hca. rewrite Hleaf. unfold differs, differsAsSpecified.
    destruct (decide (clientLeaf scf = clientLeaf scf2)); tauto. }
  unfold caBytes in Hfinal.
  destruct (serverCA scf) as [ca|] eqn:Eca, (serverCA scf2) as [ca2|] eqn:Eca2; cbn;
    try (differ_by ltac:(left; do 3 right; left; rewrite Eca, Eca2; discriminate)).
  - unfold x509.Equal. case_bool_decide as Hraw; cbn [negb];
      [|differ_by ltac:(left; do 3 right; left; rewrite Eca, Eca2; cbn; congruence)].
    exists same. split; [|apply Hfinal; cbn; congruence].
    rewrite <- Hsame.
    destruct (clientCert scf), (clientCert scf2); reflexivity.
  - exists same. split; [|by apply Hfinal].
    rewrite <- Hsame.
    destruct (clientCert scf), (clientCert scf2); reflexivity.
Qed.

(** C6 (amended): a turn of the refresher replaces the snapshot with the
    newly loaded one when the two differ by username, server URL, token, CA
    certificate bytes, client certificate leaf or the insecure flag, and
    logs it; when they agree on all six, the snapshot and the log are left
    as they were. *)
Theorem updateServerContext_turn_spec (sa : serverContext) (saf : serverContextFields) :
  hasLeaf (f sa) → hasLeaf saf →
  ∃ sa', updateServerContext_turn sa saf = Some sa'
         ∧ (differs (f sa) saf →
            f sa' = saf ∧ logLines sa' = logLines sa
                            ++ ["Updating security context for API calls to Kubernetes"])
         ∧ (¬ differs (f sa) saf → sa' = sa).
Proof.
  intros Hl Hl2. unfold updateServerContext_turn.
  destruct (isSameAs_spec (f sa) saf Hl Hl2) as (same & -> & Hsame). cbn.
  destruct same; cbn; eexists; (split; [reflexivity|]).
  - split; [|done]. intros Hd. exfalso. by apply Hsame.
  - split; [done|]. intros Hn. apply Hsame in Hn. done.
Qed.

End refresher.

Lemma updateServerContext_turn_spec_witness :
  let sa := KubernetesAgent.mkServerContext Examples.snapshot_verifying [] in
  ∃ sa', KubernetesAgent.updateServerContext_turn sa Examples.snapshot_rotated = Some sa'
         ∧ (RefresherSpec.differs (KubernetesAgent.f sa) Examples.snapshot_rotated →
            KubernetesAgent.f sa' = Examples.snapshot_rotated
            ∧ KubernetesAgent.logLines sa'
              = KubernetesAgent.logLines sa
                ++ ["Updating security context for API calls to Kubernetes"])
         ∧ (¬ RefresherSpec.differs (KubernetesAgent.f sa) Examples.snapshot_rotated → sa' = sa).
Proof.
  cbn zeta.
  apply (updateServerContext_turn_spec
           (KubernetesAgent.mkServerContext Examples.snapshot_verifying [])
           Examples.snapshot_rotated).
  - intros cert [= <-]. discriminate.
  - intros cert [= <-]. discriminate.
Defined.

(** C6 as worded fails on two snapshots that differ in the [insecure]
    flag only: they agree on the five listed points, yet the refresher
    replaces the snapshot. *)
Lemma refresher_as_specified_fails :
  ¬ RefresherSpec.refresher_as_specified
      (KubernetesAgent.mkServerContext Examples.snapshot_verifying [])
      Examples.snapshot_insecure.
Proof.
  intros (sa' & Hrun & _ & Hsame).
  vm_compute in Hrun. injection Hrun as <-.
  assert (Hn : ¬ RefresherSpec.differsAsSpecified Examples.snapshot_verifying
                   Examples.snapshot_insecure).
  { intros [H|[H|[H|[H|H]]]]; by apply H. }
  specialize (Hsame Hn). discriminate Hsame.
Qed.

(** ** The inbound HTTP handler *)

Section handler.
Import tunnel Controller HandlerSpec.

Lemma makeHeaders_range_filter entries :
  makeHeaders_range entries
  = (λ e, mkHttpHeader e.1 e.2) <$> filter (λ e, e.1 ≠ "Accept-Encoding") entries.
Proof.
  unfold makeHeaders_range.
  assert (∀ acc, foldl (λ ret '(name, values),
                    if bool_decide (name ≠ "Accept-Encoding")
                    then ret ++ [mkHttpHeader name values] else ret) acc entries
                 = acc ++ ((λ e, mkHttpHeader e.1 e.2)
                             <$> filter (λ e, e.1 ≠ "Accept-Encoding") entries)) as H.
  { induction entries as [|[name values] entries IH]; intros acc; cbn [foldl].
    - by rewrite app_nil_r.
    - rewrite IH. case_bool_decide as Hn.
      + rewrite filter_cons_True by done. cbn. by rewrite <- app_assoc.
      + rewrite filter_cons_False by (cbn; naive_solver). done. }
  apply H.
Qed.

Lemma headerMap_of_entries (l : list (string * list string)) :
  (λ h, (Name h, Values h)) <$> ((λ e, mkHttpHeader e.1 e.2) <$> l) = l
  ∧ Name <$> ((λ e, mkHttpHeader e.1 e.2) <$> l) = l.*1.
Proof.
  induction l as [|[k v] l [IH1 IH2]]; [done|]. cbn. by rewrite IH1, IH2.
Qed.

Lemma makeHeaders_range_spec (h : http.Header) entries :
  entries ≡ₚ map_to_list h →
  headerMap (makeHeaders_range entries) = delete "Accept-Encoding" h
  ∧ NoDup (Name <$> makeHeaders_range entries).
Proof.
  intros Hperm. rewrite makeHeaders_range_filter. unfold headerMap.
  destruct (headerMap_of_entries
              (filter (λ e : string * list string, e.1 ≠ "Accept-Encoding") entries))
    as [-> ->].
  assert (Hnd : NoDup (filter (λ e : string * list string, e.1 ≠ "Accept-Encoding") entries).*1).
  { apply NoDup_fmap_fst.
    - intros k v1 v2 [_ H1]%list_elem_of_filter [_ H2]%list_elem_of_filter.
      rewrite Hperm in H1, H2. apply elem_of_map_to_list in H1, H2. congruence.
    - apply NoDup_filter. rewrite Hperm. apply NoDup_map_to_list. }
  split; [|exact Hnd].
  apply map_eq. intros k. apply option_eq. intros v.
  rewrite <- elem_of_list_to_map by exact Hnd.
  rewrite list_elem_of_filter, Hperm, elem_of_map_to_list, lookup_delete_Some.
  cbn. split; intros [Hne Hk]; (split; [congruence|done]).
Qed.

(** C5: the headers put into the forwarded [HttpRequest] frame, read as
    a multimap, are the client's request headers without the entry named
    [Accept-Encoding]; every other name keeps its list of values, and no
    name occurs twice.  This holds in whatever order the map is visited,
    and so for the frame the handler hands to the agent. *)
Theorem makeHeaders_strips_AcceptEncoding :
  (∀ (h : http.Header) (entries : list (string * list string)),
     entries ≡ₚ map_to_list h →
     headerMap (makeHeaders_range entries) = delete "Accept-Encoding" h
     ∧ NoDup (Name <$> makeHeaders_range entries))
  ∧ (∀ env st w r agent req,
       h_sent (kubernetesAPIHandler env st w r) = Some (agent, req) →
       headerMap (req_Headers req) = delete "Accept-Encoding" (r_Header r)
       ∧ NoDup (Name <$> req_Headers req)
       ∧ req_Headers req = makeHeaders (r_Header r)).
Proof.
  split; [exact makeHeaders_range_spec|].
  intros env st w r agent req Hsent.
  assert (req_Headers req = makeHeaders (r_Header r)) as Hreq.
  { unfold kubernetesAPIHandler in Hsent.
    destruct (r_TLS r ≫= _) as [cn|]; [|done].
    cbn zeta in Hsent.
    destruct (_ || _).
    - destruct (WriteHeader _ _); done.
    - destruct (_ !! rnd_Intn env _) as [ag|]; [|done].
      destruct (responseLoop _ _ _ _) as [o l]. cbn in Hsent.
      by injection Hsent as _ <-. }
  rewrite Hreq. unfold makeHeaders.
  destruct (makeHeaders_range_spec (r_Header r) (map_to_list (r_Header r))) as [? ?]; done.
Qed.

Lemma WriteHeader_fresh code w :
  wroteHeader w = false → (100 ≤ code ≤ 999)%Z →
  WriteHeader code w
  = Some (mkResponseWriter (w_Header w) true code (w_Header w) (w_body w) (w_flushes w)).
Proof.
  intros Hw Hc. unfold WriteHeader. rewrite Hw.
  by rewrite bool_decide_eq_false_2 by lia.
Qed.

(** While no header frame was seen, frames that are not header frames
    either end the loop with 502 (a chunk) or leave the writer alone. *)
Lemma responseLoop_chunk_first agentname pre : ∀ fr c rest closed l,
  noHeaderFrame pre →
  Event fr = Some (AS_HttpChunkedResponse c) →
  seenHeader l = false →
  wroteHeader (l_w l) = false →
  ∃ l', responseLoop agentname (pre ++ fr :: rest) closed l = (Returned, l')
        ∧ l_w l' = mkResponseWriter (w_Header (l_w l)) true http.StatusBadGateway
                     (w_Header (l_w l)) (w_body (l_w l)) (w_flushes (l_w l))
        ∧ cleanClose l' = cleanClose l.
Proof.
  induction pre as [|p pre IH]; intros fr c rest closed l Hpre Hfr Hseen Hw.
  - cbn [app responseLoop]. rewrite Hfr, Hseen. cbn [negb].
    rewrite WriteHeader_fresh by (done || (unfold http.StatusBadGateway; lia)).
    eexists. done.
  - inversion Hpre as [|?? Hp Hpre']; subst.
    cbn [app responseLoop]. unfold isHeaderFrame in Hp.
    destruct (Event p) as [[h|pg|resp|ch|]|] eqn:Ep; try done.
    1,2,4: (edestruct (IH fr c rest closed
                        (mkLoopState (l_w l) (l_rHeader l) (seenHeader l) (isChunked l)
                           (cleanClose l)
                           (l_log l ++ ["Received unknown message: " +:+ agentname])))
              as (l' & Hrun & Hl & Hc); [done..|]; exists l'; done).
    + rewrite Hseen. cbn [negb].
      rewrite WriteHeader_fresh by (done || (unfold http.StatusBadGateway; lia)).
      eexists. done.
    + by apply (IH fr c rest closed l).
Qed.

(** C7: when the registry has no session for the identity derived from
    the client certificate, the handler answers 502 Bad Gateway and returns
    without handing a request to any agent or writing a body, and the request
    counter of that identity has gone up by exactly one (the counters of the
    other identities are as they were). *)
Theorem kubernetesAPIHandler_no_agent (env : handlerEnv) (st : controllerState)
    (w : ResponseWriter) (r : Request) (cn : string) :
  commonName r = Some cn →
  agents_m st !! firstLabel cn = None ∨ agents_m st !! firstLabel cn = Some [] →
  wroteHeader w = false →
  let res := kubernetesAPIHandler env st w r in
  h_outcome res = Returned
  ∧ wroteHeader (h_w res) = true
  ∧ w_status (h_w res) = 502%Z
  ∧ w_body (h_w res) = w_body w
  ∧ h_sent res = None
  ∧ apiRequestCounter (h_state res) !! firstLabel cn
    = Some (S (default 0%nat (apiRequestCounter st !! firstLabel cn)))
  ∧ (∀ other, other ≠ firstLabel cn →
       apiRequestCounter (h_state res) !! other = apiRequestCounter st !! other)
  ∧ agents_m (h_state res) = agents_m st.
Proof.
  intros Hcn Hnone Hw. unfold commonName in Hcn.
  cbn zeta. unfold kubernetesAPIHandler. rewrite Hcn. cbn zeta. cbn [agents_m].
  assert (bool_decide (agents_m st !! firstLabel cn = None)
          || bool_decide (length (default [] (agents_m st !! firstLabel cn)) = 0%nat) = true) as ->.
  { destruct Hnone as [-> | ->]; reflexivity. }
  rewrite WriteHeader_fresh by (done || (unfold http.StatusBadGateway; lia)). cbn.
  split_and!; try done.
  - by rewrite lookup_insert_eq.
  - intros other Hne. by rewrite lookup_insert_ne.
Qed.

(** C8: when a chunk frame arrives and no header frame arrived before
    it, the handler answers 502 Bad Gateway and returns; no body byte is
    written and nothing is flushed. *)
Theorem kubernetesAPIHandler_chunk_before_header (env : handlerEnv) (st : controllerState)
    (w : ResponseWriter) (r : Request) (cn : string) (agentList : list agentState)
    (pre : list ASEventWrapper) (fr : ASEventWrapper) (c : HttpChunkedResponse)
    (rest : list ASEventWrapper) :
  commonName r = Some cn →
  agents_m st !! firstLabel cn = Some agentList →
  rnd_Intn env (length agentList) < length agentList →
  out_frames env = pre ++ fr :: rest →
  noHeaderFrame pre →
  Event fr = Some (AS_HttpChunkedResponse c) →
  wroteHeader w = false →
  let res := kubernetesAPIHandler env st w r in
  h_outcome res = Returned
  ∧ wroteHeader (h_w res) = true
  ∧ w_status (h_w res) = 502%Z
  ∧ w_body (h_w res) = w_body w
  ∧ w_flushes (h_w res) = w_flushes w.
Proof.
  intros Hcn Hag Hrnd Hframes Hpre Hfr Hw. unfold commonName in Hcn.
  cbn zeta. unfold kubernetesAPIHandler. rewrite Hcn. cbn zeta. cbn [agents_m].
  rewrite Hag. change (default [] (Some agentList)) with agentList.
  rewrite bool_decide_eq_false_2 by done.
  rewrite bool_decide_eq_false_2 by lia. cbn [orb].
  destruct (lookup_lt_is_Some_2 agentList _ Hrnd) as [agent ->].
  rewrite Hframes.
  edestruct (responseLoop_chunk_first (firstLabel cn) pre fr c rest (out_closed env)
               (mkLoopState w (r_Header r) false false false []))
    as (l' & -> & Hl' & _); [done..|].
  cbn. rewrite Hl'. done.
Qed.

End handler.

Lemma makeHeaders_strips_AcceptEncoding_witness :
  let r := Examples.request_from "A1.agents.example" in
  let res := Controller.kubernetesAPIHandler Examples.env_answered Examples.controller_A1
               Examples.writer_fresh r in
  ∃ agent req,
    Controller.h_sent res = Some (agent, req)
    ∧ HandlerSpec.headerMap (tunnel.req_Headers req) = {["Content-Type" := ["application/json"]]}
    ∧ HandlerSpec.headerMap (tunnel.req_Headers req)
      = delete "Accept-Encoding" (Controller.r_Header r).
Proof.
  cbn zeta. eexists _, _. split; [vm_compute; reflexivity|]. split; [vm_compute; reflexivity|].
  apply (proj2 makeHeaders_strips_AcceptEncoding Examples.env_answered Examples.controller_A1
           Examples.writer_fresh (Examples.request_from "A1.agents.example")
           (Controller.mkAgentState "A1" "01F8MECHZX3TBDSZ7XRADM79XF")).
  vm_compute. reflexivity.
Defined.

Lemma kubernetesAPIHandler_no_agent_witness :
  let r := Examples.request_from "A2.agents.example" in
  let res := Controller.kubernetesAPIHandler Examples.env_answered Examples.controller_A1
               Examples.writer_fresh r in
  HandlerSpec.commonName r = Some "A2.agents.example"
  ∧ Controller.firstLabel "A2.agents.example" = "A2"
  ∧ Controller.agents_m Examples.controller_A1 !! "A2" = None
  ∧ Controller.h_outcome res = Controller.Returned
  ∧ Controller.w_status (Controller.h_w res) = 502%Z
  ∧ Controller.apiRequestCounter (Controller.h_state res) !! "A2" = Some 5%nat.
Proof.
  cbn zeta.
  pose proof (kubernetesAPIHandler_no_agent Examples.env_answered Examples.controller_A1
                Examples.writer_fresh (Examples.request_from "A2.agents.example")
                "A2.agents.example" eq_refl (or_introl eq_refl) eq_refl)
    as (Hout & _ & Hstatus & _ & _ & Hcount & _).
  split; [reflexivity|]. split; [reflexivity|]. split; [reflexivity|].
  split; [exact Hout|]. split; [exact Hstatus|]. exact Hcount.
Defined.

Lemma kubernetesAPIHandler_chunk_before_header_witness :
  let r := Examples.request_from "A1.agents.example" in
  let res := Controller.kubernetesAPIHandler Examples.env_chunk_first Examples.controller_A1
               Examples.writer_fresh r in
  Controller.h_outcome res = Controller.Returned
  ∧ Controller.wroteHeader (Controller.h_w res) = true
  ∧ Controller.w_status (Controller.h_w res) = 502%Z
  ∧ Controller.w_body (Controller.h_w res) = []
  ∧ Controller.w_flushes (Controller.h_w res) = 0%nat.
Proof.
  cbn zeta.
  apply (kubernetesAPIHandler_chunk_before_header Examples.env_chunk_first
           Examples.controller_A1 Examples.writer_fresh
           (Examples.request_from "A1.agents.example") "A1.agents.example"
           [Controller.mkAgentState "A1" "01F8MECHZX3TBDSZ7XRADM79XF"]
           [tunnel.mkASEventWrapper None] (Examples.upstream_chunk Examples.ok_bytes)
           (tunnel.mkHttpChunkedResponse "01F8MECHZX3TBDSZ7XRADM79XE" "A1" Examples.ok_bytes)
           [Examples.upstream_header]).
  - reflexivity.
  - reflexivity.
  - cbn. lia.
  - reflexivity.
  - repeat constructor.
  - reflexivity.
  - reflexivity.
Defined.

(** The [HttpResponse] arm never takes a header off the response writer:
    what was there before the frame is still there after it. *)
Lemma onHttpResponse_keeps_headers resp l l' k :
  Controller.onHttpResponse resp l = Some l' →
  is_Some (Controller.w_Header (Controller.l_w l) !! k) →
  is_Some (Controller.w_Header (Controller.l_w l') !! k).
Proof.
  unfold Controller.onHttpResponse. intros Hrun Hk.
  destruct (Controller.WriteHeader _ _) as [w'|] eqn:Hw; [|done].
  cbn in Hrun. injection Hrun as <-. cbn.
  assert (Controller.w_Header w'
          = foldl (λ h header,
                     foldl (λ h value, http.Header_Add (tunnel.Name header) value h) h
                           (tunnel.Values header))
                  (Controller.w_Header (Controller.l_w l)) (tunnel.resp_Headers resp)) as ->.
  { unfold Controller.WriteHeader in Hw. cbn in Hw.
    destruct (Controller.wroteHeader (Controller.l_w l)); [injection Hw as <-; cbn; reflexivity|].
    case_bool_decide; [done|]. injection Hw as <-. reflexivity. }
  clear Hw. revert Hk. generalize (Controller.w_Header (Controller.l_w l)).
  induction (tunnel.resp_Headers resp) as [|hd hs IH]; intros h Hk; [exact Hk|].
  cbn [foldl]. apply IH. clear IH.
  revert h Hk. induction (tunnel.Values hd) as [|v vs IHv]; intros h Hk; [exact Hk|].
  cbn [foldl]. apply IHv. unfold http.Header_Add.
  destruct (decide (textproto.CanonicalMIMEHeaderKey (tunnel.Name hd) = k)) as [<-|Hne].
  - rewrite lookup_insert_eq. done.
  - by rewrite lookup_insert_ne.
Qed.

(** Were the handler given a response writer that already carries a
    header (the server of net/http hands it none), the loop before the
    frame's headers would not take it off: it deletes the entry of the same
    name from the headers of the request.  Here the writer carries
    [Content-Type: text/plain] and the frame [X-Upstream: 1]. *)
Theorem kubernetesAPIHandler_default_header_kept :
  let r := Examples.request_from "A1.agents.example" in
  let res := Controller.kubernetesAPIHandler Examples.env_answered Examples.controller_A1
               Examples.writer_with_default r in
  Controller.h_outcome res = Controller.Returned
  ∧ Controller.w_status (Controller.h_w res) = 200%Z
  ∧ Controller.w_sentHeader (Controller.h_w res)
    = {["Content-Type" := ["text/plain"]; "X-Upstream" := ["1"]]}
  ∧ Controller.w_sentHeader (Controller.h_w res)
    ≠ HandlerSpec.headerMap [tunnel.mkHttpHeader "X-Upstream" ["1"]]
  ∧ Controller.r_Header r !! "Content-Type" = Some ["application/json"]
  ∧ Controller.h_rHeader res !! "Content-Type" = None.
Proof.
  cbn zeta. split_and!; try (vm_compute; reflexivity).
  intros H. apply (f_equal (λ m : gmap string (list string), m !! "Content-Type")) in H.
  vm_compute in H. discriminate H.
Qed.


(** * Further properties of the code *)

(** ** The frames of the executor *)

Section executor_frames.
Import tunnel Agent ExecutorSpec ExecutorFrames.

Lemma readLoop_frames req body : ∀ st,
  dataflow (readLoop req body st).2 = dataflow st ++ loopFrames req body
  ∧ sameButChannel st (readLoop req body st).2.
Proof.
  induction body as [|r body IH]; intros st.
  - cbn. by rewrite app_nil_r.
  - cbn [readLoop loopFrames]. unfold mbind, M_bind.
    destruct (readLoop_chunk req r st) as (st1 & -> & Hc & Hs).
    destruct Hs as (?&?&?).
    destruct (rd_err r) as [[| |msg]|]; cbn.
    1-3: rewrite Hc, <- ?app_assoc, ?app_nil_r; done.
    destruct (IH st1) as [Hd (?&?&?)]. rewrite Hd, Hc, <- app_assoc.
    split; [done|]. unfold sameButChannel. split_and!; congruence.
Qed.

Lemma executeRequest_body_frames be c req st :
  let r := executeRequest_body be (executeRequest_client c) c req (nextContext st)
             (registered req st) in
  dataflow r.2 = dataflow st ++ emitted be c req (nextContext st)
  ∧ cancelCalls r.2 = cancelCalls st
  ∧ nextContext r.2 = S (nextContext st).
Proof.
  cbn zeta. unfold executeRequest_body, emitted.
  destruct (NewRequestWithContext_ok be _ _); cbn; [|done].
  unfold mbind, M_bind; cbn.
  destruct (Do be _ _) as [get|]; cbn; [|done].
  match goal with |- context [readLoop req (Body get) ?s] =>
    destruct (readLoop_frames req (Body get) s) as [Hd (_ & Hc & Hn)] end.
  rewrite Hd, Hc, Hn. cbn. by rewrite <- app_assoc.
Qed.

Lemma executeRequest_frames be c req st :
  let st' := (executeRequest be c req st).2 in
  dataflow st' = dataflow st ++ emitted be c req (nextContext st)
  ∧ cancelCalls st' = cancelCalls st
  ∧ nextContext st' = S (nextContext st).
Proof.
  cbn zeta. rewrite executeRequest_unfold. cbn zeta.
  pose proof (executeRequest_body_frames be c req st) as H. cbn zeta in H.
  destruct (executeRequest_body _ _ _ _ _ _) as [[] st2]; exact H.
Qed.

Lemma dataChunk_bears req rd :
  Forall (λ fr, frameId fr = Some (req_Id req) ∧ frameTarget fr = Some (req_Target req)
                ∧ isChunkFrame fr = true
                ∧ frameBody fr = take readBufferSize (rd_data rd)
                ∧ frameBody fr ≠ [])
         (dataChunk req rd).
Proof.
  unfold dataChunk. destruct (take readBufferSize (rd_data rd)) as [|b buf]; [constructor|].
  constructor; [|constructor]. done.
Qed.

Lemma closing_bears req e :
  Forall (λ fr, frameId fr = Some (req_Id req) ∧ frameTarget fr = Some (req_Target req)
                ∧ isChunkFrame fr = true)
         (closing req e).
Proof. destruct e; repeat constructor. Qed.

Lemma loopFrames_bears req body :
  Forall (λ fr, frameId fr = Some (req_Id req) ∧ frameTarget fr = Some (req_Target req)
                ∧ isChunkFrame fr = true)
         (loopFrames req body).
Proof.
  induction body as [|rd body IH]; [constructor|].
  cbn [loopFrames]. apply Forall_app. split.
  - eapply Forall_impl; [apply dataChunk_bears|]. by intros fr (?&?&?&_).
  - destruct (rd_err rd); [apply closing_bears | exact IH].
Qed.

(** X1: every frame a run of the executor puts on the channel bears the
    id and the target of the request, on every path and whether or not
    the run returns. *)
Theorem executeRequest_frames_bear_id (be : backend) (c : serverContext) (req : HttpRequest)
    (st : agentState) :
  Forall (λ fr, frameId fr = Some (req_Id req) ∧ frameTarget fr = Some (req_Target req))
         (framesSince st (executeRequest be c req st).2).
Proof.
  destruct (executeRequest_frames be c req st) as [Hd _].
  rewrite (framesSince_app _ _ _ Hd). unfold emitted.
  destruct (negb _); [repeat constructor|].
  destruct (Do be _ _) as [get|]; [|repeat constructor].
  constructor; [done|].
  eapply Forall_impl; [apply loopFrames_bears|]. by intros fr (?&?&_).
Qed.

(** X2: a run of the executor puts exactly one header frame on the
    channel, and it is the first frame; everything after it is a chunk
    frame.  The frames already on the channel stay in front. *)
Theorem executeRequest_one_header_first (be : backend) (c : serverContext) (req : HttpRequest)
    (st : agentState) :
  ∃ hd chunks,
    dataflow (executeRequest be c req st).2 = dataflow st ++ hd :: chunks
    ∧ isHeaderFrame hd = true
    ∧ Forall (λ fr, isChunkFrame fr = true ∧ isHeaderFrame fr = false) chunks.
Proof.
  destruct (executeRequest_frames be c req st) as [Hd _]. rewrite Hd. unfold emitted.
  destruct (negb _); [by exists (badGatewayFrame req), []|].
  destruct (Do be _ _) as [get|]; [|by exists (badGatewayFrame req), []].
  exists (headerFrame req get), (loopFrames req (Body get)). split_and!; [done..|].
  eapply Forall_impl; [apply loopFrames_bears|].
  intros fr (_ & _ & Hc). split; [done|].
  unfold isChunkFrame, isHeaderFrame in *. by destruct (Event fr) as [[]|].
Qed.

Lemma loopFrames_chunk_sizes req body :
  Forall (λ fr, isTerminatingChunk fr = true
                ∨ (0 < length (frameBody fr) ≤ readBufferSize))
         (loopFrames req body).
Proof.
  induction body as [|rd body IH]; [constructor|].
  cbn [loopFrames]. apply Forall_app. split.
  - eapply Forall_impl; [apply dataChunk_bears|].
    intros fr (_ & _ & _ & Hb & Hne). right. rewrite Hb in *. split.
    + destruct (take _ _); [done|cbn; lia].
    + rewrite length_take. lia.
  - destruct (rd_err rd) as [e|]; [|exact IH].
    destruct e; repeat constructor; by left.
Qed.

(** X3: a chunk frame of the executor either is the terminating chunk
    or carries between 1 and 10240 bytes. *)
Theorem executeRequest_chunk_sizes (be : backend) (c : serverContext) (req : HttpRequest)
    (st : agentState) :
  Forall (λ fr, isChunkFrame fr = true →
                isTerminatingChunk fr = true
                ∨ (0 < length (frameBody fr) ≤ Z.to_nat 10240))
         (framesSince st (executeRequest be c req st).2).
Proof.
  destruct (executeRequest_frames be c req st) as [Hd _].
  rewrite (framesSince_app _ _ _ Hd). unfold emitted.
  destruct (negb _); [repeat constructor; done|].
  destruct (Do be _ _) as [get|]; [|repeat constructor; done].
  constructor; [done|].
  eapply Forall_impl; [apply loopFrames_chunk_sizes|]. by intros fr H _.
Qed.

Lemma loopFrames_bodies req pre : ∀ rd post e,
  Forall (λ r, rd_err r = None) pre → rd_err rd = Some e →
  chunkBodies (loopFrames req (pre ++ rd :: post))
  = concat ((λ r, take readBufferSize (rd_data r)) <$> (pre ++ [rd])).
Proof.
  assert (Hchunk : ∀ r, chunkBodies (dataChunk req r) = take readBufferSize (rd_data r)).
  { intros r. unfold dataChunk, chunkBodies.
    destruct (take readBufferSize (rd_data r)) as [|b buf]; [done|]. cbn. by rewrite app_nil_r. }
  assert (Happ : ∀ a b, chunkBodies (a ++ b) = chunkBodies a ++ chunkBodies b).
  { intros a b. unfold chunkBodies. by rewrite fmap_app, concat_app. }
  induction pre as [|r pre IH]; intros rd post e Hpre He.
  - cbn [app loopFrames fmap list_fmap concat]. rewrite He, Happ, Hchunk, app_nil_r.
    destruct e; cbn; by rewrite ?app_nil_r.
  - inversion Hpre as [|?? Hr Hpre']; subst.
    cbn [app loopFrames fmap list_fmap concat]. rewrite Hr, Happ, Hchunk.
    by rewrite (IH rd post e).
Qed.

(** X4: when the backend answered and a read ends the loop, the body
    bytes of the frames of the run, put together in order, are the bytes the
    reads brought, each read cut to the 10240 bytes of the buffer: nothing is
    lost, repeated or reordered. *)
Theorem executeRequest_relays_body (be : backend) (c : serverContext) (req : HttpRequest)
    (st : agentState) (get : Response) (pre : list readResult) (rd : readResult)
    (post : list readResult) (e : readError) :
  NewRequestWithContext_ok be (req_Method req) (serverURL c +:+ req_URI req) = true →
  Do be (executeRequest_client c) (executeRequest_httpRequest c req (nextContext st)) = Some get →
  Body get = pre ++ rd :: post →
  Forall (λ r, rd_err r = None) pre →
  rd_err rd = Some e →
  let sent := chunkBodies (framesSince st (executeRequest be c req st).2) in
  sent = concat ((λ r, take (Z.to_nat 10240) (rd_data r)) <$> (pre ++ [rd]))
  ∧ (Forall (λ r, length (rd_data r) ≤ Z.to_nat 10240) (pre ++ [rd]) →
     sent = concat (rd_data <$> (pre ++ [rd]))).
Proof.
  intros Hok Hdo Hbody Hpre He. cbn zeta.
  destruct (executeRequest_frames be c req st) as [Hd _].
  rewrite (framesSince_app _ _ _ Hd). unfold emitted. rewrite Hok, Hdo. cbn [negb].
  rewrite Hbody.
  assert (chunkBodies (headerFrame req get :: loopFrames req (pre ++ rd :: post))
          = chunkBodies (loopFrames req (pre ++ rd :: post))) as -> by done.
  rewrite (loopFrames_bodies req pre rd post e Hpre He).
  split; [done|]. intros Hlen. f_equal.
  apply Forall_fmap_ext_1. eapply Forall_impl; [exact Hlen|].
  intros r Hr. cbn. by rewrite take_ge.
Qed.

(** X5: a run of the executor calls no cancel function, makes exactly
    one context and only adds to the end of the channel. *)
Theorem executeRequest_leaves_alone (be : backend) (c : serverContext) (req : HttpRequest)
    (st : agentState) :
  let st' := (executeRequest be c req st).2 in
  cancelCalls st' = cancelCalls st
  ∧ nextContext st' = S (nextContext st)
  ∧ dataflow st `prefix_of` dataflow st'
  ∧ (∀ id, id ≠ req_Id req → cancelRegistry st' !! id = cancelRegistry st !! id).
Proof.
  cbn zeta. destruct (executeRequest_frames be c req st) as (Hd & Hc & Hn).
  split_and!; [done|done|rewrite Hd; by apply prefix_app_r|].
  intros id Hne. rewrite executeRequest_unfold. cbn zeta.
  pose proof (executeRequest_body_registry be (executeRequest_client c) c req
                (nextContext st) (registered req st)) as Hreg.
  destruct (executeRequest_body _ _ _ _ _ _) as [[] st2]; cbn in *; rewrite Hreg.
  - rewrite lookup_delete_ne, lookup_insert_ne; done.
  - rewrite lookup_insert_ne; done.
Qed.

End executor_frames.

(** ** Copying headers *)

Section headers.
Import tunnel ExecutorFrames.

(** Adding the values of one header. *)
Lemma Header_Add_values name values : ∀ (h : http.Header) k,
  foldl (λ h value, http.Header_Add name value h) h values !! k
  = if bool_decide (textproto.CanonicalMIMEHeaderKey name = k)
    then match values with
         | [] => h !! k
         | _ => Some (default [] (h !! k) ++ values)
         end
    else h !! k.
Proof.
  induction values as [|v vs IH]; intros h k; cbn [foldl].
  - by case_bool_decide.
  - rewrite IH. unfold http.Header_Add. case_bool_decide as Hk.
    + subst k. rewrite lookup_insert_eq. cbn. destruct vs; [done|].
      by rewrite <- app_assoc.
    + by rewrite lookup_insert_ne.
Qed.

(** Adding the values of a list of headers: a name gets the values the
    headers give it, in their order, after those it had. *)
Lemma Header_Add_all hs : ∀ (h : http.Header) k,
  foldl (λ h header, foldl (λ h value, http.Header_Add (Name header) value h) h (Values header))
        h hs !! k
  = match valuesFor k hs with
    | [] => h !! k
    | vs => Some (default [] (h !! k) ++ vs)
    end.
Proof.
  induction hs as [|hd hs IH]; intros h k; cbn [foldl]; [done|].
  rewrite IH, Header_Add_values. unfold valuesFor. rewrite bind_cons.
  fold (valuesFor k hs).
  case_bool_decide as Hk; cbn [app]; [|done].
  destruct (Values hd) as [|v vs] eqn:Ev; cbn [app]; [done|].
  destruct (valuesFor k hs) as [|v' vs']; cbn; [by rewrite app_nil_r|].
  by rewrite <- app_assoc.
Qed.

Lemma string_length_pos s : (0 < String.length s) ↔ s ≠ EmptyString.
Proof. destruct s; cbn; split; (done || lia). Qed.

(** X6: the outbound request carries the method and the body of the
    tunnelled request and the URL made of the server URL and the request's
    URI.  Its headers are the tunnelled request's, gathered by canonical
    name with the values in their order; and when the credentials hold a
    token, [Authorization] is exactly the bearer token, whatever the request
    said about it. *)
Theorem executeRequest_httpRequest_spec (c : Agent.serverContext) (req : HttpRequest) (ctx : nat) :
  let r := Agent.executeRequest_httpRequest c req ctx in
  Agent.r_Context r = ctx
  ∧ Agent.r_Method r = req_Method req
  ∧ Agent.r_URL r = Agent.serverURL c +:+ req_URI req
  ∧ Agent.r_Body r = req_Body req
  ∧ (Agent.token c ≠ EmptyString →
     Agent.r_Header r !! "Authorization" = Some ["Bearer " +:+ Agent.token c])
  ∧ (∀ k, k ≠ "Authorization" ∨ Agent.token c = EmptyString →
          Agent.r_Header r !! k
          = match valuesFor k (req_Headers req) with [] => None | vs => Some vs end).
Proof.
  cbn zeta. unfold Agent.executeRequest_httpRequest. cbn.
  split_and!; try done.
  - intros Ht. rewrite bool_decide_eq_true_2 by by apply string_length_pos.
    unfold http.Header_Set.
    change (textproto.CanonicalMIMEHeaderKey "Authorization") with "Authorization".
    by rewrite lookup_insert_eq.
  - intros k Hk.
    assert (∀ h : http.Header,
              (if bool_decide (0 < String.length (Agent.token c))
               then http.Header_Set "Authorization" ("Bearer " +:+ Agent.token c) h else h) !! k
              = h !! k) as ->.
    { intros h. case_bool_decide as Ht; [|done].
      apply string_length_pos in Ht. destruct Hk as [Hk|Hk]; [|done].
      unfold http.Header_Set.
      change (textproto.CanonicalMIMEHeaderKey "Authorization") with "Authorization".
      by rewrite lookup_insert_ne. }
    rewrite Header_Add_all, lookup_empty. by destruct (valuesFor k (req_Headers req)).
Qed.

End headers.

(** ** More on the cancel registry *)

Section cancel_registry_more.
Import tunnel Agent.

Lemma callCancelFunction_dataflow id st :
  dataflow (callCancelFunction id st).2 = dataflow st.
Proof. unfold callCancelFunction. by destruct (cancelRegistry st !! id). Qed.

(** X7: cancelling a registered id calls the cancel function registered
    under it, once, and leaves the entry in the registry; a second cancel of
    the same id calls it again. *)
Theorem callCancelFunction_twice (id : string) (cancel : CancelFunc) (st : agentState) :
  cancelRegistry st !! id = Some cancel →
  let st1 := (callCancelFunction id st).2 in
  let st2 := (callCancelFunction id st1).2 in
  cancelCalls st1 = cancelCalls st ++ [cancel]
  ∧ cancelRegistry st1 = cancelRegistry st
  ∧ cancelCalls st2 = cancelCalls st ++ [cancel; cancel]
  ∧ cancelRegistry st2 = cancelRegistry st
  ∧ dataflow st2 = dataflow st.
Proof.
  intros H. cbn zeta.
  destruct (callCancelFunction_present id cancel st H) as [Hc1 Hr1].
  assert (H1 : cancelRegistry (callCancelFunction id st).2 !! id = Some cancel)
    by by rewrite Hr1.
  destruct (callCancelFunction_present id cancel _ H1) as [Hc2 Hr2].
  split_and!; [done|done| |congruence|].
  - by rewrite Hc2, Hc1, <- app_assoc.
  - by rewrite !callCancelFunction_dataflow.
Qed.

(** X8: registering a cancel function and then unregistering the id
    gives back the registry when the id was not in it; when the id was in
    it, the earlier entry is overwritten by the registration and gone after
    the removal.  Other ids are never affected. *)
Theorem register_unregister (id : string) (cancel : CancelFunc) (st : agentState) :
  let st1 := (registerCancelFunction id cancel st).2 in
  let st2 := (unregisterCancelFunction id st1).2 in
  cancelRegistry st1 !! id = Some cancel
  ∧ cancelRegistry st2 = delete id (cancelRegistry st)
  ∧ (cancelRegistry st !! id = None → st2 = st)
  ∧ (∀ id', id' ≠ id → cancelRegistry st2 !! id' = cancelRegistry st !! id').
Proof.
  cbn. split_and!.
  - by rewrite lookup_insert_eq.
  - by rewrite delete_insert_eq.
  - intros Hn. destruct st as [reg df cc lg nx]. cbn in *.
    unfold set_registry. cbn. by rewrite delete_insert_eq, delete_id.
  - intros id' Hne. by rewrite delete_insert_eq, lookup_delete_ne.
Qed.

End cancel_registry_more.

(** ** More on the credential refresher *)

Section refresher_more.
Import KubernetesAgent RefresherSpec RefresherMore.

Lemma differs_sym scf scf2 : differs scf scf2 → differs scf2 scf.
Proof. unfold differs, differsAsSpecified. intros [[?|[?|[?|[?|?]]]]|?]; eauto 10. Qed.

Lemma not_differs_refl scf : ¬ differs scf scf.
Proof. unfold differs, differsAsSpecified. intros [[?|[?|[?|[?|?]]]]|?]; done. Qed.

Lemma updateServerContext_turn_cases sa saf :
  hasLeaf (f sa) → hasLeaf saf →
  ∃ sa', updateServerContext_turn sa saf = Some sa'
         ∧ ¬ differs (f sa') saf
         ∧ (f sa' = f sa ∨ f sa' = saf)
         ∧ logLines sa `prefix_of` logLines sa'.
Proof.
  intros Hl Hl2. unfold updateServerContext_turn.
  destruct (isSameAs_spec (f sa) saf Hl Hl2) as (same & -> & Hsame). cbn.
  destruct same; cbn; eexists; (split; [reflexivity|]).
  - split_and!; [by apply Hsame | by left | done].
  - split_and!; [apply not_differs_refl | by right | by apply prefix_app_r].
Qed.

(** X9: after the refresher has gone through a sequence of loads, the
    snapshot agrees with the last load on every point that is compared; it
    is the initial snapshot or one of the loads; and the log has only
    grown. *)
Theorem updateServerContextTicker_tracks_last (loads : list serverContextFields)
    (last : serverContextFields) (sa : serverContext) :
  hasLeaf (f sa) → Forall hasLeaf loads → hasLeaf last →
  ∃ sa', updateServerContextTicker sa (loads ++ [last]) = Some sa'
         ∧ ¬ differs (f sa') last
         ∧ f sa' ∈ f sa :: loads ++ [last]
         ∧ logLines sa `prefix_of` logLines sa'.
Proof.
  revert sa. induction loads as [|saf loads IH]; intros sa Hl Hloads Hlast.
  - cbn [app updateServerContextTicker].
    destruct (updateServerContext_turn_cases sa last Hl Hlast) as (sa' & -> & Hd & Hf & Hp).
    cbn. exists sa'. split_and!; [done|done| |done].
    rewrite !elem_of_cons. tauto.
  - inversion Hloads as [|?? Hsaf Hloads']; subst.
    cbn [app updateServerContextTicker].
    destruct (updateServerContext_turn_cases sa saf Hl Hsaf) as (sa1 & -> & _ & Hf & Hp).
    cbn.
    assert (hasLeaf (f sa1)) as Hl1 by (destruct Hf as [-> | ->]; done).
    destruct (IH sa1 Hl1 Hloads' Hlast) as (sa' & -> & Hd & Hin & Hp').
    exists sa'. split_and!; [done|done| |by etrans].
    cbn [app]. rewrite elem_of_cons in Hin. rewrite !elem_of_cons.
    destruct Hf as [E|E]; rewrite E in Hin; tauto.
Qed.

(** The conditions of [isSameAs] do not depend on the order of the two
    snapshots. *)
Lemma bytes_Compare_ne_sym a b :
  bool_decide (bytes_Compare a b ≠ 0%Z) = bool_decide (bytes_Compare b a ≠ 0%Z).
Proof. apply bool_decide_ext. rewrite !bytes_Compare_eq. split; congruence. Qed.

(** X10: [isSameAs] gives the same answer, or panics alike, when the two
    snapshots are swapped. *)
Theorem isSameAs_sym (scf scf2 : serverContextFields) :
  isSameAs scf scf2 = isSameAs scf2 scf.
Proof.
  unfold isSameAs.
  rewrite (bool_decide_ext (username scf ≠ username scf2) (username scf2 ≠ username scf))
    by (split; congruence).
  rewrite (bool_decide_ext (serverURL scf ≠ serverURL scf2) (serverURL scf2 ≠ serverURL scf))
    by (split; congruence).
  rewrite (bool_decide_ext (token scf ≠ token scf2) (token scf2 ≠ token scf))
    by (split; congruence).
  rewrite (bool_decide_ext (insecure scf ≠ insecure scf2) (insecure scf2 ≠ insecure scf))
    by (split; congruence).
  destruct (_ || _ || _ || _); [done|].
  destruct (serverCA scf) as [ca|], (serverCA scf2) as [ca2|]; cbn; try done.
  - unfold x509.Equal.
    rewrite (bool_decide_ext (x509.Raw ca = x509.Raw ca2) (x509.Raw ca2 = x509.Raw ca))
      by (split; congruence).
    destruct (negb _); [done|].
    destruct (clientCert scf) as [cert|], (clientCert scf2) as [cert2|]; cbn; try done.
    destruct (tls.Certificate_chain cert !! 0%nat) as [leaf|],
             (tls.Certificate_chain cert2 !! 0%nat) as [leaf2|]; try done.
    by rewrite bytes_Compare_ne_sym.
  - destruct (clientCert scf) as [cert|], (clientCert scf2) as [cert2|]; cbn; try done.
    destruct (tls.Certificate_chain cert !! 0%nat) as [leaf|],
             (tls.Certificate_chain cert2 !! 0%nat) as [leaf2|]; try done.
    by rewrite bytes_Compare_ne_sym.
Qed.

(** Closes a goal of [isSameAs_panics] in which [isSameAs] answers. *)
Ltac answers :=
  split; [discriminate
         | intros [(?&?&?&?&?) (?&?&?&?&?)]; cbn in *; congruence].

(** X11: [isSameAs] panics exactly when the two snapshots agree on
    username, server URL, token, insecure flag and CA certificate, both
    have a client certificate, and the chain of one of them is empty. *)
Theorem isSameAs_panics (scf scf2 : serverContextFields) :
  isSameAs scf scf2 = None ↔ agreeBeforeLeaf scf scf2 ∧ leafMissing scf scf2.
Proof.
  unfold isSameAs, agreeBeforeLeaf, leafMissing, caBytes.
  case_bool_decide as Hu; cbn [orb]; [answers|].
  case_bool_decide as Hs; cbn [orb]; [answers|].
  case_bool_decide as Ht; cbn [orb]; [answers|].
  case_bool_decide as Hi; cbn [orb]; [answers|].
  assert (∀ o : option bool,
            (o = None ↔ leafMissing scf scf2) →
            x509.Raw <$> serverCA scf = x509.Raw <$> serverCA scf2 →
            o = None ↔
            (username scf = username scf2 ∧ serverURL scf = serverURL scf2
             ∧ token scf = token scf2 ∧ insecure scf = insecure scf2
             ∧ x509.Raw <$> serverCA scf = x509.Raw <$> serverCA scf2)
            ∧ leafMissing scf scf2) as Hwrap.
  { intros o Ho Hca. rewrite Ho. tauto. }
  assert (match clientCert scf, clientCert scf2 with
          | Some cert, Some cert2 =>
              match tls.Certificate_chain cert !! 0%nat,
                    tls.Certificate_chain cert2 !! 0%nat with
              | Some leaf, Some leaf2 =>
                  if bool_decide (bytes_Compare leaf leaf2 ≠ 0%Z)
                  then Some false else Some true
              | _, _ => None
              end
          | Some _, None | None, Some _ => Some false
          | None, None => Some true
          end = None ↔ leafMissing scf scf2) as Hleaf.
  { unfold leafMissing.
    destruct (clientCert scf) as [cert|] eqn:Ec, (clientCert scf2) as [cert2|] eqn:Ec2.
    2-4: split; [discriminate | intros (?&?&?&?&?); congruence].
    destruct (tls.Certificate_chain cert) as [|leaf chain] eqn:El;
      destruct (tls.Certificate_chain cert2) as [|leaf2 chain2] eqn:El2; cbn.
    1-3: split; [intros _; exists cert, cert2; rewrite El, El2; tauto | done].
    case_bool_decide.
    all: split; [discriminate|];
      intros (c1 & c2 & [= <-] & [= <-] & [E|E]); congruence. }
  unfold leafMissing in Hwrap, Hleaf.
  destruct (serverCA scf) as [ca|] eqn:Eca, (serverCA scf2) as [ca2|] eqn:Eca2; cbn;
    try answers.
  - unfold x509.Equal. case_bool_decide as Hraw; cbn [negb]; [|answers].
    apply Hwrap; [|cbn; congruence]. rewrite <- Hleaf.
    destruct (clientCert scf), (clientCert scf2); reflexivity.
  - apply Hwrap; [|done]. rewrite <- Hleaf.
    destruct (clientCert scf), (clientCert scf2); reflexivity.
Qed.

End refresher_more.

(** ** More on the inbound HTTP handler *)

Section handler_more.
Import tunnel Controller HandlerSpec ExecutorFrames HandlerRuns.

(** With a session to pick, the handler is its response loop. *)
Lemma kubernetesAPIHandler_picked env st w r cn agentList :
  commonName r = Some cn →
  agents_m st !! firstLabel cn = Some agentList →
  rnd_Intn env (length agentList) < length agentList →
  ∃ agent,
    agentList !! rnd_Intn env (length agentList) = Some agent
    ∧ kubernetesAPIHandler env st w r
      = let ol := responseLoop (firstLabel cn) (out_frames env) (out_closed env)
                    (loopStart w r) in
        mkHandlerResult ol.1 (counted st (firstLabel cn)) (l_w ol.2) (l_rHeader ol.2)
          (Some (agent, forwarded env r (firstLabel cn))) (cleanClose ol.2) (l_log ol.2).
Proof.
  intros Hcn Hag Hrnd. unfold commonName in Hcn.
  unfold kubernetesAPIHandler. rewrite Hcn. cbn zeta. cbn [agents_m].
  rewrite Hag. change (default [] (Some agentList)) with agentList.
  rewrite bool_decide_eq_false_2 by done.
  rewrite bool_decide_eq_false_2 by lia. cbn [orb].
  destruct (lookup_lt_is_Some_2 agentList _ Hrnd) as [agent Hagent].
  exists agent. split; [done|]. rewrite Hagent.
  unfold loopStart, forwarded, counted.
  by destruct (responseLoop _ _ _ _) as [o l].
Qed.

(** X12: for a request with a client certificate, the handler hands a
    request to a session exactly when the registry has a non-empty list
    of sessions for the identity; the session is the one of that list that
    [rnd.Intn] drew, and the request carries the minted id, the identity as
    target, the method, URI and body of the inbound request, an empty
    protocol, and the headers without [Accept-Encoding]. *)
Theorem kubernetesAPIHandler_forwards (env : handlerEnv) (st : controllerState)
    (w : ResponseWriter) (r : Request) (cn : string) :
  commonName r = Some cn →
  (∀ n, (0 < n → rnd_Intn env n < n)%nat) →
  let res := kubernetesAPIHandler env st w r in
  let agentList := default [] (agents_m st !! firstLabel cn) in
  (agentList = [] → h_sent res = None)
  ∧ (agentList ≠ [] →
     ∃ agent, agentList !! rnd_Intn env (length agentList) = Some agent
              ∧ h_sent res = Some (agent, forwarded env r (firstLabel cn))).
Proof.
  intros Hcn Hrnd. cbn zeta. split.
  - intros Hnil. unfold commonName in Hcn.
    unfold kubernetesAPIHandler. rewrite Hcn. cbn zeta. cbn [agents_m].
    rewrite Hnil. rewrite (bool_decide_eq_true_2 (length [] = 0%nat)) by done.
    rewrite orb_true_r. by destruct (WriteHeader _ _).
  - intros Hne. destruct (agents_m st !! firstLabel cn) as [agentList|] eqn:Hag; [|done].
    cbn in Hne. cbn [default].
    assert (rnd_Intn env (length agentList) < length agentList) as Hlt.
    { apply Hrnd. destruct agentList; [done|cbn; lia]. }
    destruct (kubernetesAPIHandler_picked env st w r cn agentList Hcn Hag Hlt)
      as (agent & Hagent & ->).
    exists agent. done.
Qed.

(** X13: for a request with a client certificate, the handler adds
    exactly one to the request counter of the identity, whatever happens
    next (no session, panic, answer or no answer from the agent); it leaves
    the other counters and the registry of sessions as they are.  Without
    a certificate it panics before counting. *)
Theorem kubernetesAPIHandler_counts (env : handlerEnv) (st : controllerState)
    (w : ResponseWriter) (r : Request) :
  let res := kubernetesAPIHandler env st w r in
  match commonName r with
  | Some cn => h_state res = counted st (firstLabel cn)
               ∧ apiRequestCounter (h_state res) !! firstLabel cn
                 = Some (S (default 0%nat (apiRequestCounter st !! firstLabel cn)))
               ∧ (∀ other, other ≠ firstLabel cn →
                    apiRequestCounter (h_state res) !! other = apiRequestCounter st !! other)
               ∧ agents_m (h_state res) = agents_m st
  | None => h_outcome res = Panicked ∧ h_state res = st ∧ h_w res = w ∧ h_sent res = None
  end.
Proof.
  cbn zeta. unfold commonName, kubernetesAPIHandler.
  destruct (r_TLS r ≫= _) as [cn|]; [|done]. cbn zeta.
  destruct (_ || _);
    [destruct (WriteHeader _ _)
    |destruct (_ !! rnd_Intn env _); [destruct (responseLoop _ _ _ _)|]];
    cbn;
    (split_and!;
       [done | by rewrite lookup_insert_eq
       | by intros other Hne; rewrite lookup_insert_ne | done]).
Qed.

Lemma writeAll_spec chunked fs : ∀ w,
  wroteHeader w = true →
  let w' := writeAll chunked fs w in
  w_body w' = w_body w ++ chunkBodies fs
  ∧ w_flushes w' = (w_flushes w + if chunked then length fs else 0)%nat
  ∧ w_status w' = w_status w ∧ w_sentHeader w' = w_sentHeader w
  ∧ w_Header w' = w_Header w ∧ wroteHeader w' = true.
Proof.
  induction fs as [|fr fs IH]; intros w Hw; cbn zeta.
  - cbn. rewrite app_nil_r. destruct chunked; split_and!; (done || lia).
  - change (writeAll chunked (fr :: fs) w)
      with (writeAll chunked fs
              (if chunked then Flush (Write (frameBody fr) w) else Write (frameBody fr) w)).
    set (w1 := if chunked then Flush (Write (frameBody fr) w) else Write (frameBody fr) w).
    assert (wroteHeader w1 = true ∧ w_body w1 = w_body w ++ frameBody fr
            ∧ w_flushes w1 = (w_flushes w + if chunked then 1 else 0)%nat
            ∧ w_status w1 = w_status w ∧ w_sentHeader w1 = w_sentHeader w
            ∧ w_Header w1 = w_Header w) as (Hw1 & Hb & Hf & Hs & Hh & Hm).
    { subst w1. unfold Flush, Write. rewrite Hw. destruct chunked; cbn; rewrite ?Hw; cbn;
        split_and!; (done || lia). }
    destruct (IH w1 Hw1) as (Hb' & Hf' & Hs' & Hh' & Hm' & Hw').
    rewrite Hb', Hf', Hs', Hh', Hm', Hw', Hb, Hf, Hs, Hh, Hm.
    unfold chunkBodies. cbn [fmap list_fmap concat]. rewrite <- app_assoc.
    destruct chunked; cbn [length]; split_and!; (done || lia).
Qed.

(** Data chunks after the header frame are written one by one. *)
Lemma responseLoop_data agentname fs : ∀ tail closed l,
  seenHeader l = true →
  Forall isDataChunk fs →
  responseLoop agentname (fs ++ tail) closed l
  = responseLoop agentname tail closed
      (mkLoopState (writeAll (isChunked l) fs (l_w l)) (l_rHeader l) true (isChunked l)
                   (cleanClose l) (l_log l)).
Proof.
  induction fs as [|fr fs IH]; intros tail closed l Hseen Hfs.
  - cbn [app]. unfold writeAll. cbn [foldl]. rewrite <- Hseen. by destruct l.
  - inversion Hfs as [|?? [Hc Hb] Hfs']; subst.
    cbn [app responseLoop]. unfold isChunkFrame in Hc. unfold frameBody in Hb.
    destruct (Event fr) as [[h|pg|resp|c|]|] eqn:E; try done.
    rewrite Hseen. cbn [negb].
    rewrite bool_decide_eq_false_2 by (by destruct (chunk_Body c)).
    rewrite IH by done. cbn.
    change (writeAll (isChunked l) (fr :: fs) (l_w l))
      with (writeAll (isChunked l) fs
              (if isChunked l then Flush (Write (frameBody fr) (l_w l))
               else Write (frameBody fr) (l_w l))).
    unfold frameBody. rewrite E. by destruct (isChunked l).
Qed.

Lemma responseLoop_terminated agentname t rest closed l :
  seenHeader l = true → isTerminatingChunk t = true →
  responseLoop agentname (t :: rest) closed l
  = (Returned, mkLoopState (l_w l) (l_rHeader l) (seenHeader l) (isChunked l) true (l_log l)).
Proof.
  intros Hseen Ht. cbn [responseLoop]. unfold isTerminatingChunk in Ht.
  destruct (Event t) as [[h|pg|resp|c|]|]; try done.
  rewrite Hseen. cbn [negb]. apply bool_decide_eq_true_1 in Ht. rewrite Ht. done.
Qed.

(** The [HttpResponse] arm on a writer whose header was not written. *)
Lemma onHttpResponse_fresh resp l :
  wroteHeader (l_w l) = false →
  (100 ≤ resp_Status resp ≤ 999)%Z →
  let H := foldl (λ h header,
                    foldl (λ h value, http.Header_Add (Name header) value h) h (Values header))
                 (w_Header (l_w l)) (resp_Headers resp) in
  onHttpResponse resp l
  = Some (mkLoopState
            (mkResponseWriter H true (resp_Status resp) H (w_body (l_w l)) (w_flushes (l_w l)))
            (foldl (λ h name, http.Header_Del name h) (l_rHeader l)
                   (map_to_list (w_Header (l_w l))).*1)
            true (bool_decide (resp_ContentLength resp < 0)%Z) (cleanClose l) (l_log l)).
Proof.
  intros Hw Hc. cbn zeta. unfold onHttpResponse.
  rewrite WriteHeader_fresh by done. done.
Qed.

(** The loop over a header frame, data chunks and the terminating
    chunk. *)
Lemma responseLoop_relays agentname resp fs t rest closed l :
  wroteHeader (l_w l) = false →
  (100 ≤ resp_Status resp ≤ 999)%Z →
  resp_ContentLength resp ≠ 0%Z →
  Forall isDataChunk fs →
  isTerminatingChunk t = true →
  ∃ l', responseLoop agentname (headerOf resp :: fs ++ t :: rest) closed l = (Returned, l')
        ∧ w_status (l_w l') = resp_Status resp
        ∧ w_body (l_w l') = w_body (l_w l) ++ chunkBodies fs
        ∧ w_flushes (l_w l')
          = (w_flushes (l_w l)
             + if bool_decide (resp_ContentLength resp < 0)%Z then length fs else 0)%nat
        ∧ cleanClose l' = true
        ∧ w_sentHeader (l_w l')
          = foldl (λ h header,
                     foldl (λ h value, http.Header_Add (Name header) value h) h (Values header))
                  (w_Header (l_w l)) (resp_Headers resp).
Proof.
  intros Hw Hstatus Hcl Hfs Ht.
  unfold headerOf. cbn [responseLoop Event].
  rewrite onHttpResponse_fresh by done. cbn zeta.
  rewrite bool_decide_eq_false_2 by done.
  rewrite responseLoop_data by done.
  rewrite responseLoop_terminated by done. cbn.
  match goal with |- context [writeAll ?ch fs ?w0] =>
    destruct (writeAll_spec ch fs w0 eq_refl) as (Hb & Hf & Hs & Hh & _) end.
  cbn in Hb, Hf, Hs, Hh. eexists. split; [reflexivity|]. cbn. done.
Qed.

Lemma responseLoop_zero_length agentname resp rest closed l :
  wroteHeader (l_w l) = false →
  (100 ≤ resp_Status resp ≤ 999)%Z →
  resp_ContentLength resp = 0%Z →
  ∃ l', responseLoop agentname (headerOf resp :: rest) closed l = (Returned, l')
        ∧ w_status (l_w l') = resp_Status resp
        ∧ w_body (l_w l') = w_body (l_w l)
        ∧ w_flushes (l_w l') = w_flushes (l_w l)
        ∧ cleanClose l' = true.
Proof.
  intros Hw Hstatus Hcl. unfold headerOf. cbn [responseLoop Event].
  rewrite onHttpResponse_fresh by done. cbn zeta.
  rewrite bool_decide_eq_true_2 by done. eexists. done.
Qed.

(** X14: a header frame with a status from 100 to 999 and a content
    length other than 0, then chunk frames with bytes, then a terminating
    chunk: the handler writes the status of the header frame, then the
    bodies of the chunks in their order and nothing else, flushes after each
    chunk exactly when the content length is negative, marks the close as
    clean and returns without reading further frames.  On a response writer
    without headers of its own, the headers sent are those of the header
    frame, gathered by canonical name. *)
Theorem kubernetesAPIHandler_relays (env : handlerEnv) (st : controllerState)
    (w : ResponseWriter) (r : Request) (cn : string) (agentList : list agentState)
    (resp : HttpResponse) (fs : list ASEventWrapper) (t : ASEventWrapper)
    (rest : list ASEventWrapper) :
  commonName r = Some cn →
  agents_m st !! firstLabel cn = Some agentList →
  rnd_Intn env (length agentList) < length agentList →
  out_frames env = headerOf resp :: fs ++ t :: rest →
  wroteHeader w = false →
  (100 ≤ resp_Status resp ≤ 999)%Z →
  resp_ContentLength resp ≠ 0%Z →
  Forall isDataChunk fs →
  isTerminatingChunk t = true →
  let res := kubernetesAPIHandler env st w r in
  h_outcome res = Returned
  ∧ w_status (h_w res) = resp_Status resp
  ∧ w_body (h_w res) = w_body w ++ chunkBodies fs
  ∧ w_flushes (h_w res)
    = (w_flushes w + if bool_decide (resp_ContentLength resp < 0)%Z then length fs else 0)%nat
  ∧ h_cleanClose res = true
  ∧ (w_Header w = ∅ →
     ∀ k, w_sentHeader (h_w res) !! k
          = match valuesFor k (resp_Headers resp) with [] => None | vs => Some vs end).
Proof.
  intros Hcn Hag Hrnd Hframes Hw Hstatus Hcl Hfs Ht. cbn zeta.
  destruct (kubernetesAPIHandler_picked env st w r cn agentList Hcn Hag Hrnd)
    as (agent & _ & ->).
  rewrite Hframes.
  destruct (responseLoop_relays (firstLabel cn) resp fs t rest (out_closed env)
              (loopStart w r)) as (l' & -> & Hs & Hb & Hf & Hc & Hh); [done..|].
  cbn. split_and!; [done..|].
  intros Hempty k. rewrite Hh. cbn. rewrite Hempty, Header_Add_all, lookup_empty.
  by destruct (valuesFor k (resp_Headers resp)).
Qed.

(** X15: a header frame with content length 0 ends the request at once:
    the handler writes its status, writes no body, marks the close as clean
    and returns; the frames after it are not read. *)
Theorem kubernetesAPIHandler_zero_length (env : handlerEnv) (st : controllerState)
    (w : ResponseWriter) (r : Request) (cn : string) (agentList : list agentState)
    (resp : HttpResponse) (rest : list ASEventWrapper) :
  commonName r = Some cn →
  agents_m st !! firstLabel cn = Some agentList →
  rnd_Intn env (length agentList) < length agentList →
  out_frames env = headerOf resp :: rest →
  wroteHeader w = false →
  (100 ≤ resp_Status resp ≤ 999)%Z →
  resp_ContentLength resp = 0%Z →
  let res := kubernetesAPIHandler env st w r in
  h_outcome res = Returned
  ∧ w_status (h_w res) = resp_Status resp
  ∧ w_body (h_w res) = w_body w
  ∧ w_flushes (h_w res) = w_flushes w
  ∧ h_cleanClose res = true.
Proof.
  intros Hcn Hag Hrnd Hframes Hw Hstatus Hcl. cbn zeta.
  destruct (kubernetesAPIHandler_picked env st w r cn agentList Hcn Hag Hrnd)
    as (agent & _ & ->).
  rewrite Hframes.
  destruct (responseLoop_zero_length (firstLabel cn) resp rest (out_closed env)
              (loopStart w r)) as (l' & -> & Hs & Hb & Hf & Hc); [done..|].
  cbn. done.
Qed.

(** The log has no influence on what the loop does. *)
Lemma responseLoop_sameButLog agentname frames closed : ∀ l1 l2,
  sameButLog l1 l2 →
  (responseLoop agentname frames closed l1).1 = (responseLoop agentname frames closed l2).1
  ∧ sameButLog (responseLoop agentname frames closed l1).2
               (responseLoop agentname frames closed l2).2.
Proof.
  induction frames as [|fr frames IH]; intros [w1 rh1 sh1 ic1 cc1 lg1] [w2 rh2 sh2 ic2 cc2 lg2];
    unfold sameButLog; cbn; intros (-> & -> & -> & -> & ->).
  - destruct closed; [|done]. destruct sh2; cbn; [done|].
    destruct (WriteHeader _ w2); done.
  - destruct (Event fr) as [[h|pg|resp|c|]|].
    + apply IH. done.
    + apply IH. done.
    + unfold onHttpResponse. cbn. destruct (WriteHeader _ _) as [w'|]; cbn; [|done].
      case_bool_decide; [done|]. apply IH. done.
    + destruct sh2; cbn.
      * case_bool_decide; [done|]. apply IH. done.
      * destruct (WriteHeader _ w2); done.
    + apply IH. done.
    + apply IH. done.
Qed.

Lemma responseLoop_skip agentname fr frames closed l :
  isSkipped fr = true →
  (responseLoop agentname (fr :: frames) closed l).1 = (responseLoop agentname frames closed l).1
  ∧ sameButLog (responseLoop agentname (fr :: frames) closed l).2
               (responseLoop agentname frames closed l).2.
Proof.
  intros Hs. unfold isSkipped, isHeaderFrame, isChunkFrame in Hs. cbn [responseLoop].
  destruct (Event fr) as [[h|pg|resp|c|]|]; try done.
  all: apply responseLoop_sameButLog; done.
Qed.

(** X16: frames without an arm, and frames of an arm other than the
    header and the chunk, make no difference to what the handler does: with
    them taken out of the sequence it returns, blocks or panics alike, with
    the same response written, the same clean-close mark and the same
    request forwarded.  Only the log can differ. *)
Theorem kubernetesAPIHandler_skips (rnd : nat → nat) (id : string)
    (frames : list ASEventWrapper) (closed : bool) (st : controllerState)
    (w : ResponseWriter) (r : Request) :
  let res := kubernetesAPIHandler (mkHandlerEnv rnd id frames closed) st w r in
  let res' := kubernetesAPIHandler
                (mkHandlerEnv rnd id (filter (λ fr, isSkipped fr = false) frames) closed)
                st w r in
  h_outcome res = h_outcome res' ∧ h_w res = h_w res' ∧ h_rHeader res = h_rHeader res'
  ∧ h_cleanClose res = h_cleanClose res' ∧ h_sent res = h_sent res'
  ∧ h_state res = h_state res'.
Proof.
  cbn zeta.
  assert (∀ agentname l,
            (responseLoop agentname frames closed l).1
            = (responseLoop agentname (filter (λ fr, isSkipped fr = false) frames) closed l).1
            ∧ sameButLog (responseLoop agentname frames closed l).2
                (responseLoop agentname (filter (λ fr, isSkipped fr = false) frames) closed l).2)
    as Hloop.
  { intros agentname. induction frames as [|fr frames IH]; intros l; [done|].
    destruct (isSkipped fr) eqn:Hs.
    - rewrite filter_cons_False by (by rewrite Hs).
      destruct (responseLoop_skip agentname fr frames closed l Hs) as [Ho Hl].
      destruct (IH l) as [Ho' Hl']. split; [congruence|].
      unfold sameButLog in *. destruct Hl as (?&?&?&?&?), Hl' as (?&?&?&?&?).
      split_and!; congruence.
    - rewrite filter_cons_True by done.
      unfold isSkipped, isHeaderFrame, isChunkFrame in Hs. cbn [responseLoop].
      destruct (Event fr) as [[h|pg|resp|c|]|]; try done.
      + destruct (onHttpResponse resp l) as [l'|]; [|done].
        case_bool_decide; [done|]. apply IH.
      + destruct (negb (seenHeader l)); [by destruct (WriteHeader _ _)|].
        case_bool_decide; [done|]. apply IH. }
  unfold kubernetesAPIHandler. cbn [rnd_Intn Ulid out_frames out_closed].
  destruct (r_TLS r ≫= _) as [cn|]; [|done]. cbn zeta.
  destruct (_ || _); [done|].
  destruct (_ !! rnd _) as [agent|]; [|done].
  match goal with |- context [responseLoop ?a frames closed ?l] =>
    destruct (Hloop a l) as [Ho (Hw & Hr & _ & _ & Hc)] end.
  destruct (responseLoop _ frames _ _) as [o l], (responseLoop _ (filter _ _) _ _) as [o' l'].
  cbn in *. subst. done.
Qed.

Lemma responseLoop_closed_unanswered agentname pre : ∀ l,
  Forall (λ fr, isSkipped fr = true) pre →
  seenHeader l = false →
  wroteHeader (l_w l) = false →
  ∃ l', responseLoop agentname pre true l = (Returned, l')
        ∧ l_w l' = mkResponseWriter (w_Header (l_w l)) true http.StatusBadGateway
                     (w_Header (l_w l)) (w_body (l_w l)) (w_flushes (l_w l))
        ∧ cleanClose l' = true.
Proof.
  induction pre as [|fr pre IH]; intros l Hpre Hseen Hw.
  - cbn [responseLoop]. rewrite Hseen. cbn [negb].
    rewrite WriteHeader_fresh by (done || (unfold http.StatusBadGateway; lia)).
    eexists. done.
  - inversion Hpre as [|?? Hs Hpre']; subst.
    unfold isSkipped, isHeaderFrame, isChunkFrame in Hs. cbn [responseLoop].
    destruct (Event fr) as [[h|pg|resp|c|]|]; try done.
    1,2,3: (edestruct (IH (mkLoopState (l_w l) (l_rHeader l) (seenHeader l) (isChunked l)
                             (cleanClose l)
                             (l_log l ++ ["Received unknown message: " +:+ agentname])))
              as (l' & Hrun & Hl & Hc); [done..|]; exists l'; done).
    by apply IH.
Qed.

(** X17: when the channel is closed and no header frame and no chunk
    frame came before, the handler answers 502 Bad Gateway without a body
    and returns, and it marks the close as clean. *)
Theorem kubernetesAPIHandler_closed_unanswered (env : handlerEnv) (st : controllerState)
    (w : ResponseWriter) (r : Request) (cn : string) (agentList : list agentState) :
  commonName r = Some cn →
  agents_m st !! firstLabel cn = Some agentList →
  rnd_Intn env (length agentList) < length agentList →
  Forall (λ fr, isSkipped fr = true) (out_frames env) →
  out_closed env = true →
  wroteHeader w = false →
  let res := kubernetesAPIHandler env st w r in
  h_outcome res = Returned
  ∧ w_status (h_w res) = 502%Z
  ∧ w_body (h_w res) = w_body w
  ∧ w_flushes (h_w res) = w_flushes w
  ∧ h_cleanClose res = true.
Proof.
  intros Hcn Hag Hrnd Hframes Hclosed Hw. cbn zeta.
  destruct (kubernetesAPIHandler_picked env st w r cn agentList Hcn Hag Hrnd)
    as (agent & _ & ->).
  rewrite Hclosed.
  destruct (responseLoop_closed_unanswered (firstLabel cn) (out_frames env) (loopStart w r))
    as (l' & -> & Hl' & Hc); [done..|].
  cbn. rewrite Hl'. done.
Qed.

(** X18: when, after the header frame and some data chunks, no further
    frame comes, the handler has written the status and the bodies of the
    chunks so far; if the channel is closed it returns and marks the close
    as clean, and if the channel is still open it waits. *)
Theorem kubernetesAPIHandler_unterminated (env : handlerEnv) (st : controllerState)
    (w : ResponseWriter) (r : Request) (cn : string) (agentList : list agentState)
    (resp : HttpResponse) (fs : list ASEventWrapper) :
  commonName r = Some cn →
  agents_m st !! firstLabel cn = Some agentList →
  rnd_Intn env (length agentList) < length agentList →
  out_frames env = headerOf resp :: fs →
  wroteHeader w = false →
  (100 ≤ resp_Status resp ≤ 999)%Z →
  resp_ContentLength resp ≠ 0%Z →
  Forall isDataChunk fs →
  let res := kubernetesAPIHandler env st w r in
  h_outcome res = (if out_closed env then Returned else Blocked)
  ∧ h_cleanClose res = out_closed env
  ∧ w_status (h_w res) = resp_Status resp
  ∧ w_body (h_w res) = w_body w ++ chunkBodies fs.
Proof.
  intros Hcn Hag Hrnd Hframes Hw Hstatus Hcl Hfs. cbn zeta.
  destruct (kubernetesAPIHandler_picked env st w r cn agentList Hcn Hag Hrnd)
    as (agent & _ & ->).
  rewrite Hframes. unfold headerOf, loopStart. cbn [responseLoop Event].
  rewrite onHttpResponse_fresh by done. cbn zeta.
  rewrite bool_decide_eq_false_2 by done.
  rewrite <- (app_nil_r fs), responseLoop_data by done. rewrite app_nil_r.
  match goal with |- context [writeAll ?ch fs ?w0] =>
    destruct (writeAll_spec ch fs w0 eq_refl) as (Hb & _ & Hs & _) end.
  cbn in Hb, Hs. cbn [responseLoop].
  destruct (out_closed env); cbn; done.
Qed.

End handler_more.

(** ** From the backend to the client *)

Section end_to_end.
Import tunnel ExecutorSpec ExecutorFrames HandlerSpec HandlerRuns.

Lemma loopFrames_ends req pre : ∀ rd post e,
  Forall (λ r, Agent.rd_err r = None) pre → Agent.rd_err rd = Some e →
  loopFrames req (pre ++ rd :: post) = dataChunks req (pre ++ [rd]) ++ closing req e.
Proof.
  induction pre as [|r pre IH]; intros rd post e Hpre He.
  - cbn [app loopFrames]. rewrite He. unfold dataChunks. rewrite bind_cons.
    cbn [mbind list_bind]. by rewrite app_nil_r.
  - inversion Hpre as [|?? Hr Hpre']; subst.
    cbn [app loopFrames]. rewrite Hr, (IH rd post e) by done.
    unfold dataChunks. by rewrite bind_cons, app_assoc.
Qed.

Lemma dataChunks_data req rds : Forall isDataChunk (dataChunks req rds).
Proof.
  unfold dataChunks. induction rds as [|rd rds IH]; [constructor|].
  rewrite bind_cons. apply Forall_app. split; [|exact IH].
  eapply Forall_impl; [apply dataChunk_bears|]. by intros fr (_ & _ & ? & _ & ?).
Qed.

Lemma dataChunks_bodies req rds :
  chunkBodies (dataChunks req rds)
  = concat ((λ r, take Agent.readBufferSize (Agent.rd_data r)) <$> rds).
Proof.
  unfold dataChunks, chunkBodies. induction rds as [|rd rds IH]; [done|].
  rewrite bind_cons, fmap_app, concat_app, IH. cbn [fmap list_fmap concat]. f_equal.
  unfold dataChunk. destruct (take _ _); [done|]. cbn. by rewrite app_nil_r.
Qed.

(** X19: the executor's frames, arriving at the handler in the order
    sent.  When the backend answered with a status from 100 to 999 and the
    reads of the body ended with EOF or with an error other than context
    cancellation, the client gets the backend's status and, unless the
    content length announced is 0, the bytes the reads brought (each read cut
    to the buffer), in order; the handler returns with a clean close.  With
    content length 0 the client gets the status and no body. *)
Theorem tunnel_round_trip (be : Agent.backend) (c : Agent.serverContext) (req : HttpRequest)
    (st : Agent.agentState) (get : Agent.Response) (pre : list Agent.readResult)
    (rd : Agent.readResult) (post : list Agent.readResult) (e : Agent.readError)
    (env : Controller.handlerEnv) (stc : Controller.controllerState)
    (w : Controller.ResponseWriter) (r : Controller.Request) (cn : string)
    (agentList : list Controller.agentState) (rest : list ASEventWrapper) :
  Agent.NewRequestWithContext_ok be (req_Method req) (Agent.serverURL c +:+ req_URI req) = true →
  Agent.Do be (Agent.executeRequest_client c)
    (Agent.executeRequest_httpRequest c req (Agent.nextContext st)) = Some get →
  Agent.Body get = pre ++ rd :: post →
  Forall (λ r, Agent.rd_err r = None) pre →
  Agent.rd_err rd = Some e →
  e ≠ Agent.Canceled →
  (100 ≤ Agent.int32 (Agent.StatusCode get) ≤ 999)%Z →
  commonName r = Some cn →
  Controller.agents_m stc !! Controller.firstLabel cn = Some agentList →
  Controller.rnd_Intn env (length agentList) < length agentList →
  Controller.out_frames env
    = framesSince st (Agent.executeRequest be c req st).2 ++ rest →
  Controller.wroteHeader w = false →
  let res := Controller.kubernetesAPIHandler env stc w r in
  Controller.h_outcome res = Controller.Returned
  ∧ Controller.w_status (Controller.h_w res) = Agent.int32 (Agent.StatusCode get)
  ∧ Controller.w_body (Controller.h_w res)
    = Controller.w_body w
      ++ (if bool_decide (Agent.ContentLength get = 0)%Z then []
          else concat ((λ r, take (Z.to_nat 10240) (Agent.rd_data r)) <$> (pre ++ [rd])))
  ∧ Controller.h_cleanClose res = true.
Proof.
  intros Hok Hdo Hbody Hpre He Hne Hstatus Hcn Hag Hrnd Hframes Hw. cbn zeta.
  destruct (executeRequest_frames be c req st) as [Hd _].
  rewrite (framesSince_app _ _ _ Hd) in Hframes. unfold emitted in Hframes.
  rewrite Hok, Hdo in Hframes. cbn [negb] in Hframes.
  rewrite Hbody, (loopFrames_ends req pre rd post e Hpre He) in Hframes.
  assert (closing req e = [terminatingChunk req]) as Hclose by (by destruct e).
  rewrite Hclose in Hframes. cbn [app] in Hframes. rewrite <- app_assoc in Hframes.
  cbn [app] in Hframes.
  destruct (kubernetesAPIHandler_picked env stc w r cn agentList Hcn Hag Hrnd)
    as (agent & _ & ->).
  rewrite Hframes.
  destruct (decide (Agent.ContentLength get = 0%Z)) as [Hz|Hnz].
  - rewrite bool_decide_eq_true_2 by done. rewrite app_nil_r.
    destruct (responseLoop_zero_length (Controller.firstLabel cn)
                (mkHttpResponse (req_Id req) (req_Target req)
                   (Agent.int32 (Agent.StatusCode get)) (Agent.ContentLength get)
                   (Agent.makeHeaders (Agent.Header get)))
                (dataChunks req (pre ++ [rd]) ++ terminatingChunk req :: rest)
                (Controller.out_closed env) (loopStart w r))
      as (l' & Hrun & ? & ? & _ & ?); [done..|].
    unfold headerOf in Hrun. unfold headerFrame. rewrite Hrun. done.
  - rewrite bool_decide_eq_false_2 by done.
    destruct (responseLoop_relays (Controller.firstLabel cn)
                (mkHttpResponse (req_Id req) (req_Target req)
                   (Agent.int32 (Agent.StatusCode get)) (Agent.ContentLength get)
                   (Agent.makeHeaders (Agent.Header get)))
                (dataChunks req (pre ++ [rd])) (terminatingChunk req) rest
                (Controller.out_closed env) (loopStart w r))
      as (l' & Hrun & ? & Hb & _ & ? & _); [done..|apply dataChunks_data|done|].
    unfold headerOf in Hrun. unfold headerFrame. rewrite Hrun. cbn.
    rewrite Hb, dataChunks_bodies. done.
Qed.

(** X20: when the outbound request could not be built or its execution
    failed, and the executor's frames arrive at the handler, the client gets
    502 Bad Gateway without a body, and the handler returns with a clean
    close. *)
Theorem tunnel_upstream_error (be : Agent.backend) (c : Agent.serverContext) (req : HttpRequest)
    (st : Agent.agentState)
    (env : Controller.handlerEnv) (stc : Controller.controllerState)
    (w : Controller.ResponseWriter) (r : Controller.Request) (cn : string)
    (agentList : list Controller.agentState) (rest : list ASEventWrapper) :
  Agent.NewRequestWithContext_ok be (req_Method req) (Agent.serverURL c +:+ req_URI req) = false
  ∨ Agent.Do be (Agent.executeRequest_client c)
      (Agent.executeRequest_httpRequest c req (Agent.nextContext st)) = None →
  commonName r = Some cn →
  Controller.agents_m stc !! Controller.firstLabel cn = Some agentList →
  Controller.rnd_Intn env (length agentList) < length agentList →
  Controller.out_frames env
    = framesSince st (Agent.executeRequest be c req st).2 ++ rest →
  Controller.wroteHeader w = false →
  let res := Controller.kubernetesAPIHandler env stc w r in
  Controller.h_outcome res = Controller.Returned
  ∧ Controller.w_status (Controller.h_w res) = 502%Z
  ∧ Controller.w_body (Controller.h_w res) = Controller.w_body w
  ∧ Controller.h_cleanClose res = true.
Proof.
  intros Herr Hcn Hag Hrnd Hframes Hw. cbn zeta.
  destruct (executeRequest_frames be c req st) as [Hd _].
  rewrite (framesSince_app _ _ _ Hd) in Hframes. unfold emitted in Hframes.
  assert (Controller.out_frames env = badGatewayFrame req :: rest) as Hf.
  { rewrite Hframes. destruct (Agent.NewRequestWithContext_ok be _ _); cbn [negb]; [|done].
    destruct Herr as [?|Hdo]; [done|]. by rewrite Hdo. }
  destruct (kubernetesAPIHandler_picked env stc w r cn agentList Hcn Hag Hrnd)
    as (agent & _ & ->).
  rewrite Hf.
  destruct (responseLoop_zero_length (Controller.firstLabel cn)
              (mkHttpResponse (req_Id req) (req_Target req) 502 0 []) rest
              (Controller.out_closed env) (loopStart w r))
    as (l' & Hrun & ? & ? & _ & ?); [done|cbn; lia|done|].
  unfold headerOf in Hrun. unfold badGatewayFrame. rewrite Hrun. done.
Qed.

(** After the status line the loop keeps it. *)
Lemma responseLoop_status_aux (agentname : string) (frames : list ASEventWrapper)
    (closed : bool) (l : Controller.loopState) :
  Controller.wroteHeader (Controller.l_w l) = true →
  let ol := Controller.responseLoop agentname frames closed l in
  Controller.w_status (Controller.l_w ol.2) = Controller.w_status (Controller.l_w l)
  ∧ Controller.w_sentHeader (Controller.l_w ol.2) = Controller.w_sentHeader (Controller.l_w l)
  ∧ Controller.wroteHeader (Controller.l_w ol.2) = true
  ∧ Controller.w_body (Controller.l_w l) `prefix_of` Controller.w_body (Controller.l_w ol.2)
  ∧ ol.1 ≠ Controller.Panicked.
Proof.
  revert l. induction frames as [|fr frames IH]; intros l Hw; cbn zeta.
  - cbn [Controller.responseLoop]. destruct closed; [|done].
    destruct (negb _); [|done]. unfold Controller.WriteHeader. rewrite Hw. done.
  - cbn [Controller.responseLoop].
    destruct (Event fr) as [[h|pg|resp|c|]|].
    1,2,5: (match goal with |- context [Controller.responseLoop _ _ _ ?l1] =>
              destruct (IH l1 Hw) as (H1 & H2 & H3 & H4 & H5) end; cbn in *; done).
    3: by apply IH.
    + unfold Controller.onHttpResponse, Controller.WriteHeader. cbn. rewrite Hw. cbn.
      case_bool_decide; [done|].
      match goal with |- context [Controller.responseLoop _ _ _ ?l1] =>
        destruct (IH l1 Hw) as (H1 & H2 & H3 & H4 & H5) end.
      cbn in *. done.
    + destruct (negb _).
      { unfold Controller.WriteHeader. rewrite Hw. done. }
      case_bool_decide; [done|].
      set (w1 := if Controller.isChunked l
                 then Controller.Flush (Controller.Write (chunk_Body c) (Controller.l_w l))
                 else Controller.Write (chunk_Body c) (Controller.l_w l)).
      assert (Controller.wroteHeader w1 = true
              ∧ Controller.w_status w1 = Controller.w_status (Controller.l_w l)
              ∧ Controller.w_sentHeader w1 = Controller.w_sentHeader (Controller.l_w l)
              ∧ Controller.w_body w1 = Controller.w_body (Controller.l_w l) ++ chunk_Body c)
        as (Hw1 & Hs1 & Hh1 & Hb1).
      { subst w1. unfold Controller.Flush, Controller.Write. rewrite Hw.
        destruct (Controller.isChunked l); cbn; rewrite ?Hw; done. }
      match goal with |- context [Controller.responseLoop _ _ _ ?l1] =>
        destruct (IH l1 Hw1) as (H1 & H2 & H3 & H4 & H5) end.
      cbn in *. rewrite H1, H2, Hs1, Hh1. split_and!; [done..| |done].
      etrans; [|exact H4]. rewrite Hb1. by apply prefix_app_r.
Qed.

(** X21: once the status line is written, no frame changes what went
    out with it: whatever frames follow, the status and the headers sent stay
    as they are, the body only grows, and the loop does not panic.  In
    particular a second header frame, or the 502 for a closed channel, has
    no effect on the status the client got. *)
Theorem responseLoop_status_fixed (agentname : string) (frames : list ASEventWrapper)
    (closed : bool) (l : Controller.loopState) :
  Controller.wroteHeader (Controller.l_w l) = true →
  let ol := Controller.responseLoop agentname frames closed l in
  Controller.w_status (Controller.l_w ol.2) = Controller.w_status (Controller.l_w l)
  ∧ Controller.w_sentHeader (Controller.l_w ol.2) = Controller.w_sentHeader (Controller.l_w l)
  ∧ Controller.wroteHeader (Controller.l_w ol.2) = true
  ∧ Controller.w_body (Controller.l_w l) `prefix_of` Controller.w_body (Controller.l_w ol.2)
  ∧ ol.1 ≠ Controller.Panicked.
Proof. apply responseLoop_status_aux. Qed.

Lemma Agent_makeHeaders_range_fmap entries :
  Agent.makeHeaders_range entries = (λ e, mkHttpHeader e.1 e.2) <$> entries.
Proof.
  unfold Agent.makeHeaders_range.
  assert (∀ acc, foldl (λ ret '(name, values), ret ++ [mkHttpHeader name values]) acc entries
                 = acc ++ ((λ e, mkHttpHeader e.1 e.2) <$> entries)) as H.
  { induction entries as [|[name values] entries IH]; intros acc; cbn [foldl].
    - by rewrite app_nil_r.
    - rewrite IH. cbn. by rewrite <- app_assoc. }
  apply H.
Qed.

(** X22: the agent's [makeHeaders] loses nothing: in whatever order the
    map is visited, the list read back as a multimap is the header map,
    [Accept-Encoding] included, and no name occurs twice. *)
Theorem Agent_makeHeaders_round_trip (h : http.Header) (entries : list (string * list string)) :
  entries ≡ₚ map_to_list h →
  headerMap (Agent.makeHeaders_range entries) = h
  ∧ NoDup (Name <$> Agent.makeHeaders_range entries)
  ∧ length (Agent.makeHeaders_range entries) = size h.
Proof.
  intros Hperm. rewrite Agent_makeHeaders_range_fmap. unfold headerMap.
  destruct (headerMap_of_entries entries) as [-> ->].
  assert (Hnd : NoDup entries.*1).
  { rewrite Hperm. apply NoDup_fst_map_to_list. }
  split_and!; [|exact Hnd|].
  - apply map_eq. intros k. apply option_eq. intros v.
    rewrite <- elem_of_list_to_map by exact Hnd.
    by rewrite Hperm, elem_of_map_to_list.
  - rewrite length_fmap, Hperm. by rewrite length_map_to_list.
Qed.

Lemma valuesFor_entries k (l : list (string * list string)) :
  NoDup l.*1 →
  (∀ e, e ∈ l → textproto.CanonicalMIMEHeaderKey e.1 = e.1) →
  valuesFor k ((λ e, mkHttpHeader e.1 e.2) <$> l)
  = default [] ((list_to_map l : http.Header) !! k).
Proof.
  induction l as [|[k' v] l IH]; intros Hnd Hcanon; [done|].
  apply NoDup_cons in Hnd as [Hk' Hnd]. cbn [fmap list_fmap].
  unfold valuesFor. rewrite bind_cons. fold (valuesFor k ((λ e, mkHttpHeader e.1 e.2) <$> l)).
  rewrite IH by (done || (intros e He; apply Hcanon; by apply elem_of_cons; right)).
  pose proof (Hcanon (k', v) ltac:(by apply elem_of_cons; left)) as Hc. cbn in Hc.
  cbn. rewrite Hc. case_bool_decide as Hk.
  - subst k'. rewrite lookup_insert_eq. cbn.
    rewrite (not_elem_of_list_to_map_1 _ _ Hk'). cbn. by rewrite app_nil_r.
  - by rewrite lookup_insert_ne.
Qed.

(** X23: the response headers of the backend, through the executor and
    the handler.  When the header names of the backend's response are in
    canonical form and the response writer has no headers of its own, the
    headers sent to the client are the backend's: each name with at least
    one value goes out with its values in order, and names with no value do
    not go out.  This holds whatever frames follow the header frame. *)
Theorem tunnel_relays_headers (req : HttpRequest) (get : Agent.Response)
    (env : Controller.handlerEnv) (stc : Controller.controllerState)
    (w : Controller.ResponseWriter) (r : Controller.Request) (cn : string)
    (agentList : list Controller.agentState) (rest : list ASEventWrapper) :
  (∀ k vs, Agent.Header get !! k = Some vs → textproto.CanonicalMIMEHeaderKey k = k) →
  (100 ≤ Agent.int32 (Agent.StatusCode get) ≤ 999)%Z →
  commonName r = Some cn →
  Controller.agents_m stc !! Controller.firstLabel cn = Some agentList →
  Controller.rnd_Intn env (length agentList) < length agentList →
  Controller.out_frames env = headerFrame req get :: rest →
  Controller.wroteHeader w = false →
  Controller.w_Header w = ∅ →
  let res := Controller.kubernetesAPIHandler env stc w r in
  Controller.w_status (Controller.h_w res) = Agent.int32 (Agent.StatusCode get)
  ∧ ∀ k, Controller.w_sentHeader (Controller.h_w res) !! k
         = match Agent.Header get !! k with
           | Some (v :: vs) => Some (v :: vs)
           | _ => None
           end.
Proof.
  intros Hcanon Hstatus Hcn Hag Hrnd Hframes Hw Hempty. cbn zeta.
  destruct (kubernetesAPIHandler_picked env stc w r cn agentList Hcn Hag Hrnd)
    as (agent & _ & ->).
  rewrite Hframes. unfold headerFrame, loopStart. cbn [Controller.responseLoop Event].
  rewrite onHttpResponse_fresh by done. cbn zeta.
  cbn [Controller.l_w Controller.w_Header resp_Headers resp_Status resp_ContentLength].
  set (H := foldl _ (Controller.w_Header w) _).
  assert (∀ k, H !! k = match Agent.Header get !! k with
                        | Some (v :: vs) => Some (v :: vs)
                        | _ => None
                        end) as HH.
  { intros k. subst H. rewrite Hempty, Header_Add_all, lookup_empty.
    unfold Agent.makeHeaders. rewrite Agent_makeHeaders_range_fmap.
    rewrite valuesFor_entries.
    - rewrite list_to_map_to_list. by destruct (Agent.Header get !! k) as [[|v vs]|].
    - apply NoDup_fst_map_to_list.
    - intros [k' v'] He. apply elem_of_map_to_list in He. cbn. by eapply Hcanon. }
  case_bool_decide.
  - cbn. done.
  - match goal with |- context [Controller.responseLoop ?a rest ?cl ?l1] =>
      destruct (responseLoop_status_aux a rest cl l1 eq_refl) as (H1 & H2 & _) end.
    cbn in *. rewrite H1, H2. done.
Qed.

End end_to_end.

(** ** Identities *)

Section identities.
Import Controller ControllerStream.

Lemma firstLabel_cons c s :
  firstLabel (String c s)
  = if bool_decide (c = "."%char) then EmptyString else String c (firstLabel s).
Proof.
  unfold firstLabel. cbn [Split_dot]. case_bool_decide; [done|].
  pose proof (Split_dot_nonempty s). by destruct (Split_dot s).
Qed.

Lemma noDot_cons c s : noDot (String c s) ↔ c ≠ "."%char ∧ noDot s.
Proof.
  unfold noDot. cbn. rewrite not_elem_of_cons. split; intros [? ?]; split; congruence.
Qed.

Lemma Split_dot_Join s : Join_dot (Split_dot s) = s.
Proof.
  induction s as [|c s IH]; [done|]. cbn [Split_dot].
  pose proof (Split_dot_nonempty s) as Hne.
  case_bool_decide as Hc.
  - subst c. destruct (Split_dot s) as [|x xs]; [done|].
    change (Join_dot (EmptyString :: x :: xs)) with ("." +:+ Join_dot (x :: xs)).
    by rewrite IH.
  - destruct (Split_dot s) as [|x xs]; [done|]. destruct xs as [|y ys].
    + cbn in *. by rewrite IH.
    + change (Join_dot (String c x :: y :: ys))
        with (String c (x +:+ "." +:+ Join_dot (y :: ys))).
      change (Join_dot (x :: y :: ys)) with (x +:+ "." +:+ Join_dot (y :: ys)) in IH.
      by rewrite IH.
Qed.

Lemma Split_dot_noDot s : Forall noDot (Split_dot s).
Proof.
  induction s as [|c s IH]; cbn [Split_dot].
  - constructor; [|constructor]. unfold noDot. cbn. apply not_elem_of_nil.
  - case_bool_decide as Hc.
    + constructor; [|exact IH]. unfold noDot. cbn. apply not_elem_of_nil.
    + destruct (Split_dot s) as [|x xs].
      * constructor; [|constructor]. apply noDot_cons. split; [done|].
        unfold noDot. cbn. apply not_elem_of_nil.
      * inversion IH; subst. constructor; [|done]. by apply noDot_cons.
Qed.

(** X24: the first label of a name has no dot; a name without a dot is
    its own first label; otherwise the name is its first label, a dot, and
    a rest; and taking the first label twice changes nothing.  Splitting a
    name at the dots and joining the pieces with dots gives the name
    back. *)
Theorem firstLabel_spec (name : string) :
  noDot (firstLabel name)
  ∧ (noDot name → firstLabel name = name)
  ∧ (¬ noDot name → ∃ rest, name = firstLabel name +:+ "." +:+ rest)
  ∧ firstLabel (firstLabel name) = firstLabel name
  ∧ Join_dot (Split_dot name) = name.
Proof.
  split_and!; [| | | |apply Split_dot_Join].
  - induction name as [|c s IH]; [unfold noDot; cbn; apply not_elem_of_nil|].
    rewrite firstLabel_cons. case_bool_decide.
    + unfold noDot. cbn. apply not_elem_of_nil.
    + by apply noDot_cons.
  - induction name as [|c s IH]; [done|]. intros [Hc Hs]%noDot_cons.
    rewrite firstLabel_cons, bool_decide_eq_false_2 by done. by rewrite IH.
  - induction name as [|c s IH]; intros Hd.
    + exfalso. apply Hd. unfold noDot. cbn. apply not_elem_of_nil.
    + rewrite firstLabel_cons. case_bool_decide as Hc.
      * subst c. by exists s.
      * destruct IH as [rest Hrest].
        { intros Hs. apply Hd. by apply noDot_cons. }
        exists rest.
        change (String c s = String c (firstLabel s +:+ "." +:+ rest)). by rewrite <- Hrest.
  - induction name as [|c s IH]; [done|].
    rewrite firstLabel_cons. case_bool_decide as Hc; [done|].
    rewrite firstLabel_cons, bool_decide_eq_false_2 by done. by rewrite IH.
Qed.

(** X25: the identity of an agent's stream is found exactly when the
    context has a peer with TLS credentials whose first verified chain is
    not empty, and it is then the first label of the common name of that
    chain's first certificate, the same identity the HTTP handler derives
    from a client certificate with that common name; it has no dot.  In
    every other case the answer is an Unauthenticated error. *)
Theorem getAgentNameFromContext_spec (ctx_peer : option Peer) :
  match getAgentNameFromContext ctx_peer with
  | inr name =>
      ∃ commonName chain chains,
        ctx_peer = Some (mkPeer (TLSInfo ((commonName :: chain) :: chains)))
        ∧ name = firstLabel commonName ∧ noDot name
  | inl (Unauthenticated msg) =>
      ctx_peer = None
      ∨ (∃ p, ctx_peer = Some p ∧ peer_AuthInfo p = OtherAuthInfo)
      ∨ (∃ p chains, ctx_peer = Some p ∧ peer_AuthInfo p = TLSInfo chains
                     ∧ (chains = [] ∨ chains !! 0%nat = Some []))
  end.
Proof.
  destruct ctx_peer as [[[chains|]]|]; cbn; [|right; left; eauto|by left].
  destruct chains as [|[|cn chain] chains]; cbn.
  - right. right. eauto 10.
  - right. right. eexists _, _. split_and!; [done..|]. by right.
  - pose proof (Split_dot_nonempty cn) as Hne.
    pose proof (Split_dot_noDot cn) as Hnd.
    destruct (Split_dot cn) as [|x xs] eqn:E; [done|]. cbn.
    exists cn, chain, chains. unfold firstLabel. rewrite E. cbn.
    split_and!; [done..|]. by inversion Hnd.
Qed.

End identities.

(** ** The controller's configuration *)

Section configuration.
Import ControllerConfigFile.
Context {caConfig : Type}.
Implicit Types c : ControllerConfig caConfig.

Lemma hasServerName_elem c target : hasServerName c target = true ↔ target ∈ ServerNames c.
Proof.
  unfold hasServerName. rewrite existsb_exists. split.
  - intros (a & Hin & Ha). apply bool_decide_eq_true_1 in Ha. subst.
    by apply list_elem_of_In.
  - intros Hin. exists target. split; [by apply list_elem_of_In | by apply bool_decide_eq_true_2].
Qed.

(** What [addIfMissing] keeps and what it adds. *)
Lemma addIfMissing_spec target reason c log :
  let c' := (addIfMissing target reason (c, log)).1 in
  (∃ added, ServerNames c' = ServerNames c ++ added
            ∧ (added = [] ∨ ∃ t, target = Some t ∧ added = [t] ∧ t ∉ ServerNames c))
  ∧ (∀ t, target = Some t → t ∈ ServerNames c')
  ∧ c' = set_ServerNames (ServerNames c') c.
Proof.
  cbn zeta. unfold addIfMissing. destruct target as [t|]; cbn.
  - destruct (hasServerName c t) eqn:Hh; cbn.
    + apply hasServerName_elem in Hh. split_and!.
      * exists []. rewrite app_nil_r. eauto.
      * by intros ? [= <-].
      * by destruct c.
    + split_and!.
      * exists [t]. split; [done|]. right. exists t. split_and!; [done..|].
        rewrite <- hasServerName_elem. by rewrite Hh.
      * intros ? [= <-]. apply elem_of_app. right. by apply list_elem_of_singleton.
      * done.
  - split_and!; [exists []; rewrite app_nil_r; eauto|done|by destruct c].
Qed.

Lemma extends_refl c : ConfigSpec.extends c c [].
Proof.
  unfold ConfigSpec.extends. split_and!.
  - exists []. rewrite app_nil_r. split_and!; [done|constructor|constructor].
  - intros t Ht. by apply elem_of_nil in Ht.
  - by destruct c.
Qed.

Lemma extends_step c c' done target reason log :
  ConfigSpec.extends c c' done →
  ConfigSpec.extends c (addIfMissing target reason (c', log)).1 (done ++ [target]).
Proof.
  intros ((added & Hn & Hnd & Hadd) & Hdone & Hc').
  destruct (addIfMissing_spec target reason c' log) as ((new & Hnew & Hcase) & Htarget & Hset).
  cbn zeta in *. set (c'' := (addIfMissing target reason (c', log)).1) in *.
  unfold ConfigSpec.extends. split_and!.
  - exists (added ++ new). rewrite Hnew, Hn, <- app_assoc. split; [done|].
    destruct Hcase as [-> | (t & -> & -> & Hnotin)].
    + rewrite app_nil_r. split; [done|].
      eapply Forall_impl; [exact Hadd|]. intros t [? ?]. split; [done|].
      apply elem_of_app. by left.
    + rewrite Hn in Hnotin. apply not_elem_of_app in Hnotin as [Hc Ha]. split.
      * apply NoDup_app. split_and!; [done| |apply NoDup_singleton].
        intros x Hx ->%list_elem_of_singleton. done.
      * apply Forall_app. split.
        -- eapply Forall_impl; [exact Hadd|]. intros x [? ?]. split; [done|].
           apply elem_of_app. by left.
        -- constructor; [|constructor]. split; [done|].
           apply elem_of_app. right. by apply list_elem_of_singleton.
  - intros t [Ht | Ht%list_elem_of_singleton]%elem_of_app.
    + rewrite Hnew. apply elem_of_app. left. by apply Hdone.
    + by apply Htarget.
  - rewrite Hset, Hc'. by destruct c.
Qed.

Lemma extends_fields c c' done :
  ConfigSpec.extends c c' done →
  AgentHostname c' = AgentHostname c ∧ ControlHostname c' = ControlHostname c
  ∧ ServiceHostname c' = ServiceHostname c
  ∧ RemoteCommandHostname c' = RemoteCommandHostname c.
Proof. intros (_ & _ & ->). done. Qed.

Lemma addAllHostnames_extends c :
  ConfigSpec.extends c (addAllHostnames c).1 (ConfigSpec.hostnames c).
Proof.
  unfold addAllHostnames. cbn zeta. cbn [fst].
  pose proof (extends_step c c [] (AgentHostname c) "agentHostname" [] (extends_refl c)) as H1.
  destruct (addIfMissing (AgentHostname c) "agentHostname" (c, [])) as [c1 log1].
  cbn [fst] in *.
  pose proof (extends_step c c1 _ (ControlHostname c1) "commandHostname" log1 H1) as H2.
  destruct (extends_fields _ _ _ H1) as (_ & E2 & _).
  destruct (addIfMissing (ControlHostname c1) "commandHostname" (c1, log1)) as [c2 log2].
  cbn [fst] in *.
  pose proof (extends_step c c2 _ (ServiceHostname c2) "ServiceBaseHostname" log2 H2) as H3.
  destruct (extends_fields _ _ _ H2) as (_ & _ & E3 & _).
  destruct (addIfMissing (ServiceHostname c2) "ServiceBaseHostname" (c2, log2)) as [c3 log3].
  cbn [fst] in *.
  pose proof (extends_step c c3 _ (RemoteCommandHostname c3) "cmdToolHostname" log3 H3) as H4.
  destruct (extends_fields _ _ _ H3) as (_ & _ & _ & E4).
  rewrite E2, E3 in H4. rewrite E4 in H4 |- *. exact H4.
Qed.

Lemma addIfMissing_present t reason c log :
  t ∈ ServerNames c → addIfMissing (Some t) reason (c, log) = (c, log).
Proof.
  intros Hin. unfold addIfMissing. apply hasServerName_elem in Hin. by rewrite Hin.
Qed.

Lemma addIfMissing_settled target reason c log :
  (∀ t, target = Some t → t ∈ ServerNames c) →
  addIfMissing target reason (c, log) = (c, log).
Proof.
  intros H. destruct target as [t|]; [|done]. apply addIfMissing_present. by apply H.
Qed.

(** X26: [addAllHostnames] only adds at the end of the server names:
    the names that were there stay, in their order; the names added are
    distinct, were not there before and are among the four hostnames; every
    hostname that is set is a server name afterwards; no other field
    changes; server names without duplicates stay without duplicates; and a
    second run changes nothing and logs nothing. *)
Theorem addAllHostnames_spec (c : ControllerConfig caConfig) :
  let c' := (addAllHostnames c).1 in
  (∃ added, ServerNames c' = ServerNames c ++ added
            ∧ NoDup added
            ∧ Forall (λ t, (t ∉ ServerNames c) ∧ Some t ∈ ConfigSpec.hostnames c) added)
  ∧ (∀ t, Some t ∈ ConfigSpec.hostnames c → t ∈ ServerNames c')
  ∧ c' = set_ServerNames (ServerNames c') c
  ∧ (NoDup (ServerNames c) → NoDup (ServerNames c'))
  ∧ addAllHostnames c' = (c', []).
Proof.
  cbn zeta. pose proof (addAllHostnames_extends c) as Hext.
  destruct Hext as ((added & Hn & Hnd & Hadd) & Hdone & Hset).
  split_and!; [by exists added|done|done| |].
  - intros Hc. rewrite Hn. apply NoDup_app. split_and!; [done| |done].
    intros x Hx Hx'. rewrite Forall_forall in Hadd. by destruct (Hadd x Hx').
  - set (c' := (addAllHostnames c).1) in *.
    assert (ConfigSpec.hostnames c' = ConfigSpec.hostnames c) as Hh by (by rewrite Hset).
    unfold addAllHostnames. cbn zeta. cbn [fst].
    rewrite (addIfMissing_settled (AgentHostname c')); cbn [fst].
    2: { intros t Ht. apply Hdone. rewrite <- Hh. unfold ConfigSpec.hostnames.
         rewrite Ht. apply elem_of_cons. by left. }
    rewrite (addIfMissing_settled (ControlHostname c')); cbn [fst].
    2: { intros t Ht. apply Hdone. rewrite <- Hh. unfold ConfigSpec.hostnames.
         rewrite Ht. rewrite !elem_of_cons. tauto. }
    rewrite (addIfMissing_settled (ServiceHostname c')); cbn [fst].
    2: { intros t Ht. apply Hdone. rewrite <- Hh. unfold ConfigSpec.hostnames.
         rewrite Ht. rewrite !elem_of_cons. tauto. }
    rewrite (addIfMissing_settled (RemoteCommandHostname c')); [done|].
    intros t Ht. apply Hdone. rewrite <- Hh. unfold ConfigSpec.hostnames.
    rewrite Ht. rewrite !elem_of_cons. tauto.
Qed.

(** X27: [LoadConfig] fails when the file cannot be read or decoded, and
    otherwise exactly when one of the four hostnames is not set; the
    error names the first one missing in the order agent, service, control,
    remote command.  When it succeeds, every port that was 0 has its
    default (9001, 9002, 9003, 9004, 9102; the advertised agent port
    defaults to the agent port) and so no port is 0; ports that were set and
    the hostnames are kept; the server names of the file stay in front and
    every hostname is among the server names. *)
Theorem LoadConfig_spec (f : string + bytes)
    (Unmarshal : bytes → string + ControllerConfig caConfig) :
  match LoadConfig f Unmarshal with
  | inl (ReadError e) => f = inl e
  | inl (YamlError e) => ∃ buf, f = inr buf ∧ Unmarshal buf = inl e
  | inl (Errorf msg) =>
      ∃ buf config, f = inr buf ∧ Unmarshal buf = inr config
        ∧ ((msg = "agentHostname not set" ∧ AgentHostname config = None)
           ∨ (msg = "serviceHostname not set" ∧ AgentHostname config ≠ None
              ∧ ServiceHostname config = None)
           ∨ (msg = "controlHostname not set" ∧ AgentHostname config ≠ None
              ∧ ServiceHostname config ≠ None ∧ ControlHostname config = None)
           ∨ (msg = "remoteCommandHostname not set" ∧ AgentHostname config ≠ None
              ∧ ServiceHostname config ≠ None ∧ ControlHostname config ≠ None
              ∧ RemoteCommandHostname config = None))
  | inr (c', log) =>
      ∃ buf config, f = inr buf ∧ Unmarshal buf = inr config
        ∧ Forall (λ h, h ≠ None) (ConfigSpec.hostnames config)
        ∧ ConfigSpec.hostnames c' = ConfigSpec.hostnames config
        ∧ AgentListenPort c' = ConfigSpec.defaulted (AgentListenPort config) 9001
        ∧ AgentAdvertisePort c'
          = ConfigSpec.defaulted (AgentAdvertisePort config) (AgentListenPort c')
        ∧ ServiceListenPort c' = ConfigSpec.defaulted (ServiceListenPort config) 9002
        ∧ ControlListenPort c' = ConfigSpec.defaulted (ControlListenPort config) 9003
        ∧ RemoteCommandListenPort c'
          = ConfigSpec.defaulted (RemoteCommandListenPort config) 9004
        ∧ PrometheusListenPort c' = ConfigSpec.defaulted (PrometheusListenPort config) 9102
        ∧ Forall (λ port, port ≠ 0%Z)
            [AgentListenPort c'; AgentAdvertisePort c'; ServiceListenPort c';
             ControlListenPort c'; RemoteCommandListenPort c'; PrometheusListenPort c']
        ∧ ServerNames config `prefix_of` ServerNames c'
        ∧ (∀ t, Some t ∈ ConfigSpec.hostnames config → t ∈ ServerNames c')
        ∧ Agents c' = Agents config ∧ ServiceAuth c' = ServiceAuth config
        ∧ Webhook c' = Webhook config ∧ CAConfig c' = CAConfig config
  end.
Proof.
  unfold LoadConfig. destruct f as [e|buf]; [done|].
  destruct (Unmarshal buf) as [e|config] eqn:Hu; [by exists buf|].
  case_bool_decide as Ha; [exists buf, config; tauto|].
  case_bool_decide as Hs; [exists buf, config; tauto|].
  case_bool_decide as Hc; [exists buf, config; tauto|].
  case_bool_decide as Hr; [exists buf, config; tauto|].
  cbn zeta.
  match goal with |- context [addAllHostnames ?c0] =>
    pose proof (addAllHostnames_extends c0) as ((added & Hn & _) & Hdone & Hset);
    destruct (addAllHostnames c0) as [c' log] end.
  cbn [fst] in *. cbn in Hn, Hdone.
  exists buf, config. rewrite Hset. cbn.
  unfold ConfigSpec.defaulted.
  split_and!; try done.
  - repeat constructor; done.
  - repeat constructor; repeat case_bool_decide; lia.
  - rewrite Hn. by apply prefix_app_r.
Qed.

End configuration.

(** ** The further properties at work *)

Lemma executeRequest_relays_body_witness :
  let be := Examples.backend_answers Examples.body_complete in
  let sent := ExecutorFrames.chunkBodies (MoreExamples.executor_frames be) in
  sent = Examples.ok_bytes.
Proof.
  cbn zeta.
  pose proof (executeRequest_relays_body (Examples.backend_answers Examples.body_complete)
                Examples.credentials Examples.healthz Examples.idle
                (MoreExamples.answer_200 Examples.body_complete)
                [Agent.mkReadResult Examples.ok_bytes None]
                (Agent.mkReadResult [] (Some Agent.EOF)) [] Agent.EOF
                eq_refl eq_refl eq_refl
                ltac:(repeat constructor) eq_refl) as [_ H].
  unfold MoreExamples.executor_frames. rewrite H; [reflexivity|].
  constructor; [|constructor; [|constructor]]; apply Nat.leb_le; vm_compute; reflexivity.
Defined.

Lemma callCancelFunction_twice_witness :
  let st1 := (Agent.callCancelFunction "01F8MECHZX3TBDSZ7XRADM79XE" MoreExamples.registry_one).2 in
  let st2 := (Agent.callCancelFunction "01F8MECHZX3TBDSZ7XRADM79XE" st1).2 in
  Agent.cancelCalls st2 = [7%nat; 7%nat]
  ∧ Agent.cancelRegistry st2 = Agent.cancelRegistry MoreExamples.registry_one.
Proof.
  cbn zeta.
  pose proof (callCancelFunction_twice "01F8MECHZX3TBDSZ7XRADM79XE" 7%nat
                MoreExamples.registry_one eq_refl) as (_ & _ & H3 & H4 & _).
  split; [exact H3 | exact H4].
Defined.

Lemma updateServerContextTicker_tracks_last_witness :
  ∃ sa', KubernetesAgent.updateServerContextTicker
           (KubernetesAgent.mkServerContext Examples.snapshot_verifying [])
           ([Examples.snapshot_rotated] ++ [Examples.snapshot_insecure]) = Some sa'
         ∧ ¬ RefresherSpec.differs (KubernetesAgent.f sa') Examples.snapshot_insecure.
Proof.
  destruct (updateServerContextTicker_tracks_last [Examples.snapshot_rotated]
              Examples.snapshot_insecure
              (KubernetesAgent.mkServerContext Examples.snapshot_verifying []))
    as (sa' & Hrun & Hd & _).
  - intros cert [= <-]. discriminate.
  - constructor; [|constructor]. intros cert [= <-]. discriminate.
  - intros cert [= <-]. discriminate.
  - exists sa'. split; [exact Hrun | exact Hd].
Defined.

Lemma kubernetesAPIHandler_forwards_witness :
  let res := Controller.kubernetesAPIHandler Examples.env_answered Examples.controller_A1
               Examples.writer_fresh MoreExamples.A1_request in
  ∃ agent, MoreExamples.A1_sessions !! 0%nat = Some agent
           ∧ Controller.h_sent res
             = Some (agent, HandlerRuns.forwarded Examples.env_answered
                              MoreExamples.A1_request "A1").
Proof.
  cbn zeta.
  refine (proj2 (kubernetesAPIHandler_forwards Examples.env_answered Examples.controller_A1
                   Examples.writer_fresh MoreExamples.A1_request "A1.agents.example"
                   eq_refl _) _).
  - intros n Hn. exact Hn.
  - discriminate.
Defined.

Lemma kubernetesAPIHandler_relays_witness :
  let res := Controller.kubernetesAPIHandler Examples.env_answered Examples.controller_A1
               Examples.writer_fresh MoreExamples.A1_request in
  Controller.h_outcome res = Controller.Returned
  ∧ Controller.w_status (Controller.h_w res) = 200%Z
  ∧ Controller.w_body (Controller.h_w res) = Examples.ok_bytes
  ∧ Controller.h_cleanClose res = true.
Proof.
  cbn zeta.
  pose proof (kubernetesAPIHandler_relays Examples.env_answered Examples.controller_A1
                Examples.writer_fresh MoreExamples.A1_request "A1.agents.example"
                MoreExamples.A1_sessions MoreExamples.upstream_response
                [Examples.upstream_chunk Examples.ok_bytes] (Examples.upstream_chunk []) []
                eq_refl eq_refl ltac:(cbn; lia) eq_refl eq_refl ltac:(cbn; lia)
                ltac:(discriminate) ltac:(repeat constructor; discriminate) eq_refl)
    as (H1 & H2 & H3 & _ & H5 & _).
  split_and!; [exact H1 | exact H2 | exact H3 | exact H5].
Defined.

Lemma kubernetesAPIHandler_zero_length_witness :
  let env := MoreExamples.env_of [HandlerRuns.headerOf MoreExamples.no_content;
                                  Examples.upstream_chunk Examples.ok_bytes] false in
  let res := Controller.kubernetesAPIHandler env Examples.controller_A1
               Examples.writer_fresh MoreExamples.A1_request in
  Controller.h_outcome res = Controller.Returned
  ∧ Controller.w_status (Controller.h_w res) = 204%Z
  ∧ Controller.w_body (Controller.h_w res) = []
  ∧ Controller.w_flushes (Controller.h_w res) = 0%nat
  ∧ Controller.h_cleanClose res = true.
Proof.
  cbn zeta.
  apply (kubernetesAPIHandler_zero_length
           (MoreExamples.env_of [HandlerRuns.headerOf MoreExamples.no_content;
                                 Examples.upstream_chunk Examples.ok_bytes] false)
           Examples.controller_A1 Examples.writer_fresh MoreExamples.A1_request
           "A1.agents.example" MoreExamples.A1_sessions MoreExamples.no_content
           [Examples.upstream_chunk Examples.ok_bytes]).
  - reflexivity.
  - reflexivity.
  - cbn. lia.
  - reflexivity.
  - reflexivity.
  - cbn. lia.
  - reflexivity.
Defined.

Lemma kubernetesAPIHandler_closed_unanswered_witness :
  let env := MoreExamples.env_of [tunnel.mkASEventWrapper None] true in
  let res := Controller.kubernetesAPIHandler env Examples.controller_A1
               Examples.writer_fresh MoreExamples.A1_request in
  Controller.h_outcome res = Controller.Returned
  ∧ Controller.w_status (Controller.h_w res) = 502%Z
  ∧ Controller.w_body (Controller.h_w res) = []
  ∧ Controller.w_flushes (Controller.h_w res) = 0%nat
  ∧ Controller.h_cleanClose res = true.
Proof.
  cbn zeta.
  apply (kubernetesAPIHandler_closed_unanswered
           (MoreExamples.env_of [tunnel.mkASEventWrapper None] true)
           Examples.controller_A1 Examples.writer_fresh MoreExamples.A1_request
           "A1.agents.example" MoreExamples.A1_sessions).
  - reflexivity.
  - reflexivity.
  - cbn. lia.
  - repeat constructor.
  - reflexivity.
  - reflexivity.
Defined.

Lemma kubernetesAPIHandler_unterminated_witness :
  let env := MoreExamples.env_of [HandlerRuns.headerOf MoreExamples.upstream_response;
                                  Examples.upstream_chunk Examples.ok_bytes] false in
  let res := Controller.kubernetesAPIHandler env Examples.controller_A1
               Examples.writer_fresh MoreExamples.A1_request in
  Controller.h_outcome res = Controller.Blocked
  ∧ Controller.h_cleanClose res = false
  ∧ Controller.w_status (Controller.h_w res) = 200%Z
  ∧ Controller.w_body (Controller.h_w res) = Examples.ok_bytes.
Proof.
  cbn zeta.
  apply (kubernetesAPIHandler_unterminated
           (MoreExamples.env_of [HandlerRuns.headerOf MoreExamples.upstream_response;
                                 Examples.upstream_chunk Examples.ok_bytes] false)
           Examples.controller_A1 Examples.writer_fresh MoreExamples.A1_request
           "A1.agents.example" MoreExamples.A1_sessions MoreExamples.upstream_response
           [Examples.upstream_chunk Examples.ok_bytes]).
  - reflexivity.
  - reflexivity.
  - cbn. lia.
  - reflexivity.
  - reflexivity.
  - cbn. lia.
  - discriminate.
  - repeat constructor; discriminate.
Defined.

Lemma tunnel_round_trip_witness :
  let be := Examples.backend_answers Examples.body_complete in
  let res := Controller.kubernetesAPIHandler
               (MoreExamples.env_of (MoreExamples.executor_frames be) false)
               Examples.controller_A1 Examples.writer_fresh MoreExamples.A1_request in
  Controller.h_outcome res = Controller.Returned
  ∧ Controller.w_status (Controller.h_w res) = 200%Z
  ∧ Controller.w_body (Controller.h_w res) = Examples.ok_bytes
  ∧ Controller.h_cleanClose res = true.
Proof.
  cbn zeta.
  pose proof (tunnel_round_trip (Examples.backend_answers Examples.body_complete)
                Examples.credentials Examples.healthz Examples.idle
                (MoreExamples.answer_200 Examples.body_complete)
                [Agent.mkReadResult Examples.ok_bytes None]
                (Agent.mkReadResult [] (Some Agent.EOF)) [] Agent.EOF
                (MoreExamples.env_of
                   (MoreExamples.executor_frames
                      (Examples.backend_answers Examples.body_complete)) false)
                Examples.controller_A1 Examples.writer_fresh MoreExamples.A1_request
                "A1.agents.example" MoreExamples.A1_sessions []
                eq_refl eq_refl eq_refl ltac:(repeat constructor) eq_refl
                ltac:(discriminate) ltac:(vm_compute; split; discriminate)
                eq_refl eq_refl ltac:(cbn; lia)
                ltac:(symmetry; apply app_nil_r) eq_refl)
    as (H1 & H2 & H3 & H4).
  split_and!; [exact H1 | exact H2 | exact H3 | exact H4].
Defined.

Lemma tunnel_upstream_error_witness :
  let res := Controller.kubernetesAPIHandler
               (MoreExamples.env_of (MoreExamples.executor_frames Examples.backend_down) false)
               Examples.controller_A1 Examples.writer_fresh MoreExamples.A1_request in
  Controller.h_outcome res = Controller.Returned
  ∧ Controller.w_status (Controller.h_w res) = 502%Z
  ∧ Controller.w_body (Controller.h_w res) = []
  ∧ Controller.h_cleanClose res = true.
Proof.
  cbn zeta.
  apply (tunnel_upstream_error Examples.backend_down Examples.credentials Examples.healthz
           Examples.idle
           (MoreExamples.env_of (MoreExamples.executor_frames Examples.backend_down) false)
           Examples.controller_A1 Examples.writer_fresh MoreExamples.A1_request
           "A1.agents.example" MoreExamples.A1_sessions []).
  - right. reflexivity.
  - reflexivity.
  - reflexivity.
  - cbn. lia.
  - symmetry. apply app_nil_r.
  - reflexivity.
Defined.

Lemma responseLoop_status_fixed_witness :
  let ol := Controller.responseLoop "A1"
              [HandlerRuns.headerOf MoreExamples.no_content] true MoreExamples.loop_answered in
  Controller.w_status (Controller.l_w ol.2) = 200%Z
  ∧ Controller.w_sentHeader (Controller.l_w ol.2) = ∅
  ∧ ol.1 ≠ Controller.Panicked.
Proof.
  cbn zeta.
  pose proof (responseLoop_status_fixed "A1" [HandlerRuns.headerOf MoreExamples.no_content]
                true MoreExamples.loop_answered eq_refl) as (H1 & H2 & _ & _ & H5).
  split_and!; [exact H1 | exact H2 | exact H5].
Defined.

Lemma Agent_makeHeaders_round_trip_witness :
  HandlerSpec.headerMap (Agent.makeHeaders MoreExamples.two_headers) = MoreExamples.two_headers
  ∧ length (Agent.makeHeaders MoreExamples.two_headers) = 2%nat.
Proof.
  pose proof (Agent_makeHeaders_round_trip MoreExamples.two_headers
                (map_to_list MoreExamples.two_headers) (reflexivity _)) as (H1 & _ & H3).
  split; [exact H1 | exact H3].
Defined.

Lemma tunnel_relays_headers_witness :
  let get := MoreExamples.answer_200 Examples.body_complete in
  let res := Controller.kubernetesAPIHandler
               (MoreExamples.env_of [ExecutorSpec.headerFrame Examples.healthz get] false)
               Examples.controller_A1 Examples.writer_fresh MoreExamples.A1_request in
  Controller.w_status (Controller.h_w res) = 200%Z
  ∧ Controller.w_sentHeader (Controller.h_w res) !! "Content-Type" = Some ["text/plain"].
Proof.
  cbn zeta.
  pose proof (tunnel_relays_headers Examples.healthz
                (MoreExamples.answer_200 Examples.body_complete)
                (MoreExamples.env_of
                   [ExecutorSpec.headerFrame Examples.healthz
                      (MoreExamples.answer_200 Examples.body_complete)] false)
                Examples.controller_A1 Examples.writer_fresh MoreExamples.A1_request
                "A1.agents.example" MoreExamples.A1_sessions []) as H.
  destruct H as [H1 H2].
  - intros k vs Hk. cbn in Hk. apply lookup_singleton_Some in Hk as [<- _]. reflexivity.
  - vm_compute. split; discriminate.
  - reflexivity.
  - reflexivity.
  - cbn. lia.
  - reflexivity.
  - reflexivity.
  - reflexivity.
  - split; [exact H1|]. rewrite H2. reflexivity.
Defined.


(** ** The first header frame *)

Section first_header.
Import tunnel Controller HandlerSpec ExecutorFrames HandlerRuns.



End first_header.

